(** * Serial bridge of the centrifuge controller (serial_controller.py)

    A shallow embedding of [SerialController]: the status record, the
    line parser, the change detector, the write path, the disconnect
    handlers and the two background loops.

    Python values are modelled as follows.
    - [int] is [Z] (unbounded); [str] is [string], read as the UTF-8
      bytes of the text; [bool] is [bool].
    - Exceptions are values of [exn]; a computation that can raise
      returns a [Result].  Only instances of [Exception] are modelled
      (system-exiting exceptions such as KeyboardInterrupt are not).
    - The object [self] is the record [SerialController]; methods are
      computations in the monad [M], which threads the object and the
      clock, keeps every mutation made before an exception was raised,
      and collects the outside effects (log records, observer calls,
      bytes written to the port, closing the port) in order.
    - The two locks are not data: the model is sequential, a [with lock]
      block is the computation [with_lock], whose intermediate states
      nobody else can see and whose final state, reached normally or by
      an exception, is what the next reader sees.
    - [json.loads], which belongs to the Python library, is a parameter
      of the parser; the module [json] holds an executable model of it,
      used where a concrete line has to be decoded.
    - The port is the record [Serial]; what the device sends and which
      writes fail are scripts carried by it.  [close()] does not fail.

    - The two threads are the records [Thread] held by the object.  The
      model is sequential: each loop is a function of the number of
      iterations observed, and a thread that [disconnect()] waits for
      runs during the wait, from the blocking call it is in
      ([readline()] for the reader, [time.sleep()] for the watchdog) to
      the test of the stop event.

    The observers that the web backend (v2uiweb_backend.py) registers,
    its shared dict and its routes are modelled in the module
    [v2uiweb_backend].  Left out: the wrapper [CentrifugeController]. *)

From Stdlib Require Import ZArith List String Ascii Bool Lia DecimalString.
Import ListNotations.
Local Open Scope string_scope.
Local Open Scope Z_scope.

(** ** Exceptions *)

Inductive ExnClass :=
| Exception          (* any other subclass of Exception *)
| SerialException
| ValueError
| JSONDecodeError    (* a subclass of ValueError *)
| KeyError
| TypeError
| OverflowError
| AttributeError.

Definition ExnClass_eqb (a b : ExnClass) : bool :=
  match a, b with
  | Exception, Exception | SerialException, SerialException
  | ValueError, ValueError | JSONDecodeError, JSONDecodeError
  | KeyError, KeyError | TypeError, TypeError
  | OverflowError, OverflowError | AttributeError, AttributeError => true
  | _, _ => false
  end.

(** [issubclass c d]: class [c] is [d] or derives from it. *)
Definition issubclass (c d : ExnClass) : bool :=
  match d with
  | Exception => true
  | ValueError => ExnClass_eqb c ValueError || ExnClass_eqb c JSONDecodeError
  | _ => ExnClass_eqb c d
  end.

Record exn := mkExn { exn_class : ExnClass; exn_str : string }.

(** [except (A, B) as e] catches [e] when it is an instance of one of the
    listed classes. *)
Definition isinstance (e : exn) (classes : list ExnClass) : bool :=
  existsb (issubclass (exn_class e)) classes.

Inductive Result (A : Type) :=
| Ok (a : A)
| Raise (e : exn).
Arguments Ok {A} a.
Arguments Raise {A} e.

(** ** Data types *)

Inductive SystemState :=
| IDLE | RAMPING_UP | RUNNING | RAMPING_DOWN | ERROR | DISCONNECTED.

(** [SystemState.value] *)
Definition value (s : SystemState) : string :=
  match s with
  | IDLE => "IDLE"
  | RAMPING_UP => "RAMPING_UP"
  | RUNNING => "RUNNING"
  | RAMPING_DOWN => "RAMPING_DOWN"
  | ERROR => "ERROR"
  | DISCONNECTED => "DISCONNECTED"
  end.

Definition SystemState_eqb (a b : SystemState) : bool :=
  match a, b with
  | IDLE, IDLE | RAMPING_UP, RAMPING_UP | RUNNING, RUNNING
  | RAMPING_DOWN, RAMPING_DOWN | ERROR, ERROR
  | DISCONNECTED, DISCONNECTED => true
  | _, _ => false
  end.

Definition all_states : list SystemState :=
  [IDLE; RAMPING_UP; RUNNING; RAMPING_DOWN; ERROR; DISCONNECTED].

(** [SystemState(text)]: the member whose value is [text], if any. *)
Definition SystemState_of_string (text : string) : option SystemState :=
  find (fun s => String.eqb (value s) text) all_states.

(** A reading of the clock, [time.time()].  The number is only stored,
    never computed with. *)
Definition Time := Z.

Record ArduinoStatus := mkStatus {
  state : SystemState;
  current_rpm : Z;
  target_rpm : Z;
  pwm : Z;
  lid_closed : bool;
  level : bool;
  running : bool;
  remaining_ms : Z;
  error_reason : string;
  last_updated : Time
}.

(** [ArduinoStatus()], built at time [now]. *)
Definition ArduinoStatus_default (now : Time) : ArduinoStatus :=
  mkStatus DISCONNECTED 0 0 0 false false false 0 "" now.

(** [remaining_ms // 1000]: floor division. *)
Definition remaining_sec (s : ArduinoStatus) : Z := remaining_ms s / 1000.

Definition status_is_connected (s : ArduinoStatus) : bool :=
  negb (SystemState_eqb (state s) DISCONNECTED).

Definition set_state (v : SystemState) (s : ArduinoStatus) :=
  mkStatus v (current_rpm s) (target_rpm s) (pwm s) (lid_closed s) (level s)
           (running s) (remaining_ms s) (error_reason s) (last_updated s).
Definition set_current_rpm (v : Z) (s : ArduinoStatus) :=
  mkStatus (state s) v (target_rpm s) (pwm s) (lid_closed s) (level s)
           (running s) (remaining_ms s) (error_reason s) (last_updated s).
Definition set_target_rpm (v : Z) (s : ArduinoStatus) :=
  mkStatus (state s) (current_rpm s) v (pwm s) (lid_closed s) (level s)
           (running s) (remaining_ms s) (error_reason s) (last_updated s).
Definition set_pwm (v : Z) (s : ArduinoStatus) :=
  mkStatus (state s) (current_rpm s) (target_rpm s) v (lid_closed s) (level s)
           (running s) (remaining_ms s) (error_reason s) (last_updated s).
Definition set_lid_closed (v : bool) (s : ArduinoStatus) :=
  mkStatus (state s) (current_rpm s) (target_rpm s) (pwm s) v (level s)
           (running s) (remaining_ms s) (error_reason s) (last_updated s).
Definition set_level (v : bool) (s : ArduinoStatus) :=
  mkStatus (state s) (current_rpm s) (target_rpm s) (pwm s) (lid_closed s) v
           (running s) (remaining_ms s) (error_reason s) (last_updated s).
Definition set_running (v : bool) (s : ArduinoStatus) :=
  mkStatus (state s) (current_rpm s) (target_rpm s) (pwm s) (lid_closed s)
           (level s) v (remaining_ms s) (error_reason s) (last_updated s).
Definition set_remaining_ms (v : Z) (s : ArduinoStatus) :=
  mkStatus (state s) (current_rpm s) (target_rpm s) (pwm s) (lid_closed s)
           (level s) (running s) v (error_reason s) (last_updated s).
Definition set_error_reason (v : string) (s : ArduinoStatus) :=
  mkStatus (state s) (current_rpm s) (target_rpm s) (pwm s) (lid_closed s)
           (level s) (running s) (remaining_ms s) v (last_updated s).
Definition set_last_updated (v : Time) (s : ArduinoStatus) :=
  mkStatus (state s) (current_rpm s) (target_rpm s) (pwm s) (lid_closed s)
           (level s) (running s) (remaining_ms s) (error_reason s) v.

(** ** Values decoded from JSON, and the builtins applied to them *)

Set Warnings "-register-all".

(** A Python float: a finite binary fraction [m * 2^e], an infinity or
    NaN. *)
Inductive pyfloat :=
| Finite (m e : Z)
| Inf (negative : bool)
| NaN.

Inductive JValue :=
| JNull
| JBool (b : bool)
| JInt (z : Z)
| JFloat (f : pyfloat)
| JStr (s : string)
| JArray (items : list JValue)
| JObject (members : list (string * JValue)).

(** A dict is kept as its items in insertion order, keys unique. *)
Definition dict := list (string * JValue).

Fixpoint dict_lookup (d : dict) (key : string) : option JValue :=
  match d with
  | [] => None
  | (k, v) :: rest => if String.eqb k key then Some v else dict_lookup rest key
  end.

(** [d.get(key, default)] *)
Definition dict_get (d : dict) (key : string) (default : JValue) : JValue :=
  match dict_lookup d key with
  | Some v => v
  | None => default
  end.

(** [d[key] = v] *)
Fixpoint dict_set (d : dict) (key : string) (v : JValue) : dict :=
  match d with
  | [] => [(key, v)]
  | (k, w) :: rest =>
      if String.eqb k key then (k, v) :: rest else (k, w) :: dict_set rest key v
  end.

(** [SystemState(v)]: lookup by value; anything that is not the value of
    a member raises ValueError. *)
Definition SystemState_call (v : JValue) : Result SystemState :=
  match v with
  | JStr text =>
      match SystemState_of_string text with
      | Some s => Ok s
      | None => Raise (mkExn ValueError (text ++ " is not a valid SystemState"))
      end
  | _ => Raise (mkExn ValueError "not a valid SystemState")
  end.

(** Whitespace removed by [str.strip()] (the ASCII part of it). *)
Definition is_space (c : ascii) : bool :=
  let n := N_of_ascii c in
  ((9 <=? n) && (n <=? 13) || (28 <=? n) && (n <=? 32))%N.

(** Whitespace skipped by [int(str)] around an ASCII literal. *)
Definition is_int_space (c : ascii) : bool :=
  let n := N_of_ascii c in
  ((9 <=? n) && (n <=? 13) || (n =? 32))%N.

Fixpoint lstrip (s : string) : string :=
  match s with
  | String c rest => if is_space c then lstrip rest else s
  | EmptyString => EmptyString
  end.

Fixpoint rstrip (s : string) : string :=
  match s with
  | EmptyString => EmptyString
  | String c rest =>
      match rstrip rest with
      | EmptyString => if is_space c then EmptyString else String c EmptyString
      | kept => String c kept
      end
  end.

(** [s.strip()] *)
Definition strip (s : string) : string := rstrip (lstrip s).

Fixpoint skip_int_space (s : string) : string :=
  match s with
  | String c rest => if is_int_space c then skip_int_space rest else s
  | EmptyString => EmptyString
  end.

Fixpoint drop_int_space (s : string) : string :=
  match s with
  | EmptyString => EmptyString
  | String c rest =>
      match drop_int_space rest with
      | EmptyString =>
          if is_int_space c then EmptyString else String c EmptyString
      | kept => String c kept
      end
  end.

Definition digit_of (c : ascii) : option Z :=
  let n := N_of_ascii c in
  if ((48 <=? n) && (n <=? 57))%N then Some (Z.of_N n - 48) else None.

(** Digits of a decimal literal as [int(str)] reads them: single
    underscores are allowed between digits.  [acc] is the value so far,
    [after_digit] tells whether the previous character was a digit. *)
Fixpoint int_digits (s : string) (acc : Z) (after_digit : bool) : option Z :=
  match s with
  | EmptyString => if after_digit then Some acc else None
  | String c rest =>
      match digit_of c with
      | Some d => int_digits rest (10 * acc + d) true
      | None =>
          if (Ascii.eqb c "_" && after_digit)%bool
          then match rest with
               | String c' _ =>
                   match digit_of c' with
                   | Some _ => int_digits rest acc false
                   | None => None
                   end
               | EmptyString => None
               end
          else None
      end
  end.

(** [int(text)] in base ten, for a text of ASCII characters: blanks
    around, an optional sign, the digits. *)
Definition int_of_str (text : string) : option Z :=
  match drop_int_space (skip_int_space text) with
  | String "-" rest => option_map Z.opp (int_digits rest 0 false)
  | String "+" rest => int_digits rest 0 false
  | body => int_digits body 0 false
  end.

(** [int(v)] *)
Definition py_int (v : JValue) : Result Z :=
  match v with
  | JInt z => Ok z
  | JBool b => Ok (if b then 1 else 0)
  | JFloat (Finite m e) =>
      Ok (if 0 <=? e then m * 2 ^ e else Z.quot m (2 ^ (- e)))
  | JFloat (Inf _) =>
      Raise (mkExn OverflowError "cannot convert float infinity to integer")
  | JFloat NaN =>
      Raise (mkExn ValueError "cannot convert float NaN to integer")
  | JStr text =>
      match int_of_str text with
      | Some z => Ok z
      | None =>
          Raise (mkExn ValueError "invalid literal for int() with base 10")
      end
  | JNull | JArray _ | JObject _ =>
      Raise (mkExn TypeError
        "int() argument must be a string, a bytes-like object or a real number")
  end.

(** [bool(v)]: truth value. *)
Definition py_bool (v : JValue) : bool :=
  match v with
  | JNull => false
  | JBool b => b
  | JInt z => negb (z =? 0)
  | JFloat (Finite m _) => negb (m =? 0)
  | JFloat _ => true
  | JStr s => negb (String.eqb s "")
  | JArray items => match items with [] => false | _ => true end
  | JObject members => match members with [] => false | _ => true end
  end.

(** [str(z)] for an int. *)
Definition str_of_int (z : Z) : string := NilZero.string_of_int (Z.to_int z).

(** [s.startswith(prefix)] *)
Definition startswith (s prefix : string) : bool := String.prefix prefix s.

(** [s[n:]] *)
Fixpoint slice_from (n : nat) (s : string) : string :=
  match n, s with
  | O, _ => s
  | S n', String _ rest => slice_from n' rest
  | S _, EmptyString => EmptyString
  end.

(** The line terminator of the wire protocol. *)
Definition newline : string := String (ascii_of_nat 10) EmptyString.

(** ** Observers, the serial port, the controller object *)

(** The positional arguments an observer is called with: one status
    snapshot (on_status_update), the old and the new state
    (on_state_change), a reason (on_error), nothing (on_complete). *)
Inductive CallArgs :=
| args_status (status : ArduinoStatus)
| args_states (old new : SystemState)
| args_reason (reason : string)
| args_none.

(** An observer is arbitrary host code that watches and does not call
    back into the controller.  [body args seen] is what one call does:
    return ([None]) or raise; [seen] is the status record as
    [get_status()] would show it during the call.  [__name__] is the
    attribute of that name: functions, lambdas and bound methods have it,
    other callables (a [functools.partial], an instance with [__call__])
    need not. *)
Record Callback := mkCallback {
  __name__ : option string;
  body : CallArgs -> ArduinoStatus -> option exn
}.

Module logging.
Inductive Level := DEBUG | INFO | WARNING | ERROR.
End logging.

(** What the controller does to the outside, in order. *)
Inductive Effect :=
| Log (lvl : logging.Level) (msg : string)
| Call (args : CallArgs) (seen : ArduinoStatus)   (* an observer was called *)
| Write (data : string)                           (* bytes sent to the port *)
| Close.                                          (* [Serial.close()] called *)

(** The port object.  [incoming] scripts the device side: the results of
    the next calls of [readline()], each with the time at which the call
    returns ([Ok ""] is a read that timed out); when the script is
    exhausted every read times out.  [write_faults] scripts the next
    calls of [write()]: [Some e] makes the call raise [e]. *)
Record Serial := mkSerial {
  is_open : bool;
  incoming : list (Time * Result string);
  write_faults : list (option exn)
}.

(** A thread object, [threading.Thread]: its name, its daemon flag and
    whether its run has started and not yet ended. *)
Record Thread := mkThread {
  thread_name : string;
  daemon : bool;
  is_alive : bool
}.

Record SerialController := mkController {
  port : option string;
  baud : Z;
  auto_detect : bool;
  on_status_update : option Callback;
  on_state_change : option Callback;
  on_error : option Callback;
  on_complete : option Callback;
  _serial : option Serial;
  _status : ArduinoStatus;
  _stop_event : bool;
  _previous_state : SystemState;
  _reader_thread : option Thread;
  _watchdog_thread : option Thread
}.

(** [SerialController.__init__], run at time [now]. *)
Definition SerialController_init (port : option string) (baud : Z)
    (auto_detect : bool)
    (on_status_update on_state_change on_error on_complete : option Callback)
    (now : Time) : SerialController :=
  mkController port baud auto_detect
    on_status_update on_state_change on_error on_complete
    None (ArduinoStatus_default now) false DISCONNECTED None None.

Definition with_serial (v : option Serial) (c : SerialController) :=
  mkController (port c) (baud c) (auto_detect c) (on_status_update c)
    (on_state_change c) (on_error c) (on_complete c)
    v (_status c) (_stop_event c) (_previous_state c)
    (_reader_thread c) (_watchdog_thread c).
Definition with_status (v : ArduinoStatus) (c : SerialController) :=
  mkController (port c) (baud c) (auto_detect c) (on_status_update c)
    (on_state_change c) (on_error c) (on_complete c)
    (_serial c) v (_stop_event c) (_previous_state c)
    (_reader_thread c) (_watchdog_thread c).
Definition with_stop_event (v : bool) (c : SerialController) :=
  mkController (port c) (baud c) (auto_detect c) (on_status_update c)
    (on_state_change c) (on_error c) (on_complete c)
    (_serial c) (_status c) v (_previous_state c)
    (_reader_thread c) (_watchdog_thread c).
Definition with_previous_state (v : SystemState) (c : SerialController) :=
  mkController (port c) (baud c) (auto_detect c) (on_status_update c)
    (on_state_change c) (on_error c) (on_complete c)
    (_serial c) (_status c) (_stop_event c) v
    (_reader_thread c) (_watchdog_thread c).
Definition with_reader_thread (v : option Thread) (c : SerialController) :=
  mkController (port c) (baud c) (auto_detect c) (on_status_update c)
    (on_state_change c) (on_error c) (on_complete c)
    (_serial c) (_status c) (_stop_event c) (_previous_state c)
    v (_watchdog_thread c).
Definition with_watchdog_thread (v : option Thread) (c : SerialController) :=
  mkController (port c) (baud c) (auto_detect c) (on_status_update c)
    (on_state_change c) (on_error c) (on_complete c)
    (_serial c) (_status c) (_stop_event c) (_previous_state c)
    (_reader_thread c) v.

(** ** The monad of methods *)

Record World := mkWorld { self : SerialController; clock : Time }.

Definition M (A : Type) : Type := World -> Result A * World * list Effect.

Definition ret {A} (a : A) : M A := fun w => (Ok a, w, []).

Definition bind {A B} (m : M A) (k : A -> M B) : M B :=
  fun w =>
    match m w with
    | (Ok a, w1, t1) =>
        match k a w1 with
        | (r, w2, t2) => (r, w2, (t1 ++ t2)%list)
        end
    | (Raise e, w1, t1) => (Raise e, w1, t1)
    end.

Declare Scope py_scope.
Delimit Scope py_scope with py.
Notation "x <- m ;; k" := (bind m (fun x => k))
  (at level 61, m at next level, right associativity) : py_scope.
Notation "m ;; k" := (bind m (fun _ => k))
  (at level 61, right associativity) : py_scope.
Local Open Scope py_scope.

Definition raise {A} (e : exn) : M A := fun w => (Raise e, w, []).

(** A pure computation that can raise. *)
Definition lift {A} (r : Result A) : M A := fun w => (r, w, []).

Definition emit (e : Effect) : M unit := fun w => (Ok tt, w, [e]).

Definition gets {A} (f : SerialController -> A) : M A :=
  fun w => (Ok (f (self w)), w, []).

Definition modify (f : SerialController -> SerialController) : M unit :=
  fun w => (Ok tt, mkWorld (f (self w)) (clock w), []).

(** An assignment to a field of [self._status]. *)
Definition assign (f : ArduinoStatus -> ArduinoStatus) : M unit :=
  modify (fun c => with_status (f (_status c)) c).

(** [time.time()] *)
Definition time_time : M Time := fun w => (Ok (clock w), w, []).

Fixpoint find_handler {A} (e : exn)
    (handlers : list (list ExnClass * (exn -> M A))) : option (exn -> M A) :=
  match handlers with
  | [] => None
  | (classes, h) :: rest =>
      if isinstance e classes then Some h else find_handler e rest
  end.

(** [try: body except C1 as e: h1 except C2 as e: h2 ...]: the first
    clause that matches handles the exception; an exception raised by a
    handler, or matched by no clause, leaves the statement. *)
Definition try_ {A} (body : M A)
    (handlers : list (list ExnClass * (exn -> M A))) : M A :=
  fun w =>
    match body w with
    | (Ok a, w1, t1) => (Ok a, w1, t1)
    | (Raise e, w1, t1) =>
        match find_handler e handlers with
        | Some h =>
            match h e w1 with
            | (r, w2, t2) => (r, w2, (t1 ++ t2)%list)
            end
        | None => (Raise e, w1, t1)
        end
    end.

(** [with self._status_lock: body] and [with self._write_lock: body]:
    the block runs alone and the lock is released however it ends. *)
Definition with_lock {A} (body : M A) : M A := body.

Definition log (lvl : logging.Level) (msg : string) : M unit :=
  emit (Log lvl msg).

(** ** The port *)

Definition no_attribute (name : string) : exn :=
  mkExn AttributeError ("'NoneType' object has no attribute '" ++ name ++ "'").

Definition port_not_open : exn :=
  mkExn SerialException "Attempting to use a port that is not open".

(** [self._serial.readline()] *)
Definition serial_readline : M string :=
  fun w =>
    match _serial (self w) with
    | None => (Raise (no_attribute "readline"), w, [])
    | Some p =>
        if is_open p then
          match incoming p with
          | [] => (Ok "", w, [])
          | (t, r) :: rest =>
              (r,
               mkWorld (with_serial
                          (Some (mkSerial true rest (write_faults p))) (self w))
                       t,
               [])
          end
        else (Raise port_not_open, w, [])
    end.

(** [self._serial.write(data)] *)
Definition serial_write (data : string) : M unit :=
  fun w =>
    match _serial (self w) with
    | None => (Raise (no_attribute "write"), w, [])
    | Some p =>
        if is_open p then
          match write_faults p with
          | Some e :: rest =>
              (Raise e,
               mkWorld (with_serial (Some (mkSerial true (incoming p) rest))
                                    (self w)) (clock w),
               [])
          | None :: rest =>
              (Ok tt,
               mkWorld (with_serial (Some (mkSerial true (incoming p) rest))
                                    (self w)) (clock w),
               [Write data])
          | [] => (Ok tt, w, [Write data])
          end
        else (Raise port_not_open, w, [])
    end.

(** [self._serial.close()]: closes an open port, does nothing to a closed
    one. *)
Definition serial_close : M unit :=
  fun w =>
    match _serial (self w) with
    | None => (Raise (no_attribute "close"), w, [])
    | Some p =>
        (Ok tt,
         mkWorld (with_serial
                    (Some (mkSerial false (incoming p) (write_faults p)))
                    (self w)) (clock w),
         [Close])
    end.

(** ** Methods of [SerialController] *)

(** [is_connected()] *)
Definition is_connected (c : SerialController) : bool :=
  match _serial c with
  | Some p => is_open p
  | None => false
  end.

(** [get_status()]: a copy of the record, field by field, taken under the
    status lock. *)
Definition get_status : M ArduinoStatus :=
  with_lock (
    s <- gets _status ;;
    ret (mkStatus (state s) (current_rpm s) (target_rpm s) (pwm s)
                  (lid_closed s) (level s) (running s) (remaining_ms s)
                  (error_reason s) (last_updated s))).

(** The call of the observer with its positional arguments. *)
Definition call (cb : Callback) (args : CallArgs) : M unit :=
  fun w =>
    let seen := _status (self w) in
    match body cb args seen with
    | None => (Ok tt, w, [Call args seen])
    | Some e => (Raise e, w, [Call args seen])
    end.

(** [cb.__name__] *)
Definition get___name__ (cb : Callback) : M string :=
  match __name__ cb with
  | Some name => ret name
  | None =>
      raise (mkExn AttributeError "object has no attribute '__name__'")
  end.

Definition _fire_callback (cb : option Callback) (args : CallArgs) : M unit :=
  match cb with
  | None => ret tt
  | Some f =>
      try_ (call f args)
        [([Exception], fun e =>
            name <- get___name__ f ;;
            log logging.WARNING
              ("Callback " ++ name ++ " raised: " ++ exn_str e))]
  end.

Definition _check_state_change : M unit :=
  current <- with_lock (gets (fun c => state (_status c))) ;;
  previous <- gets _previous_state ;;
  if negb (SystemState_eqb current previous) then
    log logging.INFO ("State: " ++ value previous ++ " → " ++ value current) ;;
    cb <- gets on_state_change ;;
    _fire_callback cb (args_states previous current) ;;
    modify (with_previous_state current)
  else ret tt.

Definition _handle_disconnect : M unit :=
  log logging.ERROR "Serial connection lost." ;;
  with_lock (assign (set_state DISCONNECTED)) ;;
  p <- gets _serial ;;
  match p with
  | Some _ => try_ serial_close [([Exception], fun _ => ret tt)]
  | None => ret tt
  end ;;
  cb <- gets on_error ;;
  _fire_callback cb (args_reason "SERIAL_DISCONNECTED").

(** [command.encode("utf-8")] is the identity on the bytes of the text. *)
Definition _send (command : string) : M bool :=
  connected <- gets is_connected ;;
  if negb connected then
    log logging.WARNING
      ("Cannot send '" ++ strip command ++ "': not connected.") ;;
    ret false
  else
    try_ (with_lock (serial_write command) ;; ret true)
      [([SerialException], fun e =>
          log logging.ERROR ("Write failed: " ++ exn_str e) ;;
          _handle_disconnect ;;
          ret false)].

Definition start (rpm duration_sec : Z) : M bool :=
  connected <- gets is_connected ;;
  if negb connected then
    log logging.ERROR "Cannot start: not connected." ;;
    ret false
  else
    let duration_ms := duration_sec * 1000 in
    let command :=
      "START:" ++ str_of_int rpm ++ ":" ++ str_of_int duration_ms ++ newline in
    log logging.INFO ("Sending: " ++ strip command) ;;
    _send command.

Definition stop : M bool :=
  log logging.INFO "Sending: STOP" ;;
  _send ("STOP" ++ newline).

Definition emergency_stop : M bool :=
  log logging.WARNING "Sending: EMERGENCY_STOP" ;;
  _send ("EMERGENCY_STOP" ++ newline).

Definition clear_error : M bool :=
  log logging.INFO "Sending: CLEAR_ERROR" ;;
  _send ("CLEAR_ERROR" ++ newline).

Definition request_status : M bool := _send ("STATUS" ++ newline).

Definition ping : M bool := _send ("PING" ++ newline).

(** ** The parser *)

(** [data.get(key, default)]: only a dict has the method. *)
Definition get (data : JValue) (key : string) (default : JValue)
    : Result JValue :=
  match data with
  | JObject d => Ok (dict_get d key default)
  | _ => Raise (mkExn AttributeError "object has no attribute 'get'")
  end.

Section Parser.

(** [json.loads] *)
Variable json_loads : string -> Result JValue.

Definition _parse_status_json (line : string) : M unit :=
  try_ (
    data <- lift (json_loads line) ;;
    with_lock (
      try_ (v <- lift (get data "state" (JStr "IDLE")) ;;
            s <- lift (SystemState_call v) ;;
            assign (set_state s))
        [([ValueError], fun _ => assign (set_state IDLE))] ;;
      v <- lift (get data "currentRPM" (JInt 0)) ;;
      n <- lift (py_int v) ;; assign (set_current_rpm n) ;;
      v <- lift (get data "targetRPM" (JInt 0)) ;;
      n <- lift (py_int v) ;; assign (set_target_rpm n) ;;
      v <- lift (get data "pwm" (JInt 0)) ;;
      n <- lift (py_int v) ;; assign (set_pwm n) ;;
      v <- lift (get data "lidClosed" (JBool false)) ;;
      assign (set_lid_closed (py_bool v)) ;;
      v <- lift (get data "level" (JBool false)) ;;
      assign (set_level (py_bool v)) ;;
      v <- lift (get data "running" (JBool false)) ;;
      assign (set_running (py_bool v)) ;;
      v <- lift (get data "remainingMs" (JInt 0)) ;;
      n <- lift (py_int v) ;; assign (set_remaining_ms n) ;;
      now <- time_time ;;
      assign (set_last_updated now)) ;;
    cb <- gets on_status_update ;;
    snapshot <- get_status ;;
    _fire_callback cb (args_status snapshot) ;;
    _check_state_change)
  [([JSONDecodeError; KeyError], fun e =>
      log logging.WARNING
        ("Failed to parse status JSON '" ++ line ++ "': " ++ exn_str e))].

Definition _parse_line (line : string) : M unit :=
  log logging.DEBUG ("Arduino → " ++ line) ;;
  if startswith line "{" then
    _parse_status_json line
  else if startswith line "ERROR:" then
    let reason := slice_from 6 line in
    log logging.ERROR ("Arduino error: " ++ reason) ;;
    with_lock (
      assign (set_state ERROR) ;;
      assign (set_error_reason reason)) ;;
    cb <- gets on_error ;;
    _fire_callback cb (args_reason reason) ;;
    _check_state_change
  else if startswith line "STATE:" then
    let state_str := slice_from 6 line in
    try_ (
      new_state <- lift (SystemState_call (JStr state_str)) ;;
      with_lock (assign (set_state new_state)) ;;
      _check_state_change)
    [([ValueError], fun _ =>
        log logging.WARNING ("Unknown state: " ++ state_str))]
  else if startswith line "STATUS:COMPLETE" then
    log logging.INFO "Run complete." ;;
    cb <- gets on_complete ;;
    _fire_callback cb args_none
  else if startswith line "WARNING:" then
    log logging.WARNING ("Arduino warning: " ++ slice_from 8 line)
  else if String.eqb line "PONG" then
    log logging.DEBUG "Watchdog PONG received."
  else if startswith line "ACK:" then
    log logging.INFO ("Arduino ACK: " ++ slice_from 4 line)
  else if (startswith line "Centrifuge Control"
           || String.eqb line "System Ready")%bool then
    log logging.INFO ("Arduino boot message: " ++ line)
  else
    log logging.DEBUG ("Unhandled Arduino line: " ++ line).

(** ** The background loops

    Each loop body is one iteration of the Python [while]; [fuel]
    bounds the number of iterations observed.  A loop that returns
    [Exited] has left its function, one that returns [Looping] is
    still inside the [while] after [fuel] iterations, and one that
    raises has ended its thread with that exception. *)

Inductive TaskStatus := Looping | Exited.

(** How one iteration of the reader ends. *)
Inductive Flow := Continue | Break.

(** [raw.decode("utf-8", errors="replace")] is the identity on text
    that is valid UTF-8. *)
Definition reader_iteration : M Flow :=
  try_ (
    raw <- serial_readline ;;
    if String.eqb raw "" then ret Continue
    else
      let line := strip raw in
      if negb (String.eqb line "") then _parse_line line ;; ret Continue
      else ret Continue)
  [([SerialException], fun e =>
      log logging.ERROR ("Serial read error: " ++ exn_str e) ;;
      _handle_disconnect ;;
      ret Break);
   ([Exception], fun e =>
      log logging.WARNING ("Unexpected error in reader: " ++ exn_str e) ;;
      ret Continue)].

Fixpoint reader_while (fuel : nat) : M TaskStatus :=
  match fuel with
  | O => ret Looping
  | S fuel' =>
      stopped <- gets _stop_event ;;
      if stopped then ret Exited
      else
        flow <- reader_iteration ;;
        match flow with
        | Break => ret Exited
        | Continue => reader_while fuel'
        end
  end.

Definition _reader_loop (fuel : nat) : M TaskStatus :=
  log logging.DEBUG "Reader thread started." ;;
  status <- reader_while fuel ;;
  match status with
  | Exited => log logging.DEBUG "Reader thread stopped." ;; ret Exited
  | Looping => ret Looping
  end.

End Parser.

(** [time.sleep(WATCHDOG_INTERVAL)] changes no field. *)
Fixpoint watchdog_while (fuel : nat) : M TaskStatus :=
  match fuel with
  | O => ret Looping
  | S fuel' =>
      stopped <- gets _stop_event ;;
      if stopped then ret Exited
      else
        connected <- gets is_connected ;;
        stopped' <- gets _stop_event ;;
        (if (connected && negb stopped')%bool then ping ;; ret tt
         else ret tt) ;;
        watchdog_while fuel'
  end.

Definition _watchdog_loop (fuel : nat) : M TaskStatus :=
  log logging.DEBUG "Watchdog thread started." ;;
  status <- watchdog_while fuel ;;
  match status with
  | Exited => log logging.DEBUG "Watchdog thread stopped." ;; ret Exited
  | Looping => ret Looping
  end.

(** ** An executable model of [json.loads]

    The decoder of the Python library on a [str]: the JSON grammar with
    Python's extensions (NaN, Infinity, -Infinity), objects decoded to
    dicts (a repeated key keeps its last value), numbers without
    fraction and exponent decoded to [int], the others to the nearest
    [float].  Error messages carry no position, a negative zero loses its
    sign, and the interpreter's limits (recursion depth, digits of an
    int) are not modelled. *)
Module json.

Definition error {A} (msg : string) : Result A :=
  Raise (mkExn JSONDecodeError msg).

Definition is_ws (c : ascii) : bool :=
  match c with
  | " "%char | "009"%char | "010"%char | "013"%char => true
  | _ => false
  end.

Fixpoint skip_ws (s : string) : string :=
  match s with
  | String c rest => if is_ws c then skip_ws rest else s
  | EmptyString => s
  end.

(** The longest run of digits at the head of [s]: its value after
    [acc], the number of digits read after [count], the rest. *)
Fixpoint take_digits (s : string) (acc count : Z) : Z * Z * string :=
  match s with
  | String c rest =>
      match digit_of c with
      | Some d => take_digits rest (10 * acc + d) (count + 1)
      | None => (acc, count, s)
      end
  | EmptyString => (acc, count, s)
  end.

(** [n / d] rounded to the nearest integer, ties to even
    ([0 <= n], [0 < d]). *)
Definition round_half_even (n d : Z) : Z :=
  let q := n / d in
  let r := n mod d in
  if 2 * r <? d then q
  else if d <? 2 * r then q + 1
  else if Z.even q then q else q + 1.

(** The binary64 number nearest to [n / d] ([0 < n], [0 < d]), as
    [m * 2^e] with [m <= 2^53] and [-1074 <= e]; beyond the largest
    finite number the result is an infinity. *)
Definition nearest_float (negative : bool) (n d : Z) : pyfloat :=
  let e0 := Z.log2 n - Z.log2 d - 52 in
  let num e := if 0 <=? e then n else n * 2 ^ (- e) in
  let den e := if 0 <=? e then d * 2 ^ e else d in
  let e1 := if num e0 <? 2 ^ 52 * den e0 then e0 - 1 else e0 in
  let e := Z.max e1 (-1074) in
  let m := round_half_even (num e) (den e) in
  if (971 <? e) || ((e =? 971) && (2 ^ 53 <=? m)) then Inf negative
  else Finite (if negative then - m else m) e.

(** [float(text)] for the literal [mantissa * 10^exp10]. *)
Definition float_of_decimal (negative : bool) (mantissa exp10 : Z)
    : pyfloat :=
  if mantissa =? 0 then Finite 0 0
  else if 0 <=? exp10 then nearest_float negative (mantissa * 10 ^ exp10) 1
  else nearest_float negative mantissa (10 ^ (- exp10)).

(** A number at the head of [s]: an optional minus sign, then a zero
    or a run of digits that starts with a non-zero digit, then
    optionally a point and at least one digit, then optionally [e] or
    [E], an optional sign and at least one digit. *)
Definition scan_number (s : string) : option (JValue * string) :=
  let '(negative, s1) :=
    match s with
    | String "-"%char rest => (true, rest)
    | _ => (false, s)
    end in
  let integer :=
    match s1 with
    | String "0"%char rest => Some (0, rest)
    | String c _ =>
        match digit_of c with
        | Some _ => let '(v, _, rest) := take_digits s1 0 0 in Some (v, rest)
        | None => None
        end
    | EmptyString => None
    end in
  match integer with
  | None => None
  | Some (int_value, s2) =>
      let '(frac_value, frac_count, s3) :=
        match s2 with
        | String "."%char rest =>
            let '(v, n, rest') := take_digits rest 0 0 in
            if n =? 0 then (0, 0, s2) else (v, n, rest')
        | _ => (0, 0, s2)
        end in
      let '(has_exp, exp_value, s4) :=
        match s3 with
        | String ("e" | "E")%char rest =>
            let '(exp_negative, rest1) :=
              match rest with
              | String "-"%char r => (true, r)
              | String "+"%char r => (false, r)
              | _ => (false, rest)
              end in
            let '(v, n, rest2) := take_digits rest1 0 0 in
            if n =? 0 then (false, 0, s3)
            else (true, if exp_negative then - v else v, rest2)
        | _ => (false, 0, s3)
        end in
      if (frac_count =? 0) && negb has_exp then
        Some (JInt (if negative then - int_value else int_value), s4)
      else
        Some (JFloat (float_of_decimal negative
                        (int_value * 10 ^ frac_count + frac_value)
                        (exp_value - frac_count)),
              s4)
  end.

Definition hex_of (c : ascii) : option N :=
  let n := N_of_ascii c in
  if ((48 <=? n) && (n <=? 57))%N then Some (n - 48)%N
  else if ((65 <=? n) && (n <=? 70))%N then Some (n - 55)%N
  else if ((97 <=? n) && (n <=? 102))%N then Some (n - 87)%N
  else None.

(** Four hexadecimal digits at the head of [s]. *)
Definition hex4 (s : string) : option (N * string) :=
  match s with
  | String a (String b (String c (String d rest))) =>
      match hex_of a, hex_of b, hex_of c, hex_of d with
      | Some x, Some y, Some z, Some t =>
          Some (((x * 16 + y) * 16 + z) * 16 + t, rest)%N
      | _, _, _, _ => None
      end
  | _ => None
  end.

Definition byte (n : N) : string := String (ascii_of_N n) EmptyString.

(** The UTF-8 bytes of the code point [cp]. *)
Definition utf8 (cp : N) : string :=
  (if cp <? 128 then byte cp
   else if cp <? 2048 then
     byte (192 + cp / 64) ++ byte (128 + cp mod 64)
   else if cp <? 65536 then
     byte (224 + cp / 4096) ++ byte (128 + (cp / 64) mod 64)
     ++ byte (128 + cp mod 64)
   else
     byte (240 + cp / 262144) ++ byte (128 + (cp / 4096) mod 64)
     ++ byte (128 + (cp / 64) mod 64) ++ byte (128 + cp mod 64))%N.

Definition simple_escape (c : ascii) : option ascii :=
  match c with
  | "034"%char => Some "034"%char
  | "092"%char => Some "092"%char
  | "/"%char => Some "/"%char
  | "b"%char => Some "008"%char
  | "f"%char => Some "012"%char
  | "n"%char => Some "010"%char
  | "r"%char => Some "013"%char
  | "t"%char => Some "009"%char
  | _ => None
  end.

Definition prepend (head : string) (r : Result (string * string))
    : Result (string * string) :=
  match r with
  | Ok (text, rest) => Ok (head ++ text, rest)
  | Raise e => Raise e
  end.

(** The string literal whose opening quote has just been read: its text
    and what follows the closing quote. *)
Fixpoint scanstring (fuel : nat) (s : string) : Result (string * string) :=
  match fuel with
  | O => error "Unterminated string starting at"
  | S fuel' =>
      match s with
      | EmptyString => error "Unterminated string starting at"
      | String "034"%char rest => Ok (EmptyString, rest)
      | String "092"%char EmptyString =>
          error "Unterminated string starting at"
      | String "092"%char (String "u"%char rest) =>
          match hex4 rest with
          | None => error "Invalid \uXXXX escape"
          | Some (hi, rest1) =>
              if ((55296 <=? hi) && (hi <=? 56319))%N then
                match rest1 with
                | String "092"%char (String "u"%char rest2) =>
                    match hex4 rest2 with
                    | None => error "Invalid \uXXXX escape"
                    | Some (lo, rest3) =>
                        if ((56320 <=? lo) && (lo <=? 57343))%N then
                          prepend
                            (utf8 (65536 + (hi - 55296) * 1024
                                   + (lo - 56320))%N)
                            (scanstring fuel' rest3)
                        else prepend (utf8 hi) (scanstring fuel' rest1)
                    end
                | _ => prepend (utf8 hi) (scanstring fuel' rest1)
                end
              else prepend (utf8 hi) (scanstring fuel' rest1)
          end
      | String "092"%char (String c rest) =>
          match simple_escape c with
          | Some c' => prepend (String c' EmptyString) (scanstring fuel' rest)
          | None => error "Invalid \escape"
          end
      | String c rest =>
          if (N_of_ascii c <? 32)%N then error "Invalid control character at"
          else prepend (String c EmptyString) (scanstring fuel' rest)
      end
  end.

Definition scan_string (s : string) : Result (string * string) :=
  scanstring (S (String.length s)) s.

(** One value at the head of [s], then the items of an array after its
    opening bracket or a comma, and the members of an object after its
    opening brace or a comma. *)
Fixpoint scan_once (fuel : nat) (s : string) {struct fuel}
    : Result (JValue * string) :=
  match fuel with
  | O => error "Expecting value"
  | S fuel' =>
      match s with
      | String "034"%char rest =>
          match scan_string rest with
          | Ok (text, rest') => Ok (JStr text, rest')
          | Raise e => Raise e
          end
      | String "{"%char rest =>
          match skip_ws rest with
          | String "}"%char rest' => Ok (JObject [], rest')
          | members => scan_members fuel' members []
          end
      | String "["%char rest =>
          match skip_ws rest with
          | String "]"%char rest' => Ok (JArray [], rest')
          | items => scan_items fuel' items []
          end
      | _ =>
          if startswith s "null" then Ok (JNull, slice_from 4 s)
          else if startswith s "true" then Ok (JBool true, slice_from 4 s)
          else if startswith s "false" then Ok (JBool false, slice_from 5 s)
          else
            match scan_number s with
            | Some found => Ok found
            | None =>
                if startswith s "NaN" then Ok (JFloat NaN, slice_from 3 s)
                else if startswith s "Infinity" then
                  Ok (JFloat (Inf false), slice_from 8 s)
                else if startswith s "-Infinity" then
                  Ok (JFloat (Inf true), slice_from 9 s)
                else error "Expecting value"
            end
      end
  end

with scan_items (fuel : nat) (s : string) (acc : list JValue) {struct fuel}
    : Result (JValue * string) :=
  match fuel with
  | O => error "Expecting value"
  | S fuel' =>
      match scan_once fuel' s with
      | Raise e => Raise e
      | Ok (v, rest) =>
          match skip_ws rest with
          | String "]"%char rest' => Ok (JArray (acc ++ [v])%list, rest')
          | String ","%char rest' =>
              scan_items fuel' (skip_ws rest') (acc ++ [v])%list
          | _ => error "Expecting ',' delimiter"
          end
      end
  end

with scan_members (fuel : nat) (s : string) (acc : dict) {struct fuel}
    : Result (JValue * string) :=
  match fuel with
  | O => error "Expecting value"
  | S fuel' =>
      match s with
      | String "034"%char rest =>
          match scan_string rest with
          | Raise e => Raise e
          | Ok (key, rest1) =>
              match skip_ws rest1 with
              | String ":"%char rest2 =>
                  match scan_once fuel' (skip_ws rest2) with
                  | Raise e => Raise e
                  | Ok (v, rest3) =>
                      match skip_ws rest3 with
                      | String "}"%char rest' =>
                          Ok (JObject (dict_set acc key v), rest')
                      | String ","%char rest' =>
                          scan_members fuel' (skip_ws rest')
                                       (dict_set acc key v)
                      | _ => error "Expecting ',' delimiter"
                      end
                  end
              | _ => error "Expecting ':' delimiter"
              end
          end
      | _ => error "Expecting property name enclosed in double quotes"
      end
  end.

(** [json.loads(s)].  The scanner reads at least one character for
    every two units of fuel it uses, so twice the length of the text is
    enough fuel. *)
Definition loads (s : string) : Result JValue :=
  let text := skip_ws s in
  match scan_once (2 * String.length text + 2) text with
  | Raise e => Raise e
  | Ok (v, rest) =>
      match skip_ws rest with
      | EmptyString => Ok v
      | _ => error "Extra data"
      end
  end.

End json.

(** ** Waiting for the threads and closing the link

    [thread.join(timeout=3.0)] lets the thread that is waited for run.
    A live reader is inside [readline()], whose timeout is one second:
    during the wait the call returns, the reader finishes the iteration
    it is in, with the line it was given if there is one, and tests the
    stop event.  A live watchdog is inside [time.sleep(2.0)]: it wakes,
    finishes its iteration and tests the stop event.  Observers are taken
    to return within the wait.  An exception that leaves a loop ends its
    thread and is not raised in the thread that waits.  The decoder of
    the reader is [json.loads]. *)

(** The run of a thread has ended. *)
Definition Thread_finished (t : Thread) : Thread :=
  mkThread (thread_name t) (daemon t) false.

Definition reader_ends : M unit :=
  modify (fun c =>
    with_reader_thread (option_map Thread_finished (_reader_thread c)) c).

Definition watchdog_ends : M unit :=
  modify (fun c =>
    with_watchdog_thread (option_map Thread_finished (_watchdog_thread c)) c).

(** What the reader does from inside [readline()] while it is waited
    for. *)
Definition reader_join : M unit :=
  try_ (
    flow <- reader_iteration json.loads ;;
    stopped <- gets _stop_event ;;
    match flow with
    | Break =>
        log logging.DEBUG "Reader thread stopped." ;; reader_ends
    | Continue =>
        if stopped then
          log logging.DEBUG "Reader thread stopped." ;; reader_ends
        else ret tt
    end)
  [([Exception], fun _ => reader_ends)].

(** What the watchdog does from inside [time.sleep()] while it is waited
    for. *)
Definition watchdog_join : M unit :=
  try_ (
    connected <- gets is_connected ;;
    stopped' <- gets _stop_event ;;
    (if (connected && negb stopped')%bool then ping ;; ret tt
     else ret tt) ;;
    stopped <- gets _stop_event ;;
    if stopped then
      log logging.DEBUG "Watchdog thread stopped." ;; watchdog_ends
    else ret tt)
  [([Exception], fun _ => watchdog_ends)].

(** [if thread and thread.is_alive(): thread.join(timeout=3.0)] *)
Definition join (thread : option Thread) (rest : M unit) : M unit :=
  match thread with
  | Some t => if is_alive t then rest else ret tt
  | None => ret tt
  end.

(** [for thread in (self._reader_thread, self._watchdog_thread): ...] *)
Definition join_threads : M unit :=
  thread <- gets _reader_thread ;;
  join thread reader_join ;;
  thread <- gets _watchdog_thread ;;
  join thread watchdog_join.

(** [disconnect()] *)
Definition disconnect : M unit :=
  log logging.INFO "Disconnecting..." ;;
  modify (with_stop_event true) ;;
  join_threads ;;
  p <- gets _serial ;;
  match p with
  | Some port => if is_open port then serial_close else ret tt
  | None => ret tt
  end ;;
  with_lock (assign (set_state DISCONNECTED)) ;;
  log logging.INFO "Disconnected.".

(** * Vocabulary of the statements *)

(** A reader thread was started and its run has not ended. *)
Definition reader_alive (c : SerialController) : bool :=
  match _reader_thread c with
  | Some t => is_alive t
  | None => false
  end.

Definition watchdog_alive (c : SerialController) : bool :=
  match _watchdog_thread c with
  | Some t => is_alive t
  | None => false
  end.

(** The session when [disconnect()] has set the stop event. *)
Definition stopping (w : World) : World :=
  mkWorld (with_stop_event true (self w)) (clock w).

(** The record as the reader leaves it while [disconnect()] waits: with a
    live reader, the record after the iteration the reader was in; with
    none, the record as it is. *)
Definition last_record (w : World) : ArduinoStatus :=
  if reader_alive (self w) then
    _status (self (snd (fst (reader_iteration json.loads (stopping w)))))
  else _status (self w).

(** A computation that, however it ends, leaves [g] of the object as it
    was. *)
Definition preserves {A B} (g : SerialController -> B) (m : M A) : Prop :=
  forall w r w' t, m w = (r, w', t) -> g (self w') = g (self w).

(** [g] looks at nothing that a line or a command can write: not at the
    port object, the record or the remembered state. *)
Definition apart {B} (g : SerialController -> B) : Prop :=
  (forall v c, g (with_serial v c) = g c) /\
  (forall v c, g (with_status v c) = g c) /\
  (forall v c, g (with_previous_state v c) = g c).

(** The observer calls among the effects, in order, by their arguments. *)
Definition calls (t : list Effect) : list CallArgs :=
  flat_map (fun e => match e with Call a _ => [a] | _ => [] end) t.

(** The state-changed deliveries among the effects, as (old, new). *)
Definition state_changes (t : list Effect) : list (SystemState * SystemState) :=
  flat_map (fun a => match a with args_states o n => [(o, n)] | _ => [] end)
           (calls t).

(** What a call through [_fire_callback] delivers: one call when an
    observer is registered in the slot, none otherwise. *)
Definition registered (cb : option Callback) (args : CallArgs)
    : list CallArgs :=
  match cb with
  | Some _ => [args]
  | None => []
  end.

(** An observer that cannot make [_fire_callback] raise: it has a
    [__name__], or it never raises. *)
Definition contained (cb : option Callback) : Prop :=
  match cb with
  | None => True
  | Some f => __name__ f <> None \/ forall args seen, body f args seen = None
  end.

(** Every observer call in [t] was made while the record was [s]. *)
Definition seen_is (s : ArduinoStatus) (t : list Effect) : Prop :=
  forall a s', In (Call a s') t -> s' = s.

(** The fields that no line of input changes. *)
Definition same_wiring (c c' : SerialController) : Prop :=
  on_status_update c' = on_status_update c /\
  on_state_change c' = on_state_change c /\
  on_error c' = on_error c /\
  on_complete c' = on_complete c /\
  _serial c' = _serial c /\
  _stop_event c' = _stop_event c.

(** The state a status object reports: the member named by the string
    under [state]; IDLE when the key is absent or names no member. *)
Definition reported_state (d : dict) : SystemState :=
  match dict_lookup d "state" with
  | Some (JStr text) =>
      match SystemState_of_string text with
      | Some s => s
      | None => IDLE
      end
  | _ => IDLE
  end.

(** The integer keys of a status object hold values that [int()]
    accepts. *)
Definition int_ok (d : dict) (key : string) : bool :=
  match py_int (dict_get d key (JInt 0)) with
  | Ok _ => true
  | Raise _ => false
  end.

Definition integers_ok (d : dict) : bool :=
  int_ok d "currentRPM" && int_ok d "targetRPM" && int_ok d "pwm"
  && int_ok d "remainingMs".

Definition int_value (d : dict) (key : string) : Z :=
  match py_int (dict_get d key (JInt 0)) with
  | Ok n => n
  | Raise _ => 0
  end.

Definition bool_value (d : dict) (key : string) : bool :=
  py_bool (dict_get d key (JBool false)).

(** The record a well-typed status object [d] leaves, received at time
    [now] over the record [old]. *)
Definition json_status (d : dict) (now : Time) (old : ArduinoStatus)
    : ArduinoStatus :=
  mkStatus (reported_state d) (int_value d "currentRPM")
    (int_value d "targetRPM") (int_value d "pwm") (bool_value d "lidClosed")
    (bool_value d "level") (bool_value d "running")
    (int_value d "remainingMs") (error_reason old) now.

(** The rule of a key with a default: absent, the field takes the
    default; present with a value of the expected kind, it takes that
    value. *)
Definition defaults_to {A} (d : dict) (key : string) (inject : A -> JValue)
    (default field : A) : Prop :=
  (dict_lookup d key = None -> field = default) /\
  (forall a, dict_lookup d key = Some (inject a) -> field = a).

(** The rule of the key [state]: absent or unrecognized, the field is
    IDLE; the value of a member, the field is that member. *)
Definition state_rule (d : dict) (field : SystemState) : Prop :=
  (dict_lookup d "state" = None -> field = IDLE) /\
  (forall v, dict_lookup d "state" = Some v ->
             (forall text, v = JStr text -> SystemState_of_string text = None) ->
             field = IDLE) /\
  (forall text s, dict_lookup d "state" = Some (JStr text) ->
                  SystemState_of_string text = Some s -> field = s).

Definition is_status_call (a : CallArgs) : bool :=
  match a with args_status _ => true | _ => false end.

Definition is_states_call (a : CallArgs) : bool :=
  match a with args_states _ _ => true | _ => false end.

Definition is_reason_call (reason : string) (a : CallArgs) : bool :=
  match a with args_reason r => String.eqb r reason | _ => false end.

(** The state-changed call of a line that brings the state [new]: the
    remembered state, then the new one. *)
Definition change_call (w : World) (new : SystemState) : CallArgs :=
  args_states (_previous_state (self w)) new.

(** In the list of calls [l], every call of the kind [second] has a call
    of the kind [first] before it and none after it. *)
Definition delivered_before (first second : CallArgs -> bool)
    (l : list CallArgs) : Prop :=
  forall pre x post,
    l = (pre ++ x :: post)%list -> second x = true ->
    existsb first pre = true /\ existsb first post = false.

(** A script of reads that all succeed, and the lines the reader hands
    to the parser for it. *)
Definition reads (script : list (Time * string))
    : list (Time * Result string) :=
  map (fun x => (fst x, Ok (snd x))) script.

Definition lines_of (script : list (Time * string)) : list string :=
  map (fun x => strip (snd x)) script.

Section ChangeDetection.

Variable json_loads : string -> Result JValue.

(** The state a line reports, for the three kinds of line that carry
    one. *)
Definition decoded_state (line : string) : option SystemState :=
  if startswith line "{" then
    match json_loads line with
    | Ok (JObject d) => Some (reported_state d)
    | _ => None
    end
  else if startswith line "ERROR:" then Some ERROR
  else if startswith line "STATE:" then
    SystemState_of_string (slice_from 6 line)
  else None.

(** A line is well formed when, if it is a status object, its integer
    keys hold integers (values [int()] accepts), and when the decoder
    does not report its failures as failures of the port. *)
Definition line_ok (line : string) : bool :=
  if startswith line "{" then
    match json_loads line with
    | Ok (JObject d) => integers_ok d
    | Ok _ => true
    | Raise e => negb (isinstance e [SerialException])
    end
  else true.

(** What one line adds to the changes, and the state remembered after
    it. *)
Definition change_of (previous : SystemState) (line : string)
    : list (SystemState * SystemState) :=
  match decoded_state line with
  | Some new => if SystemState_eqb new previous then [] else [(previous, new)]
  | None => []
  end.

Definition remembered (previous : SystemState) (line : string)
    : SystemState :=
  match decoded_state line with
  | Some new => new
  | None => previous
  end.

(** The changes a sequence of lines calls for: one (old, new) for each
    line whose state differs from the state observed before it. *)
Fixpoint expected_changes (previous : SystemState) (lines : list string)
    : list (SystemState * SystemState) :=
  match lines with
  | [] => []
  | line :: rest =>
      match decoded_state line with
      | Some new =>
          if SystemState_eqb new previous
          then expected_changes previous rest
          else (previous, new) :: expected_changes new rest
      | None => expected_changes previous rest
      end
  end.

End ChangeDetection.

(** * Sample sessions *)

Definition quote : string := String "034"%char EmptyString.

Definition quoted (s : string) : string := quote ++ s ++ quote.

(** The status packet of a run in progress. *)
Definition running_packet : string :=
  "{" ++ quoted "state" ++ ":" ++ quoted "RUNNING"
  ++ "," ++ quoted "currentRPM" ++ ":850"
  ++ "," ++ quoted "targetRPM" ++ ":1000"
  ++ "," ++ quoted "lidClosed" ++ ":true"
  ++ "," ++ quoted "level" ++ ":true"
  ++ "," ++ quoted "running" ++ ":true"
  ++ "," ++ quoted "remainingMs" ++ ":12000}".

(** A status packet whose speed is a string that is no number. *)
Definition bad_rpm_packet : string :=
  "{" ++ quoted "state" ++ ":" ++ quoted "RUNNING"
  ++ "," ++ quoted "currentRPM" ++ ":" ++ quoted "abc" ++ "}".

(** A status packet with one key only, whose value is no number. *)
Definition rpm_only_packet : string :=
  "{" ++ quoted "currentRPM" ++ ":" ++ quoted "abc" ++ "}".

(** An observer written as a function: it has a name and returns. *)
Definition observer (name : string) : Callback :=
  mkCallback (Some name) (fun _ _ => None).

(** An observer given as [functools.partial(handler)], where [handler]
    raises ValueError: a callable without [__name__]. *)
Definition failing_partial : Callback :=
  mkCallback None (fun _ _ => Some (mkExn ValueError "boom")).

(** The two threads as [_start_threads()] leaves them. *)
Definition started (c : SerialController) : SerialController :=
  with_watchdog_thread (Some (mkThread "arduino-watchdog" true true))
    (with_reader_thread (Some (mkThread "arduino-reader" true true)) c).

(** The object as [connect()] leaves it: port open, stop event clear,
    both threads alive, record and remembered state as constructed;
    [script] is what the device will send. *)
Definition session_with (on_status : Callback)
    (script : list (Time * Result string)) : World :=
  mkWorld
    (started
       (with_serial (Some (mkSerial true script []))
          (SerialController_init (Some "/dev/ttyUSB0") 115200 true
             (Some on_status) (Some (observer "on_state_change"))
             (Some (observer "on_error")) (Some (observer "on_complete")) 0)))
    2.

Definition session (script : list (Time * Result string)) : World :=
  session_with (observer "on_status") script.

(** A controller that was never connected. *)
Definition unconnected : World :=
  mkWorld (SerialController_init None 115200 true None None None None 0) 1.

(** The exception of a read on a link that went away. *)
Definition link_lost : exn := mkExn SerialException "device disconnected".

(** * Opening the link *)

(** One entry of [serial.tools.list_ports.comports()]. *)
Record ListPortInfo := mkPort {
  device : string;
  description : option string;
  manufacturer : option string;
  hwid : option string
}.

(** [needle in text] *)
Fixpoint contains (needle text : string) : bool :=
  match text with
  | EmptyString => String.prefix needle EmptyString
  | String _ rest => String.prefix needle text || contains needle rest
  end.

(** [value or ""] *)
Definition or_empty (v : option string) : string :=
  match v with
  | Some s => s
  | None => ""
  end.

(** [str(value)] for a text that may be [None], as a format field shows
    it. *)
Definition str_of_option (v : option string) : string :=
  match v with
  | Some s => s
  | None => "None"
  end.

Definition keywords : list string :=
  ["arduino"; "usb serial"; "ch340"; "cp210"; "ftdi"; "usbmodem"; "usbserial"].

Definition with_port (v : option string) (c : SerialController) :=
  mkController v (baud c) (auto_detect c) (on_status_update c)
    (on_state_change c) (on_error c) (on_complete c)
    (_serial c) (_status c) (_stop_event c) (_previous_state c)
    (_reader_thread c) (_watchdog_thread c).

(** [self._serial.reset_input_buffer()]: raises on a port that is not
    open.  The script of an open port is what the device sends after this
    call, so the call leaves it as it is. *)
Definition reset_input_buffer : M unit :=
  fun w =>
    match _serial (self w) with
    | None => (Raise (no_attribute "reset_input_buffer"), w, [])
    | Some p =>
        if is_open p then (Ok tt, w, [])
        else (Raise port_not_open, w, [])
    end.

(** [Thread.start()] *)
Definition Thread_start (t : Thread) : Thread :=
  mkThread (thread_name t) (daemon t) true.

(** [_start_threads()]: the two thread objects are created and stored,
    then started.  What the threads do is [_reader_loop] and
    [_watchdog_loop]; it is no effect of the thread that called. *)
Definition _start_threads : M unit :=
  modify (with_reader_thread (Some (mkThread "arduino-reader" true false))) ;;
  modify (with_watchdog_thread
            (Some (mkThread "arduino-watchdog" true false))) ;;
  modify (fun c =>
    with_reader_thread (option_map Thread_start (_reader_thread c)) c) ;;
  modify (fun c =>
    with_watchdog_thread (option_map Thread_start (_watchdog_thread c)) c).

Section Connection.

(** [str.lower], the enumeration of the ports by the system, and the
    constructor [serial.Serial(port, baudrate, timeout)], which gives the
    port object or raises. *)
Variable lower : string -> string.
Variable comports : list ListPortInfo.
Variable Serial_new : option string -> Z -> Result Serial.

(** The test of one port in [_auto_detect_port]. *)
Definition port_matches (p : ListPortInfo) : bool :=
  let description := lower (or_empty (description p)) in
  let manufacturer := lower (or_empty (manufacturer p)) in
  let hwid := lower (or_empty (hwid p)) in
  existsb (fun kw => contains kw description || contains kw manufacturer
                     || contains kw hwid)
          keywords.

Definition _auto_detect_port : M (option string) :=
  let ports := comports in
  match find port_matches ports with
  | Some p =>
      log logging.INFO
        ("Auto-detected Arduino on " ++ device p ++ " ("
         ++ str_of_option (description p) ++ ")") ;;
      ret (Some (device p))
  | None =>
      match ports with
      | first :: _ =>
          log logging.WARNING
            ("No Arduino-specific port found. Falling back to "
             ++ device first) ;;
          ret (Some (device first))
      | [] => ret None
      end
  end.

(** [list_ports()] *)
Definition list_ports : list string := map device comports.

(** [connect()].  The two seconds of sleep change no field. *)
Definition connect : M bool :=
  configured <- gets port ;;
  auto <- gets auto_detect ;;
  found <- match configured with
           | None =>
               if auto then
                 detected <- _auto_detect_port ;;
                 modify (with_port detected) ;;
                 match detected with
                 | None =>
                     log logging.ERROR "Could not auto-detect Arduino port." ;;
                     ret false
                 | Some _ => ret true
                 end
               else ret true
           | Some _ => ret true
           end ;;
  if negb found then ret false
  else
    try_ (
      name <- gets port ;;
      rate <- gets baud ;;
      s <- lift (Serial_new name rate) ;;
      modify (with_serial (Some s)) ;;
      reset_input_buffer ;;
      modify (with_stop_event false) ;;
      _start_threads ;;
      log logging.INFO
        ("Connected to Arduino on " ++ str_of_option name ++ " at "
         ++ str_of_int rate ++ " baud.") ;;
      ret true)
    [([SerialException], fun e =>
        name <- gets port ;;
        log logging.ERROR
          ("Failed to connect to " ++ str_of_option name ++ ": "
           ++ exn_str e) ;;
        ret false)].

End Connection.

(** [str.lower] on text of ASCII characters. *)
Definition ascii_lower_char (c : ascii) : ascii :=
  let n := N_of_ascii c in
  if ((65 <=? n) && (n <=? 90))%N then ascii_of_N (n + 32) else c.

Fixpoint ascii_lower (s : string) : string :=
  match s with
  | EmptyString => EmptyString
  | String c rest => String (ascii_lower_char c) (ascii_lower rest)
  end.

(** Two ports of a workstation: a Bluetooth modem and an Arduino clone on
    a CH340 bridge. *)
Definition bluetooth_port : ListPortInfo :=
  mkPort "/dev/ttyS0" (Some "Bluetooth-Incoming-Port") None (Some "n/a").

Definition clone_port : ListPortInfo :=
  mkPort "/dev/ttyUSB0" (Some "USB2.0-Ser!") (Some "QinHeng Electronics")
         (Some "USB VID:PID=1A86:7523 CH340").

(** A port constructor that opens every named port, silent, and refuses
    to open without a name. *)
Definition opens_all (name : option string) (rate : Z) : Result Serial :=
  match name with
  | Some _ => Ok (mkSerial true [] [])
  | None => Ok (mkSerial false [] [])
  end.

(** A port constructor that finds every port busy. *)
Definition opens_none (name : option string) (rate : Z) : Result Serial :=
  Raise (mkExn SerialException "could not open port").

(** The bytes written to the port among the effects, in order. *)
Definition writes (t : list Effect) : list string :=
  flat_map (fun e => match e with Write data => [data] | _ => [] end) t.

(** No effect in [t] touches the port. *)
Definition port_untouched (t : list Effect) : Prop :=
  forall e, In e t -> match e with Write _ | Close => False | _ => True end.

(** The next call of [write()] on the port succeeds. *)
Definition next_write_ok (p : Serial) : bool :=
  match write_faults p with
  | Some _ :: _ => false
  | _ => true
  end.

(** The public commands that take no argument. *)
Definition plain_commands : list (M bool) :=
  [stop; emergency_stop; clear_error; request_status; ping].

(** A text without a line terminator inside. *)
Definition one_line (body : string) : Prop :=
  forall c, In c (list_ascii_of_string body) -> c <> "010"%char.

(** A computation that, however it ends, leaves the observers, the port
    object, the stop event and the clock as they were, and neither writes
    to the port nor closes it. *)
Definition quiet {A} (m : M A) : Prop :=
  forall w r w' t,
    m w = (r, w', t) ->
    same_wiring (self w) (self w') /\ clock w' = clock w /\ port_untouched t.

(** A computation that, however it ends, leaves the field [f] of the
    status record as it was. *)
Definition keeps {A B} (f : ArduinoStatus -> B) (m : M A) : Prop :=
  forall w r w' t,
    m w = (r, w', t) -> f (_status (self w')) = f (_status (self w)).

(** The session after the device reported an open lid. *)
Definition after_lid_open : World :=
  snd (fst (_parse_line json.loads "ERROR:LID_OPEN" (session []))).

(** * The web backend

    [v2uiweb_backend.py]: a dict shared by the routes and by the three
    observers that the backend registers with its controller.  The
    requests are taken one at a time. *)

Module v2uiweb_backend.

(** [shared_state], as the module creates it.  A reading of the clock is
    kept as the number it is. *)
Definition initial_shared_state : dict :=
  [("state", JStr "DISCONNECTED");
   ("current_rpm", JInt 0);
   ("target_rpm", JInt 0);
   ("pwm", JInt 0);
   ("lid_closed", JBool false);
   ("level", JBool false);
   ("running", JBool false);
   ("remaining_ms", JInt 0);
   ("error_reason", JStr "");
   ("last_updated", JInt 0);
   ("connected", JBool false)].

(** [d.update(items)] *)
Definition update (d items : dict) : dict :=
  fold_left (fun acc item => dict_set acc (fst item) (snd item)) items d.

(** [d[key]] *)
Definition getitem (d : dict) (key : string) : Result JValue :=
  match dict_lookup d key with
  | Some v => Ok v
  | None => Raise (mkExn KeyError key)
  end.

(** The controller is wired as [init_controller] builds it: the three
    functions of the backend in their slots and no change observer.  Each
    of the functions has a [__name__] and none of them raises. *)
Definition wired (c : SerialController) : Prop :=
  on_status_update c = Some (observer "on_status") /\
  on_state_change c = None /\
  on_error c = Some (observer "on_error") /\
  on_complete c = Some (observer "on_complete").

(** ** The observers: what a call does to the dict *)

Definition on_status (status : ArduinoStatus) (shared_state : dict) : dict :=
  update shared_state
    [("state", JStr (value (state status)));
     ("current_rpm", JInt (current_rpm status));
     ("target_rpm", JInt (target_rpm status));
     ("pwm", JInt (pwm status));
     ("lid_closed", JBool (lid_closed status));
     ("level", JBool (level status));
     ("running", JBool (running status));
     ("remaining_ms", JInt (remaining_ms status));
     ("error_reason", JStr (error_reason status));
     ("last_updated", JInt (last_updated status));
     ("connected", JBool true)].

Definition on_error (reason : string) (shared_state : dict) : dict :=
  let shared_state := dict_set shared_state "state" (JStr "ERROR") in
  let shared_state := dict_set shared_state "error_reason" (JStr reason) in
  if String.eqb reason "SERIAL_DISCONNECTED" then
    dict_set shared_state "connected" (JBool false)
  else shared_state.

Definition on_complete (shared_state : dict) : dict :=
  let shared_state := dict_set shared_state "state" (JStr "IDLE") in
  dict_set shared_state "running" (JBool false).

(** One call made by a wired controller, by the arguments it passes: a
    snapshot goes to [on_status], a reason to [on_error], no argument to
    [on_complete]; the slot of the change observer is empty. *)
Definition deliver (shared_state : dict) (args : CallArgs) : dict :=
  match args with
  | args_status status => on_status status shared_state
  | args_reason reason => on_error reason shared_state
  | args_none => on_complete shared_state
  | args_states _ _ => shared_state
  end.

(** ** The globals of the module and the monad of the routes *)

Record App := mkApp {
  shared_state : dict;
  controller : option SerialController;   (* None until init_controller *)
  app_clock : Time
}.

Definition Route (A : Type) : Type := App -> Result A * App * list Effect.

Definition route_ret {A} (a : A) : Route A := fun app => (Ok a, app, []).

Definition route_bind {A B} (m : Route A) (k : A -> Route B) : Route B :=
  fun app =>
    match m app with
    | (Ok a, app1, t1) =>
        match k a app1 with
        | (r, app2, t2) => (r, app2, (t1 ++ t2)%list)
        end
    | (Raise e, app1, t1) => (Raise e, app1, t1)
    end.

Declare Scope route_scope.
Notation "x <- m ;; k" := (route_bind m (fun x => k))
  (at level 61, m at next level, right associativity) : route_scope.
Notation "m ;; k" := (route_bind m (fun _ => k))
  (at level 61, right associativity) : route_scope.
Local Open Scope route_scope.

(** A pure computation that can raise. *)
Definition eval {A} (r : Result A) : Route A := fun app => (r, app, []).

(** [shared_state.update(items)] under the lock. *)
Definition shared_update (items : dict) : Route unit :=
  fun app =>
    (Ok tt, mkApp (update (shared_state app) items) (controller app)
                  (app_clock app), []).

(** [shared_state[key] = v] under the lock. *)
Definition shared_set (key : string) (v : JValue) : Route unit :=
  fun app =>
    (Ok tt, mkApp (dict_set (shared_state app) key v) (controller app)
                  (app_clock app), []).

(** A method of the controller object [c] run from the backend: the
    object is left as the method leaves it, and every call the method
    makes to an observer runs the function of the backend on the dict. *)
Definition controller_call {A} (m : M A) (c : SerialController) : Route A :=
  fun app =>
    match m (mkWorld c (app_clock app)) with
    | (r, w, t) =>
        (r,
         mkApp (fold_left deliver (calls t) (shared_state app))
               (Some (self w)) (clock w),
         t)
    end.

(** [controller and shared_state["connected"]]: the controller when both
    are true. *)
Definition live : Route (option SerialController) :=
  fun app =>
    match controller app with
    | None => (Ok None, app, [])
    | Some c =>
        match getitem (shared_state app) "connected" with
        | Ok v => (Ok (if py_bool v then Some c else None), app, [])
        | Raise e => (Raise e, app, [])
        end
    end.

(** [jsonify(body), code] *)
Definition jsonify (body : dict) (code : Z) : dict * Z := (body, code).

(** ** The routes *)

(** [POST /api/start] with the decoded body [data]. *)
Definition start (data : JValue) : Route (dict * Z) :=
  v <- eval (get data "rpm" (JInt 0)) ;;
  rpm <- eval (py_int v) ;;
  v <- eval (get data "duration_sec" (JInt 0)) ;;
  duration_sec <- eval (py_int v) ;;
  if ((rpm <=? 0) || (rpm >? 3000))%bool then
    route_ret (jsonify [("ok", JBool false);
                        ("error", JStr "RPM must be between 1 and 3000")]
                       400)
  else if ((duration_sec <=? 0) || (duration_sec >? 600))%bool then
    route_ret (jsonify [("ok", JBool false);
                        ("error",
                         JStr "Duration must be between 1 and 600 seconds")]
                       400)
  else
    c <- live ;;
    ok <- match c with
          | Some c => controller_call (start rpm duration_sec) c
          | None =>
              shared_update [("state", JStr "RAMPING_UP");
                             ("target_rpm", JInt rpm);
                             ("running", JBool true)] ;;
              route_ret true
          end ;;
    route_ret (jsonify [("ok", JBool ok)] 200).

(** [POST /api/stop] *)
Definition stop : Route (dict * Z) :=
  c <- live ;;
  ok <- match c with
        | Some c => controller_call stop c
        | None =>
            shared_update [("state", JStr "RAMPING_DOWN")] ;;
            route_ret true
        end ;;
  route_ret (jsonify [("ok", JBool ok)] 200).

(** [POST /api/emergency_stop] *)
Definition emergency_stop : Route (dict * Z) :=
  c <- live ;;
  ok <- match c with
        | Some c => controller_call emergency_stop c
        | None =>
            shared_update [("state", JStr "ERROR");
                           ("running", JBool false);
                           ("current_rpm", JInt 0)] ;;
            route_ret true
        end ;;
  route_ret (jsonify [("ok", JBool ok)] 200).

(** [POST /api/clear_error] *)
Definition clear_error : Route (dict * Z) :=
  c <- live ;;
  ok <- match c with
        | Some c => controller_call clear_error c
        | None =>
            shared_update [("state", JStr "IDLE"); ("error_reason", JStr "")] ;;
            route_ret true
        end ;;
  route_ret (jsonify [("ok", JBool ok)] 200).

(** [GET /api/status]: a copy of the dict. *)
Definition get_status : Route (dict * Z) :=
  fun app => (Ok (jsonify (shared_state app) 200), app, []).

Section Init.

(** Whether the import of the controller module succeeded. *)
Variable SERIAL_AVAILABLE : bool.
Variable lower : string -> string.
Variable comports : list ListPortInfo.
Variable Serial_new : option string -> Z -> Result Serial.

(** [init_controller()] *)
Definition init_controller : Route bool :=
  if negb SERIAL_AVAILABLE then route_ret false
  else
    now <- (fun app => (Ok (app_clock app), app, [])) ;;
    let c :=
      SerialController_init None 115200 true
        (Some (observer "on_status")) None
        (Some (observer "on_error")) (Some (observer "on_complete")) now in
    connected <- controller_call (connect lower comports Serial_new) c ;;
    shared_set "connected" (JBool connected) ;;
    route_ret connected.

End Init.

(** The requests of the control routes that take no body. *)
Definition plain_routes : list (Route (dict * Z)) :=
  [stop; emergency_stop; clear_error].

(** The dict shows the record [s], key by key. *)
Definition mirrors (shared : dict) (s : ArduinoStatus) : Prop :=
  dict_lookup shared "state" = Some (JStr (value (state s))) /\
  dict_lookup shared "current_rpm" = Some (JInt (current_rpm s)) /\
  dict_lookup shared "target_rpm" = Some (JInt (target_rpm s)) /\
  dict_lookup shared "pwm" = Some (JInt (pwm s)) /\
  dict_lookup shared "lid_closed" = Some (JBool (lid_closed s)) /\
  dict_lookup shared "level" = Some (JBool (level s)) /\
  dict_lookup shared "running" = Some (JBool (running s)) /\
  dict_lookup shared "remaining_ms" = Some (JInt (remaining_ms s)) /\
  dict_lookup shared "error_reason" = Some (JStr (error_reason s)) /\
  dict_lookup shared "last_updated" = Some (JInt (last_updated s)).

(** The backend after [init_controller()] found the session's port. *)
Definition serving (w : World) : App :=
  mkApp (dict_set initial_shared_state "connected" (JBool true))
        (Some (self w)) (clock w).

End v2uiweb_backend.

(** A session wired as the backend wires it, on an open port with the
    given write faults. *)
Definition backend_session (faults : list (option exn)) : World :=
  mkWorld
    (started
       (with_serial (Some (mkSerial true [] faults))
          (SerialController_init (Some "/dev/ttyUSB0") 115200 true
             (Some (observer "on_status")) None
             (Some (observer "on_error")) (Some (observer "on_complete")) 0)))
    2.

(** Every effect is something other than a write to the port. *)
Definition writes_nothing {A} (m : M A) : Prop :=
  forall w, writes (snd (m w)) = [].

(** * Facts about the dispatcher and the change detector *)

Local Arguments String.append : simpl never.

Ltac step :=
  cbn -[dict_get py_int py_bool _fire_callback _check_state_change
        String.append isinstance].

Ltac run :=
  unfold bind, log, emit, gets, modify, assign, with_lock, ret, lift;
  cbn -[slice_from String.append _fire_callback _check_state_change
        isinstance SystemState_eqb SystemState_of_string startswith
        String.eqb].

Lemma calls_app t1 t2 : calls (t1 ++ t2) = (calls t1 ++ calls t2)%list.
Proof. apply flat_map_app. Qed.

Lemma state_changes_app t1 t2 :
  state_changes (t1 ++ t2) = (state_changes t1 ++ state_changes t2)%list.
Proof. unfold state_changes. rewrite calls_app. apply flat_map_app. Qed.

Lemma no_change_in_log lvl msg t :
  state_changes (Log lvl msg :: t) = state_changes t.
Proof. reflexivity. Qed.

Lemma in_calls a s t : In (Call a s) t -> In a (calls t).
Proof.
  intros H. unfold calls. apply in_flat_map. exists (Call a s).
  split; [exact H | left; reflexivity].
Qed.

Lemma SystemState_eqb_eq a b : SystemState_eqb a b = true <-> a = b.
Proof. destruct a, b; simpl; split; congruence. Qed.

(** The dispatcher leaves the object alone and calls the observer once if
    there is one; it raises only when the observer raised and has no
    [__name__], and then it raises AttributeError. *)
Lemma fire_callback_run cb args w :
  exists r t,
    _fire_callback cb args w = (r, w, t) /\
    calls t = registered cb args /\
    seen_is (_status (self w)) t /\
    (r = Ok tt \/
     exists e, r = Raise e /\ exn_class e = AttributeError /\ ~ contained cb).
Proof.
  destruct cb as [f|]; simpl.
  - unfold _fire_callback, try_, call.
    destruct (body f args (_status (self w))) as [e|] eqn:Hb.
    + simpl. unfold get___name__, bind.
      destruct (__name__ f) as [name|] eqn:Hn; simpl.
      * eexists _, _; split; [reflexivity|]. split; [reflexivity|].
        split; [|left; reflexivity].
        intros a s' [H|[H|[]]]; [inversion H; reflexivity | discriminate].
      * eexists _, _; split; [reflexivity|]. split; [reflexivity|]. split.
        -- intros a s' [H|[]]; inversion H; reflexivity.
        -- right. eexists; split; [reflexivity|]. split; [reflexivity|].
           intros [H|H]; [congruence | rewrite H in Hb; discriminate].
    + eexists _, _; split; [reflexivity|]. split; [reflexivity|].
      split; [|left; reflexivity].
      intros a s' [H|[]]; inversion H; reflexivity.
  - eexists _, _; split; [reflexivity|]. split; [reflexivity|].
    split; [intros a s' []|left; reflexivity].
Qed.

(** The change detector: silent when the record holds the remembered
    state; otherwise one delivery of (remembered, current), after which
    the current state is remembered, unless the dispatcher raised. *)
Lemma check_state_change_run w :
  exists r t p,
    _check_state_change w =
      (r, mkWorld (with_previous_state p (self w)) (clock w), t) /\
    seen_is (_status (self w)) t /\
    (if SystemState_eqb (state (_status (self w))) (_previous_state (self w))
     then calls t = [] /\ r = Ok tt /\ p = state (_status (self w))
     else
       calls t = registered (on_state_change (self w))
                   (args_states (_previous_state (self w))
                                (state (_status (self w)))) /\
       (r = Ok tt /\ p = state (_status (self w)) \/
        exists e, r = Raise e /\ exn_class e = AttributeError /\
                  p = _previous_state (self w) /\
                  ~ contained (on_state_change (self w)))).
Proof.
  unfold _check_state_change, with_lock, bind at 1 2. unfold gets at 1 2. simpl.
  destruct (SystemState_eqb _ _) eqn:E; simpl.
  - exists (Ok tt), [], (_previous_state (self w)).
    split; [destruct w as [c k]; destruct c; reflexivity|].
    split; [intros a s' []|]. split; [reflexivity|]. split; [reflexivity|].
    destruct (state (_status (self w))), (_previous_state (self w));
      simpl in E; congruence.
  - unfold bind, log, emit, gets, modify. simpl.
    destruct (fire_callback_run (on_state_change (self w))
                (args_states (_previous_state (self w))
                   (state (_status (self w)))) w)
      as (r & t & Hrun & Hcalls & Hseen & Hr).
    rewrite Hrun. destruct Hr as [->|(e & -> & He & Hn)]; simpl.
    + eexists _, _, _; split; [reflexivity|].
      rewrite app_nil_r.
      split; [intros a s' [H|H]; [discriminate | eauto]|].
      split; [exact Hcalls|left; split; reflexivity].
    + exists (Raise e), (Log logging.INFO
         ("State: " ++ value (_previous_state (self w)) ++ " → " ++
          value (state (_status (self w)))) :: t), (_previous_state (self w)).
      split; [destruct w as [c k]; destruct c; reflexivity|].
      split; [intros a s' [H|H]; [discriminate | eauto]|].
      split; [exact Hcalls|]. right. exists e. auto.
Qed.

(** The tail shared by the three branches that write the state: the
    change detector run on an object whose record already holds the
    state of the line. *)
Lemma detect_after_mutation w1 f new :
  on_state_change (self w1) = Some f ->
  contained (on_state_change (self w1)) ->
  state (_status (self w1)) = new ->
  exists t,
    _check_state_change w1 =
      (Ok tt, mkWorld (with_previous_state new (self w1)) (clock w1), t) /\
    state_changes t =
      (if SystemState_eqb new (_previous_state (self w1)) then []
       else [(_previous_state (self w1), new)]) /\
    (forall old new' seen,
        In (Call (args_states old new') seen) t -> state seen = new').
Proof.
  intros Hf Hc Hs.
  destruct (check_state_change_run w1) as (r & t & p & Hrun & Hseen & Hcase).
  rewrite Hs in Hcase.
  exists t.
  destruct (SystemState_eqb new (_previous_state (self w1))) eqn:E.
  - destruct Hcase as (Hcalls & -> & ->).
    rewrite Hrun. split; [reflexivity|].
    unfold state_changes. rewrite Hcalls. split; [reflexivity|].
    intros old new' seen Hin. apply in_calls in Hin. rewrite Hcalls in Hin.
    destruct Hin.
  - destruct Hcase as (Hcalls & [[-> ->]|(e & _ & _ & _ & Hn)]);
      [|contradiction].
    rewrite Hrun. split; [reflexivity|].
    unfold state_changes. rewrite Hcalls, Hf. split; [reflexivity|].
    intros old new' seen Hin.
    pose proof (Hseen _ _ Hin) as ->.
    apply in_calls in Hin. rewrite Hcalls, Hf in Hin.
    destruct Hin as [Hin|[]]. inversion Hin; subst. reflexivity.
Qed.

(** The handler of a lost link: the record is marked, the port is closed,
    the error observer is told; the stop event is not touched. *)
Lemma handle_disconnect_run w p :
  _serial (self w) = Some p ->
  exists r t,
    _handle_disconnect w =
      (r,
       mkWorld (with_serial
                  (Some (mkSerial false (incoming p) (write_faults p)))
                  (with_status (set_state DISCONNECTED (_status (self w)))
                               (self w)))
               (clock w),
       Log logging.ERROR "Serial connection lost." :: Close :: t) /\
    calls t = registered (on_error (self w)) (args_reason "SERIAL_DISCONNECTED")
    /\ (r = Ok tt \/ exists e, r = Raise e).
Proof.
  intros Hp.
  set (w1 := mkWorld (with_serial
                  (Some (mkSerial false (incoming p) (write_faults p)))
                  (with_status (set_state DISCONNECTED (_status (self w)))
                               (self w)))
               (clock w)).
  destruct (fire_callback_run (on_error (self w1))
              (args_reason "SERIAL_DISCONNECTED") w1)
    as (r & t & Hfire & Hcalls & _ & Hr).
  exists r, t. split; [|split; [exact Hcalls|]].
  - unfold _handle_disconnect. run. rewrite Hp.
    unfold try_, serial_close. run. rewrite Hp.
    change (mkWorld _ (clock w)) with w1. rewrite Hfire.
    destruct r; reflexivity.
  - destruct Hr as [->|(e & -> & _)]; eauto.
Qed.

(** With the port closed and the stop event clear, the watchdog goes
    round its loop without sending anything and without leaving it. *)
Lemma watchdog_idle n w :
  _stop_event (self w) = false ->
  is_connected (self w) = false ->
  watchdog_while n w = (Ok Looping, w, []).
Proof.
  intros Hs Hc. induction n as [|n IH]; [reflexivity|].
  cbn [watchdog_while]. unfold bind, gets. rewrite Hs, Hc. cbn.
  rewrite IH. reflexivity.
Qed.

Lemma py_int_raises v e :
  py_int v = Raise e -> isinstance e [JSONDecodeError; KeyError] = false.
Proof.
  destruct v as [| | |[]| | |]; simpl; try discriminate;
    try (destruct (int_of_str s); try discriminate);
    intros H; inversion H; subst; reflexivity.
Qed.

Lemma py_int_not_serial v e :
  py_int v = Raise e -> isinstance e [SerialException] = false.
Proof.
  destruct v as [| | |[]| | |]; simpl; try discriminate;
    try (destruct (int_of_str s); try discriminate);
    intros H; inversion H; subst; reflexivity.
Qed.

Ltac int_fails H :=
  step; rewrite (py_int_raises _ _ H);
  eexists _, _; split; [reflexivity|]; repeat split;
  apply py_int_not_serial in H; exact H.

(** * Facts about the parser and the reader *)

Section ParserFacts.

Variable json_loads : string -> Result JValue.

(** The first statement of the critical section: the state of the object,
    or IDLE, is assigned and nothing is raised. *)
Lemma state_block (d : dict) w :
  try_ (v <- lift (get (JObject d) "state" (JStr "IDLE")) ;;
        s <- lift (SystemState_call v) ;;
        assign (set_state s))
     [([ValueError], fun _ => assign (set_state IDLE))] w
  = (Ok tt,
     mkWorld (with_status (set_state (reported_state d) (_status (self w)))
                          (self w)) (clock w), []).
Proof.
  unfold try_, bind, lift, get, dict_get, reported_state. simpl.
  destruct (dict_lookup d "state") as [[]|]; simpl; try reflexivity.
  destruct (SystemState_of_string s); reflexivity.
Qed.

(** A status object whose integer keys convert: the whole field set is
    written in the critical section, then the status observer is told,
    then the change detector runs. *)
Lemma json_object_ok line d w :
  json_loads line = Ok (JObject d) ->
  integers_ok d = true ->
  let s1 := json_status d (clock w) (_status (self w)) in
  let w1 := mkWorld (with_status s1 (self w)) (clock w) in
  _parse_status_json json_loads line w =
    match _fire_callback (on_status_update (self w)) (args_status s1) w1 with
    | (Ok _, _, t1) =>
        match _check_state_change w1 with
        | (r, w2, t2) => (r, w2, (t1 ++ t2)%list)
        end
    | (Raise e, _, t1) => (Raise e, w1, t1)
    end.
Proof.
  intros Hj Hi s1 w1.
  unfold integers_ok, int_ok in Hi.
  destruct (py_int (dict_get d "currentRPM" (JInt 0))) as [n1|] eqn:H1;
    [|discriminate].
  destruct (py_int (dict_get d "targetRPM" (JInt 0))) as [n2|] eqn:H2;
    [|discriminate].
  destruct (py_int (dict_get d "pwm" (JInt 0))) as [n3|] eqn:H3;
    [|discriminate].
  destruct (py_int (dict_get d "remainingMs" (JInt 0))) as [n4|] eqn:H4;
    [|discriminate].
  clear Hi.
  unfold _parse_status_json, with_lock.
  unfold try_ at 1. unfold bind at 1. unfold lift at 1. rewrite Hj.
  unfold bind at 1. unfold bind at 1. rewrite state_block.
  unfold bind, lift, get, assign, modify, time_time, gets, get_status,
    with_lock, ret.
  cbn -[dict_get py_int py_bool _fire_callback _check_state_change
        String.append].
  rewrite H1. cbn -[dict_get py_int py_bool _fire_callback _check_state_change
        String.append].
  rewrite H2. cbn -[dict_get py_int py_bool _fire_callback _check_state_change
        String.append].
  rewrite H3. cbn -[dict_get py_int py_bool _fire_callback _check_state_change
        String.append].
  rewrite H4. cbn -[dict_get py_int py_bool _fire_callback _check_state_change
        String.append].
  assert (Hs : s1 = mkStatus (reported_state d) n1 n2 n3
                      (py_bool (dict_get d "lidClosed" (JBool false)))
                      (py_bool (dict_get d "level" (JBool false)))
                      (py_bool (dict_get d "running" (JBool false)))
                      n4 (error_reason (_status (self w))) (clock w)).
  { unfold s1, json_status, int_value, bool_value.
    rewrite H1, H2, H3, H4. reflexivity. }
  match goal with
  | |- context [_fire_callback _ (args_status ?S) ?W] =>
      change W with (mkWorld (with_status S (self w)) (clock w));
      rewrite <- Hs
  end.
  fold w1.
  destruct (fire_callback_run (on_status_update (self w)) (args_status s1) w1)
    as (r & t & Hrun & _ & _ & Hr).
  rewrite Hrun.
  destruct Hr as [->|(e & -> & He & _)].
  - destruct (check_state_change_run w1) as (r2 & t2 & p & Hc & _ & Hcase).
    rewrite Hc.
    assert (Hr2 : r2 = Ok tt \/
                  exists e, r2 = Raise e /\ exn_class e = AttributeError).
    { destruct (SystemState_eqb _ _).
      - left; tauto.
      - destruct Hcase as [_ [[-> _]|(e & -> & He & _)]]; eauto. }
    destruct Hr2 as [->|(e & -> & He)]; simpl.
    + reflexivity.
    + unfold isinstance. rewrite He. reflexivity.
  - simpl. unfold isinstance. rewrite He. reflexivity.
Qed.

(** A line that does not decode to an object changes nothing. *)
Lemma json_not_object line w :
  (forall d, json_loads line <> Ok (JObject d)) ->
  exists r t, _parse_status_json json_loads line w = (r, w, t) /\
              calls t = [] /\
              (r = Ok tt \/ exists e, r = Raise e /\
                 (json_loads line = Raise e \/ exn_class e = AttributeError)).
Proof.
  intros Hn. unfold _parse_status_json, with_lock.
  unfold try_ at 1. unfold bind at 1. unfold lift at 1.
  destruct (json_loads line) as [data|e] eqn:Hj.
  - assert (Hg : forall key default,
               get data key default =
               Raise (mkExn AttributeError "object has no attribute 'get'")).
    { destruct data; try reflexivity. exfalso; eapply Hn; reflexivity. }
    unfold bind at 1. unfold bind at 1. unfold try_ at 1. unfold bind at 1.
    unfold lift at 1. rewrite Hg. simpl.
    eexists _, _; split; [reflexivity|]. split; [reflexivity|].
    right; eexists; split; [reflexivity|]. right; reflexivity.
  - unfold find_handler.
    destruct (isinstance e [JSONDecodeError; KeyError]).
    + simpl. eexists _, _; split; [reflexivity|]. split; [reflexivity|].
      left; reflexivity.
    + eexists _, _; split; [reflexivity|]. split; [reflexivity|].
      right; eexists; split; [reflexivity|]. left; reflexivity.
Qed.

(** A status object with an integer key that does not convert: the
    conversion raises out of the method, past its [except] clause, with
    the state written and the time stamp not. *)
Lemma json_object_bad line d w :
  json_loads line = Ok (JObject d) ->
  integers_ok d = false ->
  exists e s,
    _parse_status_json json_loads line w =
      (Raise e, mkWorld (with_status s (self w)) (clock w), []) /\
    state s = reported_state d /\
    error_reason s = error_reason (_status (self w)) /\
    last_updated s = last_updated (_status (self w)) /\
    isinstance e [SerialException] = false.
Proof.
  intros Hj Hi.
  unfold _parse_status_json, with_lock.
  unfold try_ at 1. unfold bind at 1. unfold lift at 1. rewrite Hj.
  unfold bind at 1. unfold bind at 1. rewrite state_block.
  unfold integers_ok, int_ok in Hi.
  unfold bind, lift, get, assign, modify, time_time, gets, get_status,
    with_lock, ret.
  step.
  destruct (py_int (dict_get d "currentRPM" (JInt 0))) as [n1|e1] eqn:H1;
    [step | int_fails H1].
  destruct (py_int (dict_get d "targetRPM" (JInt 0))) as [n2|e2] eqn:H2;
    [step | int_fails H2].
  destruct (py_int (dict_get d "pwm" (JInt 0))) as [n3|e3] eqn:H3;
    [step | int_fails H3].
  destruct (py_int (dict_get d "remainingMs" (JInt 0))) as [n4|e4] eqn:H4;
    [discriminate | int_fails H4].
Qed.

(** One well-formed line, observers contained: the wiring is kept, the
    state of the line is remembered, and the state-changed deliveries are
    what the line calls for, each made while the record holds its new
    state. *)
Lemma parse_line_changes line w f :
  on_state_change (self w) = Some f ->
  contained (on_status_update (self w)) ->
  contained (on_state_change (self w)) ->
  contained (on_error (self w)) ->
  line_ok json_loads line = true ->
  exists r w' t,
    _parse_line json_loads line w = (r, w', t) /\
    same_wiring (self w) (self w') /\
    (forall e, r = Raise e -> isinstance e [SerialException] = false) /\
    _previous_state (self w') = remembered json_loads (_previous_state (self w)) line /\
    state_changes t = change_of json_loads (_previous_state (self w)) line /\
    (forall old new seen,
        In (Call (args_states old new) seen) t -> state seen = new).
Proof.
  intros Hf Hsu Hsc Her Hok.
  unfold _parse_line. unfold bind at 1. unfold log at 1, emit at 1.
  unfold line_ok in Hok. unfold remembered, change_of, decoded_state.
  destruct (startswith line "{") eqn:E1.
  { (* a JSON packet *)
    destruct (json_loads line) as [data|e] eqn:Hj.
    - destruct data as [| | | | | |d].
      7:{ pose proof (json_object_ok line d w Hj Hok) as Hrun.
          cbv zeta in Hrun. rewrite Hrun. clear Hrun.
          set (s1 := json_status d (clock w) (_status (self w))).
          set (w1 := mkWorld (with_status s1 (self w)) (clock w)).
          destruct (fire_callback_run (on_status_update (self w))
                      (args_status s1) w1)
            as (r & t1 & Hfire & Hcalls1 & _ & Hr).
          rewrite Hfire.
          destruct Hr as [->|(e & _ & _ & Hn)]; [|contradiction].
          destruct (detect_after_mutation w1 f (reported_state d) Hf Hsc
                      eq_refl) as (t2 & Hdet & Hch & Hseen).
          rewrite Hdet.
          eexists _, _, _; split; [reflexivity|]. cbn [app].
          split; [repeat split|]. split; [discriminate|].
          split; [reflexivity|]. split.
          - rewrite no_change_in_log, state_changes_app, Hch.
            unfold state_changes at 1. rewrite Hcalls1.
            destruct (on_status_update (self w)); reflexivity.
          - intros old new seen [Hin|Hin]; [discriminate|].
            apply in_app_or in Hin. destruct Hin as [Hin|Hin]; [|eauto].
            apply in_calls in Hin. rewrite Hcalls1 in Hin.
            destruct (on_status_update (self w)); simpl in Hin;
              [destruct Hin as [Hin|[]]; discriminate | destruct Hin]. }
      all: destruct (json_not_object line w) as (r & t & Hrun & Hcalls & Hr);
        [intros d Hd; rewrite Hj in Hd; discriminate|];
        rewrite Hrun;
        eexists _, _, _; (split; [reflexivity|]); cbn [app];
        (split; [repeat split|]);
        (split; [intros e ->; destruct Hr as [Hr|(e' & He' & [Hr|Hr])];
                 [discriminate | rewrite Hj in Hr; discriminate
                 | inversion He'; subst; unfold isinstance; rewrite Hr;
                   reflexivity]|]);
        (split; [reflexivity|]);
        (split; [rewrite no_change_in_log; unfold state_changes;
                 rewrite Hcalls; reflexivity|]);
        intros old new seen [Hin|Hin]; [discriminate|];
        apply in_calls in Hin; rewrite Hcalls in Hin; destruct Hin.
    - destruct (json_not_object line w) as (r & t & Hrun & Hcalls & Hr);
        [intros d Hd; rewrite Hj in Hd; discriminate|].
      rewrite Hrun.
      eexists _, _, _; split; [reflexivity|]. cbn [app].
      split; [repeat split|]. split.
      { apply negb_true_iff in Hok.
        intros e0 ->. destruct Hr as [Hr|(e' & He' & [Hr|Hr])].
        - discriminate.
        - rewrite Hj in Hr. congruence.
        - injection He' as <-. unfold isinstance. rewrite Hr. reflexivity. }
      split; [reflexivity|]. split.
      { rewrite no_change_in_log. unfold state_changes. rewrite Hcalls.
        reflexivity. }
      intros old new seen [Hin|Hin]; [discriminate|].
      apply in_calls in Hin. rewrite Hcalls in Hin. destruct Hin. }
  clear Hok.
  destruct (startswith line "ERROR:") eqn:E2.
  { (* a device error *)
    set (s1 := set_error_reason (slice_from 6 line)
                 (set_state ERROR (_status (self w)))).
    set (w1 := mkWorld (with_status s1 (self w)) (clock w)).
    destruct (fire_callback_run (on_error (self w))
                (args_reason (slice_from 6 line)) w1)
      as (r & t1 & Hfire & Hcalls1 & _ & Hr).
    destruct Hr as [->|(e & _ & _ & Hn)]; [|contradiction].
    destruct (detect_after_mutation w1 f ERROR Hf Hsc eq_refl)
      as (t2 & Hdet & Hch & Hseen).
    run.
    change (mkWorld _ (clock w)) with w1.
    rewrite Hfire, Hdet.
    eexists _, _, _; split; [reflexivity|]. cbn [app].
    split; [repeat split|]. split; [discriminate|].
    split; [reflexivity|]. split.
    - rewrite !no_change_in_log, state_changes_app, Hch.
      unfold state_changes at 1. rewrite Hcalls1.
      destruct (on_error (self w)); reflexivity.
    - intros old new seen [Hin|[Hin|Hin]]; try discriminate.
      apply in_app_or in Hin. destruct Hin as [Hin|Hin]; [|eauto].
      apply in_calls in Hin. rewrite Hcalls1 in Hin.
      destruct (on_error (self w)); simpl in Hin;
        [destruct Hin as [Hin|[]]; discriminate | destruct Hin]. }
  destruct (startswith line "STATE:") eqn:E3.
  { (* a state report *)
    unfold try_, bind at 1, lift at 1, SystemState_call.
    destruct (SystemState_of_string (slice_from 6 line)) as [new|] eqn:Hs.
    - set (w1 := mkWorld (with_status (set_state new (_status (self w)))
                                      (self w)) (clock w)).
      destruct (detect_after_mutation w1 f new Hf Hsc eq_refl)
        as (t2 & Hdet & Hch & Hseen).
      run. change (mkWorld _ (clock w)) with w1. rewrite Hdet.
      eexists _, _, _; split; [reflexivity|]. cbn [app].
      split; [repeat split|]. split; [discriminate|].
      split; [reflexivity|]. split.
      + rewrite no_change_in_log. exact Hch.
      + intros old new' seen [Hin|Hin]; [discriminate|eauto].
    - run.
      eexists _, _, _; split; [reflexivity|].
      split; [repeat split|]. split; [discriminate|].
      split; [reflexivity|]. split; [reflexivity|].
      intros old new' seen [Hin|[Hin|[]]]; discriminate. }
  destruct (startswith line "STATUS:COMPLETE") eqn:E4.
  { (* the end of a run *)
    destruct (fire_callback_run (on_complete (self w)) args_none w)
      as (r & t1 & Hfire & Hcalls1 & _ & Hr).
    run. rewrite Hfire.
    eexists _, _, _; split; [reflexivity|]. cbn [app].
    split; [repeat split|]. split.
    { intros e ->. destruct Hr as [Hr|(e' & He' & Hcls & _)];
        [discriminate|].
      injection He' as <-. unfold isinstance. rewrite Hcls. reflexivity. }
    split; [destruct r; reflexivity|]. split.
    - destruct r; cbn [app]; rewrite !no_change_in_log;
        unfold state_changes; rewrite Hcalls1;
        destruct (on_complete (self w)); reflexivity.
    - intros old new seen Hin.
      assert (Hin' : In (Call (args_states old new) seen) t1).
      { destruct r; cbn [app] in Hin;
          destruct Hin as [Hin|[Hin|Hin]]; try discriminate; exact Hin. }
      apply in_calls in Hin'. rewrite Hcalls1 in Hin'.
      destruct (on_complete (self w)); simpl in Hin';
        [destruct Hin' as [Hin'|[]]; discriminate | destruct Hin']. }
  (* the remaining branches only write to the log *)
  assert (Hlog : forall lvl msg,
    exists r w' t,
      (let (p, t2) := log lvl msg w in
       let (r0, w2) := p in
       (r0, w2, ([Log logging.DEBUG ("Arduino → " ++ line)] ++ t2)%list)) =
      (r, w', t) /\
      same_wiring (self w) (self w') /\
      (forall e, r = Raise e -> isinstance e [SerialException] = false) /\
      _previous_state (self w') = _previous_state (self w) /\
      state_changes t = [] /\
      (forall old new seen,
          In (Call (args_states old new) seen) t -> state seen = new)).
  { intros lvl msg. run.
    eexists _, _, _; split; [reflexivity|].
    split; [repeat split|]. split; [discriminate|].
    split; [reflexivity|]. split; [reflexivity|].
    intros old new seen [Hin|[Hin|[]]]; discriminate. }
  destruct (startswith line "WARNING:"); [apply Hlog|].
  destruct (String.eqb line "PONG"); [apply Hlog|].
  destruct (startswith line "ACK:"); [apply Hlog|].
  destruct (startswith line "Centrifuge Control" || String.eqb line "System Ready");
    apply Hlog.
Qed.

(** The changes of a sequence, line by line. *)
Lemma expected_changes_cons previous line rest :
  expected_changes json_loads previous (line :: rest) =
  (change_of json_loads previous line
   ++ expected_changes json_loads (remembered json_loads previous line) rest)%list.
Proof.
  unfold change_of, remembered. simpl.
  destruct (decoded_state json_loads line) as [new|]; [|reflexivity].
  destruct (SystemState_eqb new previous) eqn:E; [|reflexivity].
  apply SystemState_eqb_eq in E. subst. reflexivity.
Qed.

(** One iteration of the reader on a read that succeeds. *)
Lemma reader_step w faults now raw rest f :
  _serial (self w) = Some (mkSerial true ((now, Ok raw) :: rest) faults) ->
  on_state_change (self w) = Some f ->
  contained (on_status_update (self w)) ->
  contained (on_state_change (self w)) ->
  contained (on_error (self w)) ->
  line_ok json_loads (strip raw) = true ->
  exists w' t,
    reader_iteration json_loads w = (Ok Continue, w', t) /\
    on_status_update (self w') = on_status_update (self w) /\
    on_state_change (self w') = on_state_change (self w) /\
    on_error (self w') = on_error (self w) /\
    _stop_event (self w') = _stop_event (self w) /\
    _serial (self w') = Some (mkSerial true rest faults) /\
    _previous_state (self w') =
      remembered json_loads (_previous_state (self w)) (strip raw) /\
    state_changes t = change_of json_loads (_previous_state (self w)) (strip raw) /\
    (forall old new seen,
        In (Call (args_states old new) seen) t -> state seen = new).
Proof.
  intros Hp Hf Hsu Hsc Her Hok.
  unfold reader_iteration, try_. unfold bind at 1.
  unfold serial_readline. rewrite Hp. cbn [is_open incoming write_faults].
  set (w1 := mkWorld (with_serial (Some (mkSerial true rest faults)) (self w))
                     now).
  destruct (String.eqb raw "") eqn:Eraw.
  { apply String.eqb_eq in Eraw. subst raw.
    exists w1, []. split; [reflexivity|]. repeat split.
    intros old new seen []. }
  destruct (String.eqb (strip raw) "") eqn:Eline.
  { apply String.eqb_eq in Eline. rewrite Eline.
    exists w1, []. split; [reflexivity|]. repeat split.
    intros old new seen []. }
  cbn [negb].
  destruct (parse_line_changes (strip raw) w1 f Hf Hsu Hsc Her Hok)
    as (r & w' & t & Hrun & Hw & Hr & Hprev & Hch & Hseen).
  destruct Hw as (W1 & W2 & W3 & W4 & W5 & W6).
  unfold bind at 1. rewrite Hrun.
  destruct r as [[]|e].
  - eexists _, _; split; [reflexivity|].
    cbn [app]. rewrite ?app_nil_r. repeat split; auto.
  - unfold find_handler. rewrite (Hr e eq_refl).
    replace (isinstance e [Exception]) with true
      by (unfold isinstance; simpl; reflexivity).
    run.
    eexists _, _; split; [reflexivity|].
    cbn [app]. repeat split; auto.
    + rewrite state_changes_app, Hch. simpl. apply app_nil_r.
    + intros old new seen Hin. apply in_app_or in Hin.
      destruct Hin as [Hin|[Hin|[]]]; [eauto|discriminate].
Qed.

(** The change detector over a session.  For every sequence of lines that
    are read without failure and are well formed, with a state observer
    registered and observers that do not make the dispatcher raise, the
    reader processes them all and is still in its loop; the state-changed
    deliveries are exactly the changes the sequence calls for, one
    (old, new) per line whose state differs from the one observed before
    it, in line order; each is made while the record holds the new state
    of its line; and the state of the last such line is remembered. *)
Lemma state_change_events w faults script f :
  _serial (self w) = Some (mkSerial true (reads script) faults) ->
  _stop_event (self w) = false ->
  on_state_change (self w) = Some f ->
  contained (on_status_update (self w)) ->
  contained (on_state_change (self w)) ->
  contained (on_error (self w)) ->
  Forall (fun line => line_ok json_loads line = true) (lines_of script) ->
  exists w' t,
    reader_while json_loads (List.length script) w = (Ok Looping, w', t) /\
    state_changes t =
      expected_changes json_loads (_previous_state (self w)) (lines_of script) /\
    _previous_state (self w') =
      fold_left (remembered json_loads) (lines_of script) (_previous_state (self w)) /\
    (forall old new seen,
        In (Call (args_states old new) seen) t -> state seen = new).
Proof.
  revert w. induction script as [|[now raw] rest IH];
    intros w Hp Hstop Hf Hsu Hsc Her Hok.
  - exists w, []. repeat split. intros old new seen [].
  - inversion Hok as [|line lines Hline Hrest]; subst.
    destruct (reader_step w faults now raw (reads rest) f Hp Hf Hsu Hsc Her
                Hline)
      as (w1 & t1 & Hrun & W1 & W2 & W3 & W4 & W5 & Hprev & Hch & Hseen).
    destruct (IH w1) as (w2 & t2 & Hrun2 & Hch2 & Hprev2 & Hseen2).
    + exact W5.
    + rewrite W4; exact Hstop.
    + rewrite W2; exact Hf.
    + rewrite W1; exact Hsu.
    + rewrite W2; exact Hsc.
    + rewrite W3; exact Her.
    + exact Hrest.
    + cbn [List.length reader_while]. unfold bind at 1. unfold gets at 1.
      rewrite Hstop. unfold bind at 1. rewrite Hrun, Hrun2.
      eexists _, _; split; [reflexivity|]. cbn [app]. split; [|split].
      * change (lines_of ((now, raw) :: rest))
          with (strip raw :: lines_of rest).
        rewrite expected_changes_cons, state_changes_app, Hch, Hch2, Hprev.
        reflexivity.
      * rewrite Hprev2, Hprev. reflexivity.
      * intros old new seen Hin. apply in_app_or in Hin.
        destruct Hin; eauto.
Qed.

(** The observer calls of one JSON line, whatever the line and the
    observers: none, or the status update alone, or the status update and
    then one state change. *)
Lemma json_calls_shape line w f :
  startswith line "{" = true ->
  on_status_update (self w) = Some f ->
  let t := snd (_parse_line json_loads line w) in
  calls t = [] \/
  (exists snap, calls t = [args_status snap]) \/
  (exists snap old new, calls t = [args_status snap; args_states old new]).
Proof.
  intros E1 Hsu. cbv zeta.
  destruct (_parse_line json_loads line w) as [[r0 w0] t0] eqn:Hline.
  cbn [snd]. revert Hline.
  unfold _parse_line. unfold bind at 1. unfold log at 1, emit at 1.
  rewrite E1.
  destruct (json_loads line) as [data|e] eqn:Hj.
  - destruct data as [| | | | | |d].
    7:{ destruct (integers_ok d) eqn:Hi.
        - pose proof (json_object_ok line d w Hj Hi) as Hrun.
          cbv zeta in Hrun. rewrite Hrun. clear Hrun.
          set (s1 := json_status d (clock w) (_status (self w))).
          set (w1 := mkWorld (with_status s1 (self w)) (clock w)).
          destruct (fire_callback_run (on_status_update (self w))
                      (args_status s1) w1)
            as (r & t1 & Hfire & Hcalls1 & _ & Hr).
          rewrite Hfire. rewrite Hsu in Hcalls1.
          destruct r as [[]|e].
          + destruct (check_state_change_run w1)
              as (r2 & t2 & p & Hc & _ & Hcase).
            rewrite Hc. cbn [app]. intros Hline.
            injection Hline as _ _ <-.
            change (calls (Log logging.DEBUG ("Arduino → " ++ line)
                           :: (t1 ++ t2)%list))
              with (calls (t1 ++ t2)%list).
            rewrite calls_app, Hcalls1.
            destruct (SystemState_eqb _ _).
            * destruct Hcase as (-> & _). right; left. eexists; reflexivity.
            * destruct Hcase as (-> & _).
              destruct (on_state_change (self w1)); simpl.
              -- right; right. eexists _, _, _; reflexivity.
              -- right; left. eexists; reflexivity.
          + cbn [app]. intros Hline. injection Hline as _ _ <-.
            change (calls (Log logging.DEBUG ("Arduino → " ++ line) :: t1))
              with (calls t1).
            rewrite Hcalls1. right; left. eexists; reflexivity.
        - destruct (json_object_bad line d w Hj Hi) as (e & s & Hrun & _).
          rewrite Hrun. intros Hline. injection Hline as _ _ <-.
          left; reflexivity. }
    all: destruct (json_not_object line w) as (r & t & Hrun & Hcalls & _);
      [intros d Hd; rewrite Hj in Hd; discriminate|];
      rewrite Hrun; intros Hline; injection Hline as _ _ <-;
      left; exact Hcalls.
  - destruct (json_not_object line w) as (r & t & Hrun & Hcalls & _);
      [intros d Hd; rewrite Hj in Hd; discriminate|].
    rewrite Hrun; intros Hline; injection Hline as _ _ <-.
    left; exact Hcalls.
Qed.

(** The observer calls of one [ERROR:] line: the error alone, or the error
    and then one state change. *)
Lemma error_calls_shape line w f :
  startswith line "{" = false ->
  startswith line "ERROR:" = true ->
  on_error (self w) = Some f ->
  let t := snd (_parse_line json_loads line w) in
  calls t = [args_reason (slice_from 6 line)] \/
  (exists old new,
      calls t = [args_reason (slice_from 6 line); args_states old new]).
Proof.
  intros E1 E2 Her. cbv zeta.
  destruct (_parse_line json_loads line w) as [[r0 w0] t0] eqn:Hline.
  cbn [snd]. revert Hline.
  unfold _parse_line. unfold bind at 1. unfold log at 1, emit at 1.
  rewrite E1, E2.
  set (s1 := set_error_reason (slice_from 6 line)
               (set_state ERROR (_status (self w)))).
  set (w1 := mkWorld (with_status s1 (self w)) (clock w)).
  destruct (fire_callback_run (on_error (self w))
              (args_reason (slice_from 6 line)) w1)
    as (r & t1 & Hfire & Hcalls1 & _ & Hr).
  rewrite Her in Hcalls1.
  run. change (mkWorld _ (clock w)) with w1. rewrite Hfire.
  destruct r as [[]|e].
  - destruct (check_state_change_run w1) as (r2 & t2 & p & Hc & _ & Hcase).
    rewrite Hc. cbn [app]. intros Hline. injection Hline as _ _ <-.
    change (calls (Log ?a ?b :: Log ?c ?d :: (t1 ++ t2)%list))
      with (calls (t1 ++ t2)%list).
    rewrite calls_app, Hcalls1.
    destruct (SystemState_eqb _ _).
    + destruct Hcase as (-> & _). left; reflexivity.
    + destruct Hcase as (-> & _).
      destruct (on_state_change (self w1)); simpl.
      * right. eexists _, _; reflexivity.
      * left; reflexivity.
  - cbn [app]. intros Hline. injection Hline as _ _ <-.
    change (calls (Log ?a ?b :: Log ?c ?d :: t1)) with (calls t1).
    rewrite Hcalls1. left; reflexivity.
Qed.

(** The observer calls of a JSON line that is processed to its end: the
    status update, made with the record the line wrote, comes first;
    the state change follows it or not, and it does follow when the
    state differs from the remembered one, a change observer is
    registered and the status observer cannot make the dispatcher
    raise. *)
Lemma json_line_calls line w f d :
  startswith line "{" = true ->
  on_status_update (self w) = Some f ->
  json_loads line = Ok (JObject d) ->
  integers_ok d = true ->
  exists rest,
    calls (snd (_parse_line json_loads line w))
    = args_status (json_status d (clock w) (_status (self w))) :: rest /\
    (rest = [] \/ rest = [change_call w (reported_state d)]) /\
    (contained (Some f) ->
     on_state_change (self w) <> None ->
     reported_state d <> _previous_state (self w) ->
     rest = [change_call w (reported_state d)]).
Proof.
  intros E1 Hsu Hj Hi.
  destruct (_parse_line json_loads line w) as [[r0 w0] t0] eqn:Hline.
  cbn [snd]. revert Hline.
  unfold _parse_line. unfold bind at 1. unfold log at 1, emit at 1.
  rewrite E1.
  pose proof (json_object_ok line d w Hj Hi) as Hrun.
  cbv zeta in Hrun. rewrite Hrun. clear Hrun.
  set (s1 := json_status d (clock w) (_status (self w))).
  set (w1 := mkWorld (with_status s1 (self w)) (clock w)).
  destruct (fire_callback_run (on_status_update (self w))
              (args_status s1) w1)
    as (r & t1 & Hfire & Hcalls1 & _ & Hr).
  rewrite Hfire. rewrite Hsu in Hcalls1, Hr. cbn [registered] in Hcalls1.
  destruct r as [[]|e].
  - destruct (check_state_change_run w1) as (r2 & t2 & p & Hc & _ & Hcase).
    rewrite Hc. cbn [app]. intros Hline. injection Hline as _ _ <-.
    change (calls (Log logging.DEBUG ("Arduino → " ++ line)
                   :: (t1 ++ t2)%list))
      with (calls (t1 ++ t2)%list).
    rewrite calls_app, Hcalls1.
    change (state (_status (self w1))) with (reported_state d) in Hcase.
    change (_previous_state (self w1)) with (_previous_state (self w))
      in Hcase.
    change (on_state_change (self w1)) with (on_state_change (self w))
      in Hcase.
    exists (calls t2). split; [reflexivity|].
    destruct (SystemState_eqb (reported_state d) (_previous_state (self w)))
      eqn:Heq.
    + destruct Hcase as (-> & _). split; [left; reflexivity|].
      intros _ _ Hne. apply SystemState_eqb_eq in Heq. contradiction.
    + destruct Hcase as (-> & _).
      destruct (on_state_change (self w)) as [h|]; cbn [registered].
      * split; [right; reflexivity|]. intros _ _ _. reflexivity.
      * split; [left; reflexivity|]. intros _ Hn. contradiction.
  - cbn [app]. intros Hline. injection Hline as _ _ <-.
    change (calls (Log logging.DEBUG ("Arduino → " ++ line) :: t1))
      with (calls t1).
    rewrite Hcalls1. exists []. split; [reflexivity|].
    split; [left; reflexivity|].
    intros Hcont. destruct Hr as [Hr|(e' & _ & _ & Hnot)];
      [discriminate Hr|contradiction].
Qed.

(** A JSON line that is not processed to its end, because it does not
    decode to an object or because an integer key does not convert,
    calls no observer. *)
Lemma json_line_silent line w :
  startswith line "{" = true ->
  (forall d, json_loads line = Ok (JObject d) -> integers_ok d = false) ->
  calls (snd (_parse_line json_loads line w)) = [].
Proof.
  intros E1 Hbad.
  destruct (_parse_line json_loads line w) as [[r0 w0] t0] eqn:Hline.
  cbn [snd]. revert Hline.
  unfold _parse_line. unfold bind at 1. unfold log at 1, emit at 1.
  rewrite E1.
  destruct (json_loads line) as [data|e] eqn:Hj.
  - destruct data as [| | | | | |d].
    7:{ destruct (json_object_bad line d w Hj (Hbad d eq_refl))
          as (e & s & Hrun & _).
        rewrite Hrun. intros Hline. injection Hline as _ _ <-.
        reflexivity. }
    all: destruct (json_not_object line w) as (r & t & Hrun & Hcalls & _);
      [intros d Hd; rewrite Hj in Hd; discriminate|];
      rewrite Hrun; intros Hline; injection Hline as _ _ <-;
      exact Hcalls.
  - destruct (json_not_object line w) as (r & t & Hrun & Hcalls & _);
      [intros d Hd; rewrite Hj in Hd; discriminate|].
    rewrite Hrun; intros Hline; injection Hline as _ _ <-.
    exact Hcalls.
Qed.

(** The observer calls of an [ERROR:] line: the error call, with the
    reason of the line, is always made and comes first; the state change
    follows it or not, and it does follow when the remembered state is
    not ERROR, a change observer is registered and the error observer
    cannot make the dispatcher raise. *)
Lemma error_line_calls line w f :
  startswith line "{" = false ->
  startswith line "ERROR:" = true ->
  on_error (self w) = Some f ->
  exists rest,
    calls (snd (_parse_line json_loads line w))
    = args_reason (slice_from 6 line) :: rest /\
    (rest = [] \/ rest = [change_call w ERROR]) /\
    (contained (Some f) ->
     on_state_change (self w) <> None ->
     _previous_state (self w) <> ERROR ->
     rest = [change_call w ERROR]).
Proof.
  intros E1 E2 Her.
  destruct (_parse_line json_loads line w) as [[r0 w0] t0] eqn:Hline.
  cbn [snd]. revert Hline.
  unfold _parse_line. unfold bind at 1. unfold log at 1, emit at 1.
  rewrite E1, E2.
  set (s1 := set_error_reason (slice_from 6 line)
               (set_state ERROR (_status (self w)))).
  set (w1 := mkWorld (with_status s1 (self w)) (clock w)).
  destruct (fire_callback_run (on_error (self w))
              (args_reason (slice_from 6 line)) w1)
    as (r & t1 & Hfire & Hcalls1 & _ & Hr).
  rewrite Her in Hcalls1, Hr. cbn [registered] in Hcalls1.
  run. change (mkWorld _ (clock w)) with w1. rewrite Hfire.
  destruct r as [[]|e].
  - destruct (check_state_change_run w1) as (r2 & t2 & p & Hc & _ & Hcase).
    rewrite Hc. cbn [app]. intros Hline. injection Hline as _ _ <-.
    change (calls (Log ?a ?b :: Log ?c ?d :: (t1 ++ t2)%list))
      with (calls (t1 ++ t2)%list).
    rewrite calls_app, Hcalls1.
    change (state (_status (self w1))) with ERROR in Hcase.
    change (_previous_state (self w1)) with (_previous_state (self w))
      in Hcase.
    change (on_state_change (self w1)) with (on_state_change (self w))
      in Hcase.
    exists (calls t2). split; [reflexivity|].
    destruct (SystemState_eqb ERROR (_previous_state (self w))) eqn:Heq.
    + destruct Hcase as (-> & _). split; [left; reflexivity|].
      intros _ _ Hne. apply SystemState_eqb_eq in Heq.
      symmetry in Heq. contradiction.
    + destruct Hcase as (-> & _).
      destruct (on_state_change (self w)) as [h|]; cbn [registered].
      * split; [right; reflexivity|]. intros _ _ _. reflexivity.
      * split; [left; reflexivity|]. intros _ Hn. contradiction.
  - cbn [app]. intros Hline. injection Hline as _ _ <-.
    change (calls (Log ?a ?b :: Log ?c ?d :: t1)) with (calls t1).
    rewrite Hcalls1. exists []. split; [reflexivity|].
    split; [left; reflexivity|].
    intros Hcont. destruct Hr as [Hr|(e' & _ & _ & Hnot)];
      [discriminate Hr|contradiction].
Qed.

End ParserFacts.

(** A session with a packet, a repeated state, a device error and a
    return to idle. *)
Example state_change_events_session :
  exists w' t,
    reader_while json.loads 4
      (session [(3, Ok running_packet); (4, Ok "STATE:RUNNING");
                (5, Ok "ERROR:LID_OPEN"); (6, Ok "STATE:IDLE")])
      = (Ok Looping, w', t) /\
    state_changes t =
      [(DISCONNECTED, RUNNING); (RUNNING, ERROR); (ERROR, IDLE)] /\
    _previous_state (self w') = IDLE.
Proof.
  destruct (state_change_events json.loads
              (session (reads [(3, running_packet); (4, "STATE:RUNNING");
                               (5, "ERROR:LID_OPEN"); (6, "STATE:IDLE")]))
              []
              [(3, running_packet); (4, "STATE:RUNNING");
               (5, "ERROR:LID_OPEN"); (6, "STATE:IDLE")]
              (observer "on_state_change"))
    as (w' & t & Hrun & Hch & Hprev & _).
  - reflexivity.
  - reflexivity.
  - reflexivity.
  - left; discriminate.
  - left; discriminate.
  - left; discriminate.
  - repeat constructor.
  - exists w', t. split; [exact Hrun|]. split; [exact Hch|exact Hprev].
Qed.

(** * Facts about the threads and [disconnect()] *)

Lemma find_handler_in {A} (e : exn)
    (handlers : list (list ExnClass * (exn -> M A))) h :
  find_handler e handlers = Some h ->
  exists classes, In (classes, h) handlers.
Proof.
  induction handlers as [|[cls h0] rest IH]; simpl; [discriminate|].
  destruct (isinstance e cls).
  - intros H. injection H as <-. exists cls. left; reflexivity.
  - intros H. destruct (IH H) as (c & Hc). exists c. right; exact Hc.
Qed.

Lemma isinstance_Exception (e : exn) : isinstance e [Exception] = true.
Proof. unfold isinstance. simpl. reflexivity. Qed.

Section Preserved.

Context {B : Type} (g : SerialController -> B).
Hypothesis Hg : apart g.

Lemma pres_ret {A} (a : A) : preserves g (ret a).
Proof. intros w r w' t H. injection H as <- <- <-. reflexivity. Qed.

Lemma pres_lift {A} (x : Result A) : preserves g (lift x).
Proof. intros w r w' t H. injection H as <- <- <-. reflexivity. Qed.

Lemma pres_gets {A} (f : SerialController -> A) : preserves g (gets f).
Proof. intros w r w' t H. injection H as <- <- <-. reflexivity. Qed.

Lemma pres_time : preserves g time_time.
Proof. intros w r w' t H. injection H as <- <- <-. reflexivity. Qed.

Lemma pres_log lvl msg : preserves g (log lvl msg).
Proof. intros w r w' t H. injection H as <- <- <-. reflexivity. Qed.

Lemma pres_assign f : preserves g (assign f).
Proof.
  intros w r w' t H. injection H as <- <- <-. apply (proj1 (proj2 Hg)).
Qed.

Lemma pres_remember s : preserves g (modify (with_previous_state s)).
Proof.
  intros w r w' t H. injection H as <- <- <-. apply (proj2 (proj2 Hg)).
Qed.

Lemma pres_call cb args : preserves g (call cb args).
Proof.
  intros w r w' t H. unfold call in H.
  destruct (body cb args (_status (self w))); injection H as <- <- <-;
    reflexivity.
Qed.

Lemma pres_readline : preserves g serial_readline.
Proof.
  intros w r w' t. unfold serial_readline.
  destruct (_serial (self w)) as [p|];
    [|intros H; injection H as <- <- <-; reflexivity].
  destruct (is_open p); [|intros H; injection H as <- <- <-; reflexivity].
  destruct (incoming p) as [|[now x] rest];
    intros H; injection H as <- <- <-; [reflexivity|].
  apply (proj1 Hg).
Qed.

Lemma pres_write data : preserves g (serial_write data).
Proof.
  intros w r w' t. unfold serial_write.
  destruct (_serial (self w)) as [p|];
    [|intros H; injection H as <- <- <-; reflexivity].
  destruct (is_open p); [|intros H; injection H as <- <- <-; reflexivity].
  destruct (write_faults p) as [|[e|] rest];
    intros H; injection H as <- <- <-;
    first [reflexivity | apply (proj1 Hg)].
Qed.

Lemma pres_close : preserves g serial_close.
Proof.
  intros w r w' t. unfold serial_close.
  destruct (_serial (self w)) as [p|];
    intros H; injection H as <- <- <-; [apply (proj1 Hg)|reflexivity].
Qed.

Lemma pres_bind {A C} (m : M A) (k : A -> M C) :
  preserves g m -> (forall a, preserves g (k a)) -> preserves g (bind m k).
Proof.
  intros Hm Hk w r w' t H. unfold bind in H.
  destruct (m w) as [[r1 w1] t1] eqn:E1.
  pose proof (Hm _ _ _ _ E1) as K1.
  destruct r1 as [a|e].
  - destruct (k a w1) as [[r2 w2] t2] eqn:E2.
    pose proof (Hk a _ _ _ _ E2) as K2.
    injection H as <- <- <-. congruence.
  - injection H as <- <- <-. exact K1.
Qed.

Lemma pres_try {A} (m : M A) handlers :
  preserves g m ->
  (forall classes h e, In (classes, h) handlers -> preserves g (h e)) ->
  preserves g (try_ m handlers).
Proof.
  intros Hm Hh w r w' t H. unfold try_ in H.
  destruct (m w) as [[r1 w1] t1] eqn:E1.
  pose proof (Hm _ _ _ _ E1) as K1.
  destruct r1 as [a|e]; [injection H as <- <- <-; exact K1|].
  destruct (find_handler e handlers) as [h|] eqn:Ef.
  - destruct (find_handler_in _ _ _ Ef) as (cls & Hin).
    destruct (h e w1) as [[r2 w2] t2] eqn:E2.
    pose proof (Hh cls h e Hin _ _ _ _ E2) as K2.
    injection H as <- <- <-. congruence.
  - injection H as <- <- <-. exact K1.
Qed.

Ltac pres_handlers :=
  let H := fresh "H" in
  intros ? ? ? H; simpl in H;
  repeat (destruct H as [H|H]; [injection H as <- <-|]);
  try destruct H.

Ltac pres_step :=
  first
    [ apply pres_ret | apply pres_lift | apply pres_gets | apply pres_time
    | apply pres_log | apply pres_assign | apply pres_remember
    | apply pres_call | apply pres_readline | apply pres_write
    | apply pres_close
    | apply pres_bind; [|intros ?]
    | apply pres_try; [|pres_handlers] ].

Lemma pres_fire_callback cb args : preserves g (_fire_callback cb args).
Proof.
  unfold _fire_callback. destruct cb as [f|]; [|apply pres_ret].
  repeat pres_step.
  unfold get___name__. destruct (__name__ f); [apply pres_ret|].
  intros w r w' t H. injection H as <- <- <-. reflexivity.
Qed.

Lemma pres_check_state_change : preserves g _check_state_change.
Proof.
  unfold _check_state_change, with_lock.
  apply pres_bind; [apply pres_gets|intros current].
  apply pres_bind; [apply pres_gets|intros previous].
  destruct (negb (SystemState_eqb current previous)); [|apply pres_ret].
  apply pres_bind; [apply pres_log|intros _].
  apply pres_bind; [apply pres_gets|intros cb].
  apply pres_bind; [apply pres_fire_callback|intros _].
  apply pres_remember.
Qed.

Lemma pres_handle_disconnect : preserves g _handle_disconnect.
Proof.
  unfold _handle_disconnect, with_lock.
  apply pres_bind; [apply pres_log|intros _].
  apply pres_bind; [apply pres_assign|intros _].
  apply pres_bind; [apply pres_gets|intros p].
  apply pres_bind.
  - destruct p; [|apply pres_ret].
    apply pres_try; [apply pres_close|]. pres_handlers. apply pres_ret.
  - intros _. apply pres_bind; [apply pres_gets|intros cb].
    apply pres_fire_callback.
Qed.

Lemma pres_send command : preserves g (_send command).
Proof.
  unfold _send, with_lock.
  apply pres_bind; [apply pres_gets|intros connected].
  destruct (negb connected).
  - repeat pres_step.
  - apply pres_try; [repeat pres_step|]. pres_handlers.
    apply pres_bind; [apply pres_log|intros _].
    apply pres_bind; [apply pres_handle_disconnect|intros _].
    apply pres_ret.
Qed.

Lemma pres_parse_line json_loads line :
  preserves g (_parse_line json_loads line).
Proof.
  unfold _parse_line, with_lock.
  apply pres_bind; [apply pres_log|intros _].
  destruct (startswith line "{").
  { unfold _parse_status_json, with_lock, get_status, with_lock.
    repeat first [ apply pres_fire_callback | apply pres_check_state_change
                 | pres_step ]. }
  destruct (startswith line "ERROR:").
  { repeat first [ apply pres_fire_callback | apply pres_check_state_change
                 | pres_step ]. }
  destruct (startswith line "STATE:").
  { repeat first [ apply pres_fire_callback | apply pres_check_state_change
                 | pres_step ]. }
  destruct (startswith line "STATUS:COMPLETE").
  { repeat first [ apply pres_fire_callback | pres_step ]. }
  destruct (startswith line "WARNING:"); [apply pres_log|].
  destruct (String.eqb line "PONG"); [apply pres_log|].
  destruct (startswith line "ACK:"); [apply pres_log|].
  destruct (startswith line "Centrifuge Control"
            || String.eqb line "System Ready"); apply pres_log.
Qed.

Lemma pres_reader_iteration json_loads :
  preserves g (reader_iteration json_loads).
Proof.
  unfold reader_iteration.
  apply pres_try.
  - apply pres_bind; [apply pres_readline|intros raw].
    destruct (String.eqb raw ""); [apply pres_ret|].
    destruct (negb (String.eqb (strip raw) "")); [|apply pres_ret].
    apply pres_bind; [apply pres_parse_line|intros _]. apply pres_ret.
  - pres_handlers.
    + apply pres_bind; [apply pres_log|intros _].
      apply pres_bind; [apply pres_handle_disconnect|intros _].
      apply pres_ret.
    + apply pres_bind; [apply pres_log|intros _]. apply pres_ret.
Qed.

End Preserved.

Lemma apart_stop_event : apart _stop_event.
Proof. repeat split. Qed.

Lemma apart_reader_thread : apart _reader_thread.
Proof. repeat split. Qed.

Lemma apart_watchdog_thread : apart _watchdog_thread.
Proof. repeat split. Qed.

Lemma apart_observers :
  apart (fun c => (on_status_update c, on_state_change c, on_error c,
                   on_complete c)).
Proof. repeat split. Qed.

(** The reader, waited for with the stop event set: it finishes the
    iteration it is in and its run ends, whatever the iteration did. *)
Lemma reader_join_run (w : World) :
  _stop_event (self w) = true ->
  exists t,
    reader_join w =
      (Ok tt,
       mkWorld
         (with_reader_thread
            (option_map Thread_finished
               (_reader_thread
                  (self (snd (fst (reader_iteration json.loads w))))))
            (self (snd (fst (reader_iteration json.loads w)))))
         (clock (snd (fst (reader_iteration json.loads w)))),
       t).
Proof.
  intros Hs. unfold reader_join, try_. unfold bind at 1.
  pose proof (pres_reader_iteration _stop_event apart_stop_event
                json.loads w) as Hp.
  destruct (reader_iteration json.loads w) as [[[flow|e] w1] t1].
  - specialize (Hp _ _ _ eq_refl). cbn [fst snd].
    unfold bind at 1, gets at 1. rewrite Hp, Hs.
    destruct flow; eexists; reflexivity.
  - cbn [fst snd]. unfold find_handler. rewrite isinstance_Exception.
    eexists; reflexivity.
Qed.

(** The watchdog, waited for with the stop event set: it sends nothing
    and its run ends. *)
Lemma watchdog_join_run (w : World) :
  _stop_event (self w) = true ->
  watchdog_join w =
    (Ok tt,
     mkWorld
       (with_watchdog_thread
          (option_map Thread_finished (_watchdog_thread (self w))) (self w))
       (clock w),
     [Log logging.DEBUG "Watchdog thread stopped."]).
Proof.
  intros Hs. unfold watchdog_join, try_, bind, gets.
  rewrite Hs, Bool.andb_false_r. cbn. rewrite Hs. reflexivity.
Qed.

(** The wait of [disconnect()] for the two threads. *)
Lemma join_threads_run (w : World) :
  _stop_event (self w) = true ->
  exists wj tj,
    join_threads w = (Ok tt, wj, tj) /\
    _stop_event (self wj) = true /\
    reader_alive (self wj) = false /\
    watchdog_alive (self wj) = false /\
    _status (self wj)
    = (if reader_alive (self w)
       then _status (self (snd (fst (reader_iteration json.loads w))))
       else _status (self w)) /\
    on_status_update (self wj) = on_status_update (self w) /\
    on_state_change (self wj) = on_state_change (self w) /\
    on_error (self wj) = on_error (self w) /\
    on_complete (self wj) = on_complete (self w).
Proof.
  intros Hs. unfold join_threads. unfold bind at 1, gets at 1.
  assert (Hfirst : exists wa ta,
    join (_reader_thread (self w)) reader_join w = (Ok tt, wa, ta) /\
    _stop_event (self wa) = true /\
    reader_alive (self wa) = false /\
    _watchdog_thread (self wa) = _watchdog_thread (self w) /\
    _status (self wa)
    = (if reader_alive (self w)
       then _status (self (snd (fst (reader_iteration json.loads w))))
       else _status (self w)) /\
    on_status_update (self wa) = on_status_update (self w) /\
    on_state_change (self wa) = on_state_change (self w) /\
    on_error (self wa) = on_error (self w) /\
    on_complete (self wa) = on_complete (self w)).
  { unfold join, reader_alive.
    destruct (_reader_thread (self w)) as [th|] eqn:Hth.
    - destruct (is_alive th) eqn:Hal.
      + destruct (reader_join_run w Hs) as (t & ->).
        pose proof (pres_reader_iteration _stop_event apart_stop_event
                      json.loads w) as P1.
        pose proof (pres_reader_iteration _watchdog_thread
                      apart_watchdog_thread json.loads w) as P2.
        pose proof (pres_reader_iteration _ apart_observers
                      json.loads w) as P3.
        destruct (reader_iteration json.loads w) as [[r1 w1] t1].
        specialize (P1 _ _ _ eq_refl). specialize (P2 _ _ _ eq_refl).
        specialize (P3 _ _ _ eq_refl). cbn [fst snd] in *.
        injection P3 as O1 O2 O3 O4.
        eexists _, _. split; [reflexivity|]. cbn.
        split; [congruence|]. split.
        { destruct (_reader_thread (self w1)); reflexivity. }
        split; [exact P2|]. split; [reflexivity|].
        repeat split; assumption.
      + eexists _, _. split; [reflexivity|].
        split; [exact Hs|]. split; [rewrite Hth; exact Hal|].
        repeat split.
    - eexists _, _. split; [reflexivity|].
      split; [exact Hs|]. split; [rewrite Hth; reflexivity|].
      repeat split. }
  destruct Hfirst as (wa & ta & Hja & Sa & Ra & Wa & Sta & O1 & O2 & O3 & O4).
  unfold bind at 1. rewrite Hja.
  unfold bind at 1, gets at 1.
  unfold join, watchdog_alive.
  destruct (_watchdog_thread (self wa)) as [th|] eqn:Hth.
  - destruct (is_alive th) eqn:Hal.
    + rewrite (watchdog_join_run wa Sa).
      eexists _, _. split; [reflexivity|]. cbn. rewrite Hth. cbn.
      split; [exact Sa|]. split; [exact Ra|]. split; [reflexivity|].
      split; [exact Sta|]. repeat split; assumption.
    + eexists _, _. split; [reflexivity|].
      split; [exact Sa|]. split; [exact Ra|].
      split; [rewrite Hth; exact Hal|].
      split; [exact Sta|]. repeat split; assumption.
  - eexists _, _. split; [reflexivity|].
    split; [exact Sa|]. split; [exact Ra|].
    split; [rewrite Hth; reflexivity|].
    split; [exact Sta|]. repeat split; assumption.
Qed.

(** [disconnect()], whatever the session: it returns normally, with the
    stop event set, the threads ended, the port closed, and the record
    as the reader left it but for the state. *)
Lemma disconnect_run (w : World) :
  exists w' t,
    disconnect w = (Ok tt, w', t) /\
    _status (self w') = set_state DISCONNECTED (last_record w) /\
    _stop_event (self w') = true /\
    is_connected (self w') = false /\
    reader_alive (self w') = false /\
    watchdog_alive (self w') = false /\
    on_status_update (self w') = on_status_update (self w) /\
    on_state_change (self w') = on_state_change (self w) /\
    on_error (self w') = on_error (self w) /\
    on_complete (self w') = on_complete (self w).
Proof.
  unfold disconnect. unfold bind at 1, log at 1, emit at 1.
  unfold bind at 1, modify at 1.
  change (mkWorld (with_stop_event true (self w)) (clock w))
    with (stopping w).
  destruct (join_threads_run (stopping w) eq_refl)
    as (wj & tj & Hj & Sj & Rj & Wj & Stj & O1 & O2 & O3 & O4).
  unfold bind at 1. rewrite Hj.
  unfold bind at 1, gets at 1.
  assert (Hrec : _status (self wj) = last_record w).
  { rewrite Stj. unfold last_record. reflexivity. }
  unfold reader_alive, watchdog_alive, is_connected in *.
  destruct wj as [cj kj]. cbn [self clock] in *.
  destruct (_serial cj) as [p|] eqn:Hp.
  - destruct (is_open p) eqn:Ho.
    + unfold serial_close, with_lock, bind, assign, modify, log, emit.
      cbn. rewrite Hp. cbn.
      eexists _, _. split; [reflexivity|]. cbn.
      rewrite Hrec. repeat split; assumption.
    + unfold with_lock, bind, assign, modify, log, emit, ret. cbn.
      eexists _, _. split; [reflexivity|]. cbn. rewrite Hp, Ho, Hrec.
      repeat split; assumption.
  - unfold with_lock, bind, assign, modify, log, emit, ret. cbn.
    eexists _, _. split; [reflexivity|]. cbn. rewrite Hp, Hrec.
    repeat split; assumption.
Qed.

(** [disconnect()] on a session that is already disconnected changes
    nothing. *)
Lemma disconnect_settled (w : World) :
  _stop_event (self w) = true ->
  is_connected (self w) = false ->
  reader_alive (self w) = false ->
  watchdog_alive (self w) = false ->
  state (_status (self w)) = DISCONNECTED ->
  disconnect w =
    (Ok tt, w,
     [Log logging.INFO "Disconnecting..."; Log logging.INFO "Disconnected."]).
Proof.
  destruct w as [c k]. destruct c as [p0 b0 a0 o1 o2 o3 o4 ser st ev pr rt wt].
  destruct st as [s0 n1 n2 n3 b1 b2 b3 n4 er lu].
  unfold is_connected, reader_alive, watchdog_alive. cbn.
  intros -> Hc Hr Hw ->.
  unfold disconnect, join_threads, join, with_lock, bind, log, emit, modify,
    assign, gets, ret. cbn.
  destruct rt as [[n d al]|]; cbn in Hr; [subst al|];
    (destruct wt as [[n' d' al']|]; cbn in Hw; [subst al'|]);
    (destruct ser as [[o i f]|]; cbn in Hc; [subst o|]);
    reflexivity.
Qed.

(** * The claims *)

(** C1 (as amended).  [disconnect()] returns normally and resets
    nothing.  It waits for a live reader, which finishes the read it is
    in and processes the line that read brings, if any; afterwards
    [get_status()] shows the state DISCONNECTED and, in every other field
    of the record, the value the reader left there.  With no live reader
    thread, or when the read of the reader times out, that is the value
    the field had before the call: the record is marked, not reset. *)
Theorem disconnect_keeps_fields (w : World) :
  exists w' t s,
    disconnect w = (Ok tt, w', t) /\
    get_status w' = (Ok s, w', []) /\
    s = set_state DISCONNECTED (last_record w) /\
    (reader_alive (self w) = false -> last_record w = _status (self w)) /\
    (forall p,
        _serial (self w) = Some p -> is_open p = true -> incoming p = [] ->
        last_record w = _status (self w)).
Proof.
  destruct (disconnect_run w) as (w' & t & Hrun & Hst & _).
  exists w', t, (set_state DISCONNECTED (last_record w)).
  split; [exact Hrun|]. split.
  { unfold get_status, with_lock, bind, gets, ret. cbn. rewrite Hst.
    reflexivity. }
  split; [reflexivity|]. split.
  - intros Hr. unfold last_record. rewrite Hr. reflexivity.
  - intros p Hp Ho Hi. unfold last_record.
    destruct (reader_alive (self w)); [|reflexivity].
    unfold reader_iteration, try_, bind, serial_readline, stopping.
    cbn [self clock with_stop_event _serial]. rewrite Hp, Ho, Hi.
    reflexivity.
Qed.

(** C1, the claim as written fails: in a connected session that has
    received the packet of a run in progress, the snapshot taken after
    [disconnect()] still shows 850 rpm, the target 1000, the lid closed
    and 12000 ms remaining, so it is not a freshly constructed record,
    also when the time stamp is ignored. *)
Lemma disconnect_does_not_reset :
  exists w1 t1 w2 t2 s,
    _parse_line json.loads running_packet (session []) = (Ok tt, w1, t1) /\
    is_connected (self w1) = true /\
    disconnect w1 = (Ok tt, w2, t2) /\
    get_status w2 = (Ok s, w2, []) /\
    state s = DISCONNECTED /\
    current_rpm s = 850 /\
    target_rpm s = 1000 /\
    lid_closed s = true /\
    remaining_ms s = 12000 /\
    set_last_updated 0 s <> ArduinoStatus_default 0.
Proof.
  destruct (_parse_line json.loads running_packet (session []))
    as [[r w1] t1] eqn:H1.
  vm_compute in H1. injection H1 as <- <- <-.
  eexists _, _, _, _, _. split; [reflexivity|].
  split; [reflexivity|]. split; [reflexivity|]. split; [reflexivity|].
  repeat split. discriminate.
Qed.

(** C2, the code at the failing input.  The packet
    [{"state":"RUNNING","currentRPM":"abc"}] is valid JSON; [int("abc")]
    raises ValueError inside the critical section, after the state was
    assigned and before any other field was; no clause of
    [_parse_status_json] catches it.  Whatever the record was, afterwards
    it has the new state and all its other old fields, no observer was
    called, and the reader, which logs the exception and goes on, leaves
    that record to [get_status()]: here a state RUNNING beside the time
    stamp of construction. *)
Theorem bad_integer_leaves_partial_record :
  (forall w : World,
      exists e t,
        _parse_line json.loads bad_rpm_packet w =
          (Raise e,
           mkWorld (with_status (set_state RUNNING (_status (self w))) (self w))
                   (clock w),
           t) /\
        exn_class e = ValueError /\
        calls t = []) /\
  (exists w' t,
      reader_while json.loads 1 (session [(3, Ok bad_rpm_packet)])
        = (Ok Looping, w', t) /\
      get_status w' =
        (Ok (mkStatus RUNNING 0 0 0 false false false 0 "" 0), w', [])).
Proof.
  split.
  - intros w.
    assert (Hj : json.loads bad_rpm_packet =
                 Ok (JObject [("state", JStr "RUNNING");
                              ("currentRPM", JStr "abc")]))
      by (vm_compute; reflexivity).
    unfold _parse_line. unfold bind at 1. unfold log at 1, emit at 1.
    replace (startswith bad_rpm_packet "{") with true by reflexivity.
    unfold _parse_status_json, with_lock.
    unfold try_ at 1. unfold bind at 1. unfold lift at 1. rewrite Hj.
    unfold bind at 1. unfold bind at 1. rewrite state_block.
    eexists _, _. split; [reflexivity|]. split; reflexivity.
  - destruct (reader_while json.loads 1 (session [(3, Ok bad_rpm_packet)]))
      as [[r w'] t] eqn:H.
    vm_compute in H. injection H as <- <- <-.
    eexists _, _. split; reflexivity.
Qed.

(** C3 (as amended).  When a read fails with a SerialException in a
    session whose error observer is registered, the reader leaves its
    loop (by [break], or with the exception the dispatcher let through),
    exactly one observer call is made, the error event with the reason
    SERIAL_DISCONNECTED, the record is marked DISCONNECTED and the port
    is closed.  The stop event stays clear: the watchdog does not
    terminate, it stays in its loop and sends nothing while the port is
    closed. *)
Theorem reader_failure (json_loads : string -> Result JValue)
    (w : World) (p : Serial) (now : Time) (e : exn)
    (rest : list (Time * Result string)) (fuel : nat) (f : Callback) :
  _serial (self w) = Some p ->
  is_open p = true ->
  incoming p = (now, Raise e) :: rest ->
  isinstance e [SerialException] = true ->
  _stop_event (self w) = false ->
  on_error (self w) = Some f ->
  exists r w' t,
    reader_while json_loads (S fuel) w = (r, w', t) /\
    (r = Ok Exited \/ exists e', r = Raise e') /\
    calls t = [args_reason "SERIAL_DISCONNECTED"] /\
    state (_status (self w')) = DISCONNECTED /\
    is_connected (self w') = false /\
    In Close t /\
    _stop_event (self w') = false /\
    forall n, watchdog_while n w' = (Ok Looping, w', []).
Proof.
  intros Hp Ho Hi He Hs Hf.
  cbn [reader_while]. unfold bind at 1. unfold gets at 1. rewrite Hs.
  unfold bind at 1. unfold reader_iteration, try_. unfold bind at 1.
  unfold serial_readline. rewrite Hp, Ho, Hi.
  unfold find_handler. rewrite He.
  set (w1 := mkWorld (with_serial (Some (mkSerial true rest (write_faults p)))
                                  (self w)) now).
  destruct (handle_disconnect_run w1 (mkSerial true rest (write_faults p))
              eq_refl) as (r & t & Hrun & Hcalls & Hr).
  unfold bind at 1. unfold log at 1, emit at 1. unfold bind at 1.
  rewrite Hrun.
  change (on_error (self w1)) with (on_error (self w)) in Hcalls.
  rewrite Hf in Hcalls.
  destruct Hr as [->|(e' & ->)].
  - eexists _, _, _; split; [reflexivity|]. cbn [app]. rewrite ?app_nil_r.
    split; [left; reflexivity|]. split; [exact Hcalls|].
    split; [reflexivity|]. split; [reflexivity|].
    split; [right; right; left; reflexivity|]. split; [exact Hs|].
    intros n. apply watchdog_idle; [exact Hs | reflexivity].
  - eexists _, _, _; split; [reflexivity|]. cbn [app]. rewrite ?app_nil_r.
    split; [right; eexists; reflexivity|]. split; [exact Hcalls|].
    split; [reflexivity|]. split; [reflexivity|].
    split; [right; right; left; reflexivity|]. split; [exact Hs|].
    intros n. apply watchdog_idle; [exact Hs | reflexivity].
Qed.

Lemma reader_failure_witness :
  exists r w' t,
    reader_while json.loads 1 (session [(3, Raise link_lost)]) = (r, w', t) /\
    (r = Ok Exited \/ exists e', r = Raise e') /\
    calls t = [args_reason "SERIAL_DISCONNECTED"] /\
    state (_status (self w')) = DISCONNECTED /\
    is_connected (self w') = false /\
    In Close t /\
    _stop_event (self w') = false /\
    forall n, watchdog_while n w' = (Ok Looping, w', []).
Proof.
  apply (reader_failure json.loads (session [(3, Raise link_lost)])
           (mkSerial true [(3, Raise link_lost)] []) 3 link_lost [] 0
           (observer "on_error")); reflexivity.
Defined.

(** C3, the claim as written fails: after the read failure the reader has
    exited, the one error event was delivered, the record is marked and
    the port is closed, but there is no number of iterations after which
    the watchdog has left its loop. *)
Lemma watchdog_survives_link_loss :
  exists w' t,
    reader_while json.loads 1 (session [(3, Raise link_lost)])
      = (Ok Exited, w', t) /\
    calls t = [args_reason "SERIAL_DISCONNECTED"] /\
    state (_status (self w')) = DISCONNECTED /\
    is_connected (self w') = false /\
    ~ exists n w'' t', watchdog_while n w' = (Ok Exited, w'', t').
Proof.
  destruct (reader_while json.loads 1 (session [(3, Raise link_lost)]))
    as [[r w'] t] eqn:H.
  vm_compute in H. injection H as <- <- <-.
  eexists _, _. split; [reflexivity|]. split; [reflexivity|].
  split; [reflexivity|]. split; [reflexivity|].
  intros (n & w'' & t' & Hn).
  rewrite watchdog_idle in Hn by reflexivity. discriminate.
Qed.

(** C4, the code at two failing inputs.  First, the lines
    [{"state":"RUNNING","currentRPM":"abc"}] and [STATE:IDLE] in a fresh
    session: the first line writes the state RUNNING and then raises out
    of the parser before the change detector is reached, so the only
    event is (DISCONNECTED, IDLE), where the states of the lines call for
    (DISCONNECTED, RUNNING) and (RUNNING, IDLE).  Second, the packet of a
    run in progress in a session whose status observer raises and has no
    [__name__]: the dispatcher raises out of the parser, the state is
    RUNNING and no state-changed event is delivered. *)
Theorem lost_state_change :
  (exists w' t,
      reader_while json.loads 2
        (session [(3, Ok bad_rpm_packet); (4, Ok "STATE:IDLE")])
        = (Ok Looping, w', t) /\
      state_changes t = [(DISCONNECTED, IDLE)] /\
      expected_changes json.loads DISCONNECTED [bad_rpm_packet; "STATE:IDLE"]
        = [(DISCONNECTED, RUNNING); (RUNNING, IDLE)]) /\
  (exists w' t,
      reader_while json.loads 1
        (session_with failing_partial [(3, Ok running_packet)])
        = (Ok Looping, w', t) /\
      state (_status (self w')) = RUNNING /\
      state_changes t = [] /\
      expected_changes json.loads DISCONNECTED [running_packet]
        = [(DISCONNECTED, RUNNING)]).
Proof.
  split.
  - destruct (reader_while json.loads 2
                (session [(3, Ok bad_rpm_packet); (4, Ok "STATE:IDLE")]))
      as [[r w'] t] eqn:H.
    vm_compute in H. injection H as <- <- <-.
    eexists _, _. split; [reflexivity|]. split; reflexivity.
  - destruct (reader_while json.loads 1
                (session_with failing_partial [(3, Ok running_packet)]))
      as [[r w'] t] eqn:H.
    vm_compute in H. injection H as <- <- <-.
    eexists _, _. split; [reflexivity|]. split; [reflexivity|].
    split; reflexivity.
Qed.

(** C5.  A line that starts with a brace and that the decoder rejects as
    invalid JSON is dropped: the parser returns normally, the object (the
    status record, the port, the stop event) and the clock are exactly as
    before, so [get_status()] gives the same snapshot, no observer is
    called and the port is not closed; the only effects are two log
    records. *)
Theorem malformed_json_ignored (json_loads : string -> Result JValue)
    (w : World) (line : string) (e : exn) :
  startswith line "{" = true ->
  json_loads line = Raise e ->
  isinstance e [JSONDecodeError] = true ->
  _parse_line json_loads line w =
    (Ok tt, w,
     [Log logging.DEBUG ("Arduino → " ++ line);
      Log logging.WARNING
        ("Failed to parse status JSON '" ++ line ++ "': " ++ exn_str e)]) /\
  get_status w = (Ok (_status (self w)), w, []).
Proof.
  intros E1 Hj He. split.
  - unfold _parse_line. unfold bind at 1. unfold log at 1, emit at 1.
    rewrite E1. unfold _parse_status_json.
    unfold try_ at 1. unfold bind at 1. unfold lift at 1. rewrite Hj.
    unfold find_handler.
    replace (isinstance e [JSONDecodeError; KeyError]) with true.
    + reflexivity.
    + unfold isinstance in *. simpl in *.
      rewrite orb_false_r in He. rewrite He. reflexivity.
  - unfold get_status, with_lock, bind, gets, ret. simpl.
    destruct (_status (self w)); reflexivity.
Qed.

Lemma malformed_json_ignored_witness :
  _parse_line json.loads "{bad" (session []) =
    (Ok tt, session [],
     [Log logging.DEBUG ("Arduino → " ++ "{bad");
      Log logging.WARNING
        ("Failed to parse status JSON '" ++ "{bad" ++ "': "
         ++ "Expecting property name enclosed in double quotes")]) /\
  get_status (session []) = (Ok (_status (self (session []))), session [], []).
Proof.
  apply (malformed_json_ignored json.loads (session []) "{bad"
           (mkExn JSONDecodeError
                  "Expecting property name enclosed in double quotes"));
    reflexivity.
Defined.

(** The record after a well-typed status object, whatever the observers
    do. *)
Lemma json_object_status (json_loads : string -> Result JValue)
    (w : World) (line : string) (d : dict) :
  startswith line "{" = true ->
  json_loads line = Ok (JObject d) ->
  integers_ok d = true ->
  exists r w' t,
    _parse_line json_loads line w = (r, w', t) /\
    _status (self w') = json_status d (clock w) (_status (self w)) /\
    clock w' = clock w.
Proof.
  intros E1 Hj Hi.
  unfold _parse_line. unfold bind at 1. unfold log at 1, emit at 1.
  rewrite E1.
  pose proof (json_object_ok json_loads line d w Hj Hi) as Hrun.
  cbv zeta in Hrun. rewrite Hrun. clear Hrun.
  set (s1 := json_status d (clock w) (_status (self w))).
  set (w1 := mkWorld (with_status s1 (self w)) (clock w)).
  destruct (fire_callback_run (on_status_update (self w)) (args_status s1) w1)
    as (r & t1 & Hfire & _).
  rewrite Hfire. destruct r as [[]|e].
  - destruct (check_state_change_run w1) as (r2 & t2 & p & Hc & _).
    rewrite Hc. eexists _, _, _; split; [reflexivity|]. split; reflexivity.
  - eexists _, _, _; split; [reflexivity|]. split; reflexivity.
Qed.

Lemma int_value_rule (d : dict) (key : string) :
  defaults_to d key JInt 0 (int_value d key).
Proof.
  unfold defaults_to, int_value, dict_get. split.
  - intros ->. reflexivity.
  - intros a ->. reflexivity.
Qed.

Lemma bool_value_rule (d : dict) (key : string) :
  defaults_to d key JBool false (bool_value d key).
Proof.
  unfold defaults_to, bool_value, dict_get. split.
  - intros ->. reflexivity.
  - intros a ->. reflexivity.
Qed.

Lemma reported_state_rule (d : dict) : state_rule d (reported_state d).
Proof.
  unfold state_rule, reported_state. split; [|split].
  - intros ->. reflexivity.
  - intros v -> Hv. destruct v; try reflexivity.
    rewrite (Hv s eq_refl). reflexivity.
  - intros text s -> ->. reflexivity.
Qed.

(** The rule of the keys, for a line that decodes to an object whose
    integer keys, where present, hold values [int()] accepts: the state
    is the member named under [state], or IDLE when the key is absent or
    names no member; an integer field is 0 when its key is absent and the
    integer under it otherwise; a boolean field is false when its key is
    absent and the boolean under it otherwise.  And the packet of a run
    in progress, decoded by the model of [json.loads], leaves a snapshot
    with RUNNING, 850, 1000, lid closed, level, running and 12000 ms,
    hence 12 s, remaining. *)
Theorem json_packet_defaults :
  (forall (json_loads : string -> Result JValue) (w : World) (line : string)
          (d : dict),
      startswith line "{" = true ->
      json_loads line = Ok (JObject d) ->
      integers_ok d = true ->
      exists r w' t s,
        _parse_line json_loads line w = (r, w', t) /\
        get_status w' = (Ok s, w', []) /\
        state_rule d (state s) /\
        defaults_to d "currentRPM" JInt 0 (current_rpm s) /\
        defaults_to d "targetRPM" JInt 0 (target_rpm s) /\
        defaults_to d "pwm" JInt 0 (pwm s) /\
        defaults_to d "remainingMs" JInt 0 (remaining_ms s) /\
        defaults_to d "lidClosed" JBool false (lid_closed s) /\
        defaults_to d "level" JBool false (level s) /\
        defaults_to d "running" JBool false (running s)) /\
  (forall w : World,
      exists r w' t s,
        _parse_line json.loads running_packet w = (r, w', t) /\
        get_status w' = (Ok s, w', []) /\
        s = mkStatus RUNNING 850 1000 0 true true true 12000
                     (error_reason (_status (self w))) (clock w) /\
        remaining_sec s = 12).
Proof.
  split.
  - intros json_loads w line d E1 Hj Hi.
    destruct (json_object_status json_loads w line d E1 Hj Hi)
      as (r & w' & t & Hrun & Hs & _).
    exists r, w', t, (json_status d (clock w) (_status (self w))).
    split; [exact Hrun|]. split.
    { unfold get_status, with_lock, bind, gets, ret. simpl. rewrite Hs.
      reflexivity. }
    split; [apply reported_state_rule|].
    repeat split; first [apply int_value_rule | apply bool_value_rule].
  - intros w.
    assert (Hj : exists d,
               json.loads running_packet = Ok (JObject d) /\
               integers_ok d = true /\
               forall now old,
                 json_status d now old =
                 mkStatus RUNNING 850 1000 0 true true true 12000
                          (error_reason old) now).
    { eexists. split; [vm_compute; reflexivity|].
      split; [reflexivity|]. intros now old. reflexivity. }
    destruct Hj as (d & Hj & Hi & Hd).
    destruct (json_object_status json.loads w running_packet d eq_refl Hj Hi)
      as (r & w' & t & Hrun & Hs & _).
    exists r, w', t, (json_status d (clock w) (_status (self w))).
    split; [exact Hrun|]. split.
    { unfold get_status, with_lock, bind, gets, ret. simpl. rewrite Hs.
      reflexivity. }
    split; [apply Hd|]. rewrite Hd. reflexivity.
Qed.

Lemma json_packet_defaults_witness :
  exists r w' t s,
    _parse_line json.loads running_packet (session []) = (r, w', t) /\
    get_status w' = (Ok s, w', []) /\
    state s = RUNNING /\
    pwm s = 0 /\
    remaining_ms s = 12000.
Proof.
  destruct (proj1 json_packet_defaults json.loads (session []) running_packet
              [("state", JStr "RUNNING"); ("currentRPM", JInt 850);
               ("targetRPM", JInt 1000); ("lidClosed", JBool true);
               ("level", JBool true); ("running", JBool true);
               ("remainingMs", JInt 12000)]
              eq_refl eq_refl eq_refl)
    as (r & w' & t & s & Hrun & Hget & Hstate & _ & _ & Hpwm & Hms & _).
  exists r, w', t, s. split; [exact Hrun|]. split; [exact Hget|].
  split; [|split].
  - exact (proj2 (proj2 Hstate) "RUNNING" RUNNING eq_refl eq_refl).
  - exact (proj1 Hpwm eq_refl).
  - exact (proj2 Hms 12000 eq_refl).
Defined.

(** C6, the code at the failing input.  The line [{"currentRPM":"abc"}]
    is valid JSON and all its keys but one are absent.  Received after
    the packet of a run in progress: the absent [state] is written as
    IDLE, then [int("abc")] raises ValueError, which no clause of
    [_parse_status_json] catches, and the assignments that follow are not
    made.  The absent keys do not take their defaults: the record keeps
    the target 1000, the lid closed, level, running and 12000 ms of the
    packet before, beside the state IDLE; no observer is told, and the
    reader logs the exception and goes on. *)
Theorem absent_keys_keep_old_values :
  json.loads rpm_only_packet = Ok (JObject [("currentRPM", JStr "abc")]) /\
  (exists w1 t1 e w2 t2 s,
      _parse_line json.loads running_packet (session []) = (Ok tt, w1, t1) /\
      _parse_line json.loads rpm_only_packet w1 = (Raise e, w2, t2) /\
      exn_class e = ValueError /\
      calls t2 = [] /\
      get_status w2 = (Ok s, w2, []) /\
      state s = IDLE /\
      current_rpm s = 850 /\
      target_rpm s = 1000 /\
      lid_closed s = true /\
      level s = true /\
      running s = true /\
      remaining_ms s = 12000) /\
  (exists w' t,
      reader_while json.loads 2
        (session [(3, Ok running_packet); (4, Ok rpm_only_packet)])
        = (Ok Looping, w', t) /\
      get_status w' =
        (Ok (mkStatus IDLE 850 1000 0 true true true 12000 "" 3), w', [])).
Proof.
  split; [vm_compute; reflexivity|]. split.
  - destruct (_parse_line json.loads running_packet (session []))
      as [[r1 w1] t1] eqn:H1.
    vm_compute in H1. injection H1 as <- <- <-.
    eexists _, _, _, _, _, _. split; [reflexivity|].
    match goal with
    | |- _parse_line json.loads rpm_only_packet ?w0 = _ /\ _ =>
        let x := eval vm_compute in
                   (_parse_line json.loads rpm_only_packet w0) in
        change (_parse_line json.loads rpm_only_packet w0) with x
    end.
    split; [reflexivity|]. repeat split.
  - destruct (reader_while json.loads 2
                (session [(3, Ok running_packet); (4, Ok rpm_only_packet)]))
      as [[r w'] t] eqn:H.
    vm_compute in H. injection H as <- <- <-.
    eexists _, _. split; reflexivity.
Qed.

(** C7.  For every command string, [_send] on a controller that is not
    connected (no port object, or a closed one) returns False without
    raising, changes nothing, and its only effect is one log record:
    nothing is written to the port.  The same holds for the public
    commands, which all go through [_send] or make the same test. *)
Theorem send_while_disconnected (w : World) (command : string) :
  is_connected (self w) = false ->
  _send command w =
    (Ok false, w,
     [Log logging.WARNING
        ("Cannot send '" ++ strip command ++ "': not connected.")]) /\
  (forall rpm duration_sec,
      exists t, start rpm duration_sec w = (Ok false, w, t) /\
                forall data, ~ In (Write data) t) /\
  (forall m, In m [stop; emergency_stop; clear_error; request_status; ping] ->
             exists t, m w = (Ok false, w, t) /\
                       forall data, ~ In (Write data) t).
Proof.
  intros H.
  assert (Hsend : forall c, _send c w =
    (Ok false, w,
     [Log logging.WARNING
        ("Cannot send '" ++ strip c ++ "': not connected.")])).
  { intros c. unfold _send, bind, gets. rewrite H. reflexivity. }
  split; [apply Hsend|]. split.
  - intros rpm duration_sec. unfold start, bind, gets. rewrite H. simpl.
    eexists; split; [reflexivity|].
    intros data [Hin|[]]; discriminate.
  - intros m Hm. simpl in Hm.
    destruct Hm as [<-|[<-|[<-|[<-|[<-|[]]]]]];
      unfold stop, emergency_stop, clear_error, request_status, ping;
      try (unfold bind at 1; unfold log, emit); rewrite ?Hsend;
      (eexists; split; [reflexivity|]);
      cbn [app]; intros data Hin;
      repeat (destruct Hin as [Hin|Hin]; [discriminate|]); destruct Hin.
Qed.

Lemma send_while_disconnected_witness :
  _send ("STOP" ++ newline) unconnected =
    (Ok false, unconnected,
     [Log logging.WARNING
        ("Cannot send '" ++ strip ("STOP" ++ newline) ++ "': not connected.")]).
Proof.
  apply (proj1 (send_while_disconnected unconnected ("STOP" ++ newline)
                  eq_refl)).
Defined.

(** C8.  [disconnect()] is idempotent: the first call returns normally and
    leaves the state DISCONNECTED and the link closed; a second call in a
    row returns normally as well, leaves the object exactly as the first
    call left it, and does not call [close()] on the closed port. *)
Theorem disconnect_twice (w : World) :
  exists w1 t1 t2,
    disconnect w = (Ok tt, w1, t1) /\
    state (_status (self w1)) = DISCONNECTED /\
    is_connected (self w1) = false /\
    disconnect w1 = (Ok tt, w1, t2) /\
    ~ In Close t2.
Proof.
  destruct (disconnect_run w)
    as (w1 & t1 & H1 & Hst & Hs & Hc & Hr & Hw & _).
  assert (Hd : state (_status (self w1)) = DISCONNECTED)
    by (rewrite Hst; reflexivity).
  exists w1, t1,
    [Log logging.INFO "Disconnecting..."; Log logging.INFO "Disconnected."].
  split; [exact H1|]. split; [exact Hd|]. split; [exact Hc|].
  split; [apply disconnect_settled; assumption|].
  intros [H|[H|[]]]; discriminate H.
Qed.

(** C9, the code at the failing input.  An observer without [__name__]
    that raises: the handler of the dispatcher builds its log message
    from [cb.__name__], which raises AttributeError, and that exception
    leaves [_fire_callback].  In the reader it crosses the parser of the
    line: for the packet of a run in progress the status observer is
    called, the state-changed event of the same line is not delivered,
    and the remembered state stays behind the record. *)
Theorem nameless_observer_escapes :
  (forall (w : World) (args : CallArgs),
      _fire_callback (Some failing_partial) args w =
        (Raise (mkExn AttributeError "object has no attribute '__name__'"),
         w, [Call args (_status (self w))])) /\
  (exists w' t snapshot,
      _parse_line json.loads running_packet (session_with failing_partial [])
        = (Raise (mkExn AttributeError "object has no attribute '__name__'"),
           w', t) /\
      calls t = [args_status snapshot] /\
      state (_status (self w')) = RUNNING /\
      _previous_state (self w') = DISCONNECTED).
Proof.
  split.
  - intros w args. reflexivity.
  - destruct (_parse_line json.loads running_packet
                (session_with failing_partial [])) as [[r w'] t] eqn:H.
    vm_compute in H. injection H as <- <- <-.
    eexists _, _, _. split; [reflexivity|]. split; [reflexivity|].
    split; reflexivity.
Qed.

(** C10.  While one JSON status line is processed, with a status
    observer registered: when the line is processed to its end (it
    decodes to an object whose integer keys convert) the status-updated
    call is made, with the record the line wrote, and it is the first
    call; the state-changed call, if any, is the only other call and
    comes after it, and it is made when the state differs from the
    remembered one, a change observer is registered and the status
    observer cannot make the dispatcher raise; when the line is not
    processed to its end no observer is called at all.  While one
    [ERROR:] line is processed, with an error observer registered: the
    error call, carrying the reason of the line, is always made and is
    the first call; the state-changed call, if any, is the only other
    call and comes after it.  So in both cases every state-changed call
    has the other call before it and none after it. *)
Theorem update_before_change (json_loads : string -> Result JValue)
    (w : World) (line : string) (f : Callback) :
  (startswith line "{" = true ->
   on_status_update (self w) = Some f ->
   delivered_before is_status_call is_states_call
     (calls (snd (_parse_line json_loads line w))) /\
   (forall d,
       json_loads line = Ok (JObject d) ->
       integers_ok d = true ->
       exists rest,
         calls (snd (_parse_line json_loads line w))
         = args_status (json_status d (clock w) (_status (self w))) :: rest /\
         (rest = [] \/ rest = [change_call w (reported_state d)]) /\
         (contained (Some f) ->
          on_state_change (self w) <> None ->
          reported_state d <> _previous_state (self w) ->
          rest = [change_call w (reported_state d)])) /\
   ((forall d, json_loads line = Ok (JObject d) -> integers_ok d = false) ->
    calls (snd (_parse_line json_loads line w)) = [])) /\
  (startswith line "{" = false ->
   startswith line "ERROR:" = true ->
   on_error (self w) = Some f ->
   delivered_before (is_reason_call (slice_from 6 line)) is_states_call
     (calls (snd (_parse_line json_loads line w))) /\
   exists rest,
     calls (snd (_parse_line json_loads line w))
     = args_reason (slice_from 6 line) :: rest /\
     (rest = [] \/ rest = [change_call w ERROR]) /\
     (contained (Some f) ->
      on_state_change (self w) <> None ->
      _previous_state (self w) <> ERROR ->
      rest = [change_call w ERROR])).
Proof.
  split.
  - intros E1 Hsu. split; [|split].
    + intros pre x post Hl Hx.
      destruct (json_calls_shape json_loads line w f E1 Hsu)
        as [H|[(snap & H)|(snap & old & new & H)]];
        cbv zeta in H; rewrite H in Hl; clear H.
      * destruct pre; discriminate.
      * destruct pre as [|a [|b pre]]; try discriminate.
        injection Hl as <- _. discriminate.
      * destruct pre as [|a [|b [|c pre]]]; try discriminate.
        -- injection Hl as <- _. discriminate.
        -- injection Hl as <- _ <-. split; reflexivity.
    + intros d Hj Hi. exact (json_line_calls json_loads line w f d E1 Hsu Hj Hi).
    + intros Hbad. exact (json_line_silent json_loads line w E1 Hbad).
  - intros E1 E2 Her. split.
    + intros pre x post Hl Hx.
      destruct (error_calls_shape json_loads line w f E1 E2 Her)
        as [H|(old & new & H)]; cbv zeta in H; rewrite H in Hl; clear H.
      * destruct pre as [|a [|b pre]]; try discriminate.
        injection Hl as <- _. discriminate.
      * destruct pre as [|a [|b [|c pre]]]; try discriminate.
        -- injection Hl as <- _. discriminate.
        -- injection Hl as <- _ <-. simpl. rewrite String.eqb_refl.
           split; reflexivity.
    + exact (error_line_calls json_loads line w f E1 E2 Her).
Qed.

Lemma update_before_change_witness :
  calls (snd (_parse_line json.loads running_packet (session [])))
  = [args_status
       (json_status
          [("state", JStr "RUNNING"); ("currentRPM", JInt 850);
           ("targetRPM", JInt 1000); ("lidClosed", JBool true);
           ("level", JBool true); ("running", JBool true);
           ("remainingMs", JInt 12000)]
          (clock (session [])) (_status (self (session []))));
     change_call (session []) RUNNING] /\
  calls (snd (_parse_line json.loads "ERROR:LID_OPEN" (session [])))
  = [args_reason "LID_OPEN"; change_call (session []) ERROR].
Proof.
  split.
  - destruct (proj1 (update_before_change json.loads (session [])
                       running_packet (observer "on_status"))
                eq_refl eq_refl) as (_ & Hmade & _).
    destruct (Hmade
                [("state", JStr "RUNNING"); ("currentRPM", JInt 850);
                 ("targetRPM", JInt 1000); ("lidClosed", JBool true);
                 ("level", JBool true); ("running", JBool true);
                 ("remainingMs", JInt 12000)] eq_refl eq_refl)
      as (rest & Hcalls & _ & Hchange).
    rewrite Hcalls, Hchange; [reflexivity | left | | ]; discriminate.
  - destruct (proj2 (update_before_change json.loads (session [])
                       "ERROR:LID_OPEN" (observer "on_error"))
                eq_refl eq_refl eq_refl) as (_ & rest & Hcalls & _ & Hchange).
    rewrite Hcalls, Hchange; [reflexivity | left | | ]; discriminate.
Defined.

(** * Further properties: opening the link *)

Section ConnectionFacts.

Variable lower : string -> string.
Variable comports : list ListPortInfo.
Variable Serial_new : option string -> Z -> Result Serial.

(** X1.  Port discovery leaves its object alone and never invents a
    port: it finds nothing exactly when the system enumerates no port,
    and a port it finds is one of [list_ports()]. *)
Theorem auto_detect_finds_listed_port (w : World) :
  exists found t,
    _auto_detect_port lower comports w = (Ok found, w, t) /\
    (found = None <-> comports = []) /\
    (forall name, found = Some name -> In name (list_ports comports)).
Proof.
  unfold _auto_detect_port, list_ports.
  destruct (find (port_matches lower) comports) as [p|] eqn:Hf.
  - apply find_some in Hf. destruct Hf as [Hin _].
    eexists _, _. split; [reflexivity|]. split.
    + split; [discriminate|]. intros ->. destruct Hin.
    + intros name H. injection H as <-. apply in_map. exact Hin.
  - destruct comports as [|first rest].
    + eexists _, _. split; [reflexivity|]. split; [tauto|]. discriminate.
    + eexists _, _. split; [reflexivity|]. split.
      * split; discriminate.
      * intros name H. injection H as <-. left; reflexivity.
Qed.

(** X2.  The first port, in the order of enumeration, that carries a
    keyword is the one discovered, whatever comes after it. *)
Theorem auto_detect_first_match (w : World) (before after : list ListPortInfo)
    (p : ListPortInfo) :
  comports = (before ++ p :: after)%list ->
  (forall q, In q before -> port_matches lower q = false) ->
  port_matches lower p = true ->
  exists t, _auto_detect_port lower comports w = (Ok (Some (device p)), w, t).
Proof.
  intros -> Hbefore Hp. unfold _auto_detect_port.
  assert (Hf : find (port_matches lower) (before ++ p :: after) = Some p).
  { induction before as [|q before IH]; simpl.
    - rewrite Hp. reflexivity.
    - rewrite (Hbefore q (or_introl eq_refl)). apply IH.
      intros q' Hq'. apply Hbefore. right; exact Hq'. }
  rewrite Hf. eexists. reflexivity.
Qed.

(** X3.  When no port carries a keyword, discovery falls back to the
    first port enumerated and says so in a warning. *)
Theorem auto_detect_fallback (w : World) (first : ListPortInfo)
    (rest : list ListPortInfo) :
  comports = first :: rest ->
  (forall q, In q comports -> port_matches lower q = false) ->
  _auto_detect_port lower comports w =
    (Ok (Some (device first)), w,
     [Log logging.WARNING
        ("No Arduino-specific port found. Falling back to " ++ device first)]).
Proof.
  intros Hc Hnone. unfold _auto_detect_port.
  destruct (find (port_matches lower) comports) as [p|] eqn:Hf.
  - apply find_some in Hf. destruct Hf as [Hin Hp].
    rewrite (Hnone p Hin) in Hp. discriminate.
  - rewrite Hc. reflexivity.
Qed.

End ConnectionFacts.

Lemma auto_detect_first_match_witness :
  exists t,
    _auto_detect_port ascii_lower [bluetooth_port; clone_port] unconnected
      = (Ok (Some "/dev/ttyUSB0"), unconnected, t).
Proof.
  apply (auto_detect_first_match ascii_lower [bluetooth_port; clone_port]
           unconnected [bluetooth_port] [] clone_port).
  - reflexivity.
  - intros q [<-|[]]. reflexivity.
  - reflexivity.
Defined.

Lemma auto_detect_fallback_witness :
  _auto_detect_port ascii_lower [bluetooth_port] unconnected =
    (Ok (Some "/dev/ttyS0"), unconnected,
     [Log logging.WARNING
        ("No Arduino-specific port found. Falling back to " ++ "/dev/ttyS0")]).
Proof.
  apply (auto_detect_fallback ascii_lower [bluetooth_port] unconnected
           bluetooth_port []).
  - reflexivity.
  - intros q [<-|[]]. reflexivity.
Defined.

Section ConnectFacts.

Variable lower : string -> string.
Variable comports : list ListPortInfo.
Variable Serial_new : option string -> Z -> Result Serial.

(** X4.  [connect()], whatever it returns, keeps the status record, the
    remembered state and the observers, and does not write to the port or
    close it: a controller that has just connected still shows the record
    it had, the state DISCONNECTED when it is fresh, until a line
    arrives. *)
Theorem connect_frame (w : World) :
  exists r w' t,
    connect lower comports Serial_new w = (r, w', t) /\
    _status (self w') = _status (self w) /\
    _previous_state (self w') = _previous_state (self w) /\
    on_status_update (self w') = on_status_update (self w) /\
    on_state_change (self w') = on_state_change (self w) /\
    on_error (self w') = on_error (self w) /\
    on_complete (self w') = on_complete (self w) /\
    clock w' = clock w /\
    port_untouched t.
Proof.
  assert (Hopen : forall w0 : World,
    exists r w' t,
      try_ (
        name <- gets port ;;
        rate <- gets baud ;;
        s <- lift (Serial_new name rate) ;;
        modify (with_serial (Some s)) ;;
        reset_input_buffer ;;
        modify (with_stop_event false) ;;
        _start_threads ;;
        log logging.INFO
          ("Connected to Arduino on " ++ str_of_option name ++ " at "
           ++ str_of_int rate ++ " baud.") ;;
        ret true)
      [([SerialException], fun e =>
          name <- gets port ;;
          log logging.ERROR
            ("Failed to connect to " ++ str_of_option name ++ ": "
             ++ exn_str e) ;;
          ret false)] w0 = (r, w', t) /\
      _status (self w') = _status (self w0) /\
      _previous_state (self w') = _previous_state (self w0) /\
      on_status_update (self w') = on_status_update (self w0) /\
      on_state_change (self w') = on_state_change (self w0) /\
      on_error (self w') = on_error (self w0) /\
      on_complete (self w') = on_complete (self w0) /\
      clock w' = clock w0 /\
      port_untouched t).
  { intros w0. unfold try_, bind at 1, gets at 1. unfold bind at 1, gets at 1.
    unfold bind at 1, lift at 1.
    destruct (Serial_new (port (self w0)) (baud (self w0))) as [s|e] eqn:Hs.
    - unfold bind at 1, modify at 1. unfold bind at 1, reset_input_buffer.
      cbn [self _serial with_serial].
      destruct (is_open s) eqn:Ho.
      + cbn. eexists _, _, _. split; [reflexivity|].
        repeat split. intros e [<-|[]]. exact I.
      + unfold find_handler. cbn [isinstance port_not_open exn_class existsb
                                  issubclass ExnClass_eqb orb].
        cbn. eexists _, _, _. split; [reflexivity|].
        repeat split. intros e [<-|[]]. exact I.
    - unfold find_handler. destruct (isinstance e [SerialException]).
      + cbn. eexists _, _, _. split; [reflexivity|].
        repeat split. intros e0 [<-|[]]. exact I.
      + eexists _, _, _. split; [reflexivity|].
        repeat split. intros e0 []. }
  unfold connect. unfold bind at 1, gets at 1. unfold bind at 1, gets at 1.
  destruct (port (self w)) as [name|] eqn:Hp.
  - unfold bind at 1, ret at 1. cbn [negb].
    destruct (Hopen w) as (r & w' & t & Hrun & H).
    rewrite Hrun. eexists _, _, _. split; [reflexivity|]. exact H.
  - destruct (auto_detect (self w)) eqn:Ha.
    + unfold bind at 1. unfold bind at 1, _auto_detect_port.
      destruct (find (port_matches lower) comports) as [p|].
      * cbn -[try_ String.append].
        match goal with
        | |- context [try_ ?b ?h ?w0] =>
            destruct (Hopen w0) as (r & w' & t & Hrun & H)
        end.
        rewrite Hrun. eexists _, _, _. split; [reflexivity|].
        cbn [self with_port _status _previous_state on_status_update
             on_state_change on_error on_complete clock] in H.
        destruct H as (H1 & H2 & H3 & H4 & H5 & H6 & H7 & H8).
        repeat split; auto.
        intros e [<-|Hin]; [exact I|]. apply H8. exact Hin.
      * destruct comports as [|first rest].
        -- cbn. eexists _, _, _. split; [reflexivity|].
           repeat split. intros e [<-|[]]. exact I.
        -- cbn -[try_ String.append].
           match goal with
           | |- context [try_ ?b ?h ?w0] =>
               destruct (Hopen w0) as (r & w' & t & Hrun & H)
           end.
           rewrite Hrun. eexists _, _, _. split; [reflexivity|].
           cbn [self with_port _status _previous_state on_status_update
                on_state_change on_error on_complete clock] in H.
           destruct H as (H1 & H2 & H3 & H4 & H5 & H6 & H7 & H8).
           repeat split; auto.
           intros e [<-|Hin]; [exact I|]. apply H8. exact Hin.
    + unfold bind at 1, ret at 1. cbn [negb].
      destruct (Hopen w) as (r & w' & t & Hrun & H).
      rewrite Hrun. eexists _, _, _. split; [reflexivity|]. exact H.
Qed.

(** X5.  With no port configured, discovery on and no port enumerated,
    [connect()] returns False, leaves the object as it was and only logs
    an error: the constructor of the port is not called. *)
Theorem connect_nothing_found (w : World) :
  port (self w) = None ->
  auto_detect (self w) = true ->
  comports = [] ->
  connect lower comports Serial_new w =
    (Ok false, w, [Log logging.ERROR "Could not auto-detect Arduino port."]).
Proof.
  intros Hp Ha Hc. destruct w as [c k]. destruct c. simpl in Hp, Ha. subst.
  reflexivity.
Qed.

(** X6.  When the port cannot be opened (the constructor raises a
    SerialException), [connect()] returns False without raising and keeps
    the port object, the stop event and the observers it had: an earlier
    link, if any, stays as it was. *)
Theorem connect_open_failure (w : World) :
  (forall name rate, exists e,
      Serial_new name rate = Raise e /\
      isinstance e [SerialException] = true) ->
  exists w' t,
    connect lower comports Serial_new w = (Ok false, w', t) /\
    same_wiring (self w) (self w').
Proof.
  intros Hnew.
  assert (Hopen : forall w0 : World,
    exists t,
      try_ (
        name <- gets port ;;
        rate <- gets baud ;;
        s <- lift (Serial_new name rate) ;;
        modify (with_serial (Some s)) ;;
        reset_input_buffer ;;
        modify (with_stop_event false) ;;
        _start_threads ;;
        log logging.INFO
          ("Connected to Arduino on " ++ str_of_option name ++ " at "
           ++ str_of_int rate ++ " baud.") ;;
        ret true)
      [([SerialException], fun e =>
          name <- gets port ;;
          log logging.ERROR
            ("Failed to connect to " ++ str_of_option name ++ ": "
             ++ exn_str e) ;;
          ret false)] w0 = (Ok false, w0, t)).
  { intros w0. unfold try_, bind at 1, gets at 1. unfold bind at 1, gets at 1.
    unfold bind at 1, lift at 1.
    destruct (Hnew (port (self w0)) (baud (self w0))) as (e & -> & He).
    unfold find_handler. rewrite He. cbn. eexists. reflexivity. }
  unfold connect. unfold bind at 1, gets at 1. unfold bind at 1, gets at 1.
  destruct (port (self w)) as [name|] eqn:Hp.
  - unfold bind at 1, ret at 1. cbn [negb].
    destruct (Hopen w) as (t & Hrun). rewrite Hrun.
    eexists _, _. split; [reflexivity|]. repeat split.
  - destruct (auto_detect (self w)) eqn:Ha.
    + unfold bind at 1. unfold bind at 1, _auto_detect_port.
      destruct (find (port_matches lower) comports) as [p|].
      * cbn -[try_ String.append].
        match goal with
        | |- context [try_ ?b ?h ?w0] => destruct (Hopen w0) as (t & Hrun)
        end.
        rewrite Hrun. eexists _, _. split; [reflexivity|]. repeat split.
      * destruct comports as [|first rest].
        -- cbn. eexists _, _. split; [reflexivity|]. repeat split.
        -- cbn -[try_ String.append].
           match goal with
           | |- context [try_ ?b ?h ?w0] => destruct (Hopen w0) as (t & Hrun)
           end.
           rewrite Hrun. eexists _, _. split; [reflexivity|]. repeat split.
    + unfold bind at 1, ret at 1. cbn [negb].
      destruct (Hopen w) as (t & Hrun). rewrite Hrun.
      eexists _, _. split; [reflexivity|]. repeat split.
Qed.

(** X7.  With a port configured that opens, [connect()] returns True,
    installs the new port object, clears the stop event, also one set by
    an earlier [disconnect()], and stores two started threads, the reader
    and the watchdog, in place of the thread objects it held; nothing
    else of the object changes, and the only effect of the calling thread
    is a log record. *)
Theorem connect_success (w : World) (name : string) (s : Serial) :
  port (self w) = Some name ->
  Serial_new (Some name) (baud (self w)) = Ok s ->
  is_open s = true ->
  exists w',
    connect lower comports Serial_new w =
      (Ok true, w',
       [Log logging.INFO
          ("Connected to Arduino on " ++ name ++ " at "
           ++ str_of_int (baud (self w)) ++ " baud.")]) /\
    self w' = started (with_stop_event false (with_serial (Some s) (self w)))
    /\
    is_connected (self w') = true /\
    _stop_event (self w') = false /\
    reader_alive (self w') = true /\
    watchdog_alive (self w') = true /\
    _status (self w') = _status (self w).
Proof.
  intros Hp Hs Ho.
  unfold connect. unfold bind at 1, gets at 1. unfold bind at 1, gets at 1.
  rewrite Hp. unfold bind at 1, ret at 1. cbn [negb].
  unfold try_, bind at 1, gets at 1. unfold bind at 1, gets at 1.
  unfold bind at 1, lift at 1. rewrite Hp, Hs.
  unfold bind at 1, modify at 1. unfold bind at 1, reset_input_buffer.
  cbn [self _serial with_serial]. rewrite Ho. cbn.
  eexists. split; [reflexivity|]. cbn. rewrite Ho. repeat split.
Qed.

(** The port stored by discovery. *)
Lemma connect_stores_discovery (w : World) :
  port (self w) = None ->
  auto_detect (self w) = true ->
  comports <> [] ->
  exists r w' t name,
    connect lower comports Serial_new w = (r, w', t) /\
    port (self w') = Some name /\
    In name (list_ports comports).
Proof.
  intros Hp Ha Hc.
  assert (Hkeep : forall (w0 : World) name,
    port (self w0) = Some name ->
    exists r w' t,
      try_ (
        name <- gets port ;;
        rate <- gets baud ;;
        s <- lift (Serial_new name rate) ;;
        modify (with_serial (Some s)) ;;
        reset_input_buffer ;;
        modify (with_stop_event false) ;;
        _start_threads ;;
        log logging.INFO
          ("Connected to Arduino on " ++ str_of_option name ++ " at "
           ++ str_of_int rate ++ " baud.") ;;
        ret true)
      [([SerialException], fun e =>
          name <- gets port ;;
          log logging.ERROR
            ("Failed to connect to " ++ str_of_option name ++ ": "
             ++ exn_str e) ;;
          ret false)] w0 = (r, w', t) /\
      port (self w') = Some name).
  { intros w0 name Hn.
    unfold try_, bind at 1, gets at 1. unfold bind at 1, gets at 1.
    unfold bind at 1, lift at 1.
    destruct (Serial_new (port (self w0)) (baud (self w0))) as [s|e] eqn:Hs.
    - unfold bind at 1, modify at 1. unfold bind at 1, reset_input_buffer.
      cbn [self _serial with_serial].
      destruct (is_open s) eqn:Ho.
      + cbn. eexists _, _, _. split; [reflexivity|]. exact Hn.
      + unfold find_handler. cbn [isinstance port_not_open exn_class existsb
                                  issubclass ExnClass_eqb orb].
        cbn. eexists _, _, _. split; [reflexivity|]. exact Hn.
    - unfold find_handler. destruct (isinstance e [SerialException]).
      + cbn. eexists _, _, _. split; [reflexivity|]. exact Hn.
      + eexists _, _, _. split; [reflexivity|]. exact Hn. }
  unfold connect. unfold bind at 1, gets at 1. unfold bind at 1, gets at 1.
  rewrite Hp, Ha.
  unfold bind at 1. unfold bind at 1, _auto_detect_port, list_ports.
  destruct (find (port_matches lower) comports) as [p|] eqn:Hf.
  - apply find_some in Hf. destruct Hf as [Hin _].
    cbn -[try_ String.append].
    match goal with
    | |- context [try_ ?b ?h ?w0] =>
        destruct (Hkeep w0 (device p) eq_refl) as (r & w' & t & Hrun & Hn)
    end.
    rewrite Hrun. eexists _, _, _, _. split; [reflexivity|].
    split; [exact Hn|]. apply in_map; exact Hin.
  - destruct comports as [|first rest]; [congruence|].
    cbn -[try_ String.append].
    match goal with
    | |- context [try_ ?b ?h ?w0] =>
        destruct (Hkeep w0 (device first) eq_refl) as (r & w' & t & Hrun & Hn)
    end.
    rewrite Hrun. eexists _, _, _, _. split; [reflexivity|].
    split; [exact Hn|]. left; reflexivity.
Qed.

(** X8.  With no port configured and discovery on, [connect()] stores the
    port it discovered in the object, whether or not the port then opens;
    the port stored is one of [list_ports()], and later calls of
    [connect()] use it without looking at the enumeration again. *)
Theorem connect_remembers_port (w : World) :
  port (self w) = None ->
  auto_detect (self w) = true ->
  comports <> [] ->
  exists r w' t name,
    connect lower comports Serial_new w = (r, w', t) /\
    port (self w') = Some name /\
    In name (list_ports comports) /\
    forall others,
      connect lower others Serial_new w' = connect lower comports Serial_new w'.
Proof.
  intros Hp Ha Hc.
  destruct (connect_stores_discovery w Hp Ha Hc)
    as (r & w' & t & name & Hrun & Hn & Hin).
  exists r, w', t, name. split; [exact Hrun|]. split; [exact Hn|].
  split; [exact Hin|].
  intros others. unfold connect.
  unfold bind at 1, gets at 1. unfold bind at 1, gets at 1.
  symmetry.
  unfold bind at 1, gets at 1. unfold bind at 1, gets at 1.
  rewrite Hn. reflexivity.
Qed.

End ConnectFacts.

Lemma connect_nothing_found_witness :
  connect ascii_lower [] opens_all unconnected =
    (Ok false, unconnected,
     [Log logging.ERROR "Could not auto-detect Arduino port."]).
Proof.
  apply (connect_nothing_found ascii_lower [] opens_all unconnected);
    reflexivity.
Defined.

Lemma connect_open_failure_witness :
  exists w' t,
    connect ascii_lower [clone_port] opens_none (session []) = (Ok false, w', t)
    /\ same_wiring (self (session [])) (self w').
Proof.
  apply (connect_open_failure ascii_lower [clone_port] opens_none (session [])).
  intros name rate. eexists. split; reflexivity.
Defined.

Lemma connect_success_witness :
  exists w',
    connect ascii_lower [] opens_all (session []) =
      (Ok true, w',
       [Log logging.INFO
          ("Connected to Arduino on " ++ "/dev/ttyUSB0" ++ " at "
           ++ str_of_int 115200 ++ " baud.")]) /\
    self w' =
      started
        (with_stop_event false
           (with_serial (Some (mkSerial true [] [])) (self (session [])))) /\
    is_connected (self w') = true /\
    _stop_event (self w') = false /\
    reader_alive (self w') = true /\
    watchdog_alive (self w') = true /\
    _status (self w') = _status (self (session [])).
Proof.
  apply (connect_success ascii_lower [] opens_all (session []) "/dev/ttyUSB0"
           (mkSerial true [] [])); reflexivity.
Defined.

Lemma connect_remembers_port_witness :
  exists r w' t name,
    connect ascii_lower [bluetooth_port; clone_port] opens_none unconnected
      = (r, w', t) /\
    port (self w') = Some name /\
    In name (list_ports [bluetooth_port; clone_port]) /\
    forall others,
      connect ascii_lower others opens_none w' =
      connect ascii_lower [bluetooth_port; clone_port] opens_none w'.
Proof.
  apply (connect_remembers_port ascii_lower [bluetooth_port; clone_port]
           opens_none unconnected); [reflexivity | reflexivity | discriminate].
Defined.

(** * Further properties: the write path and the loops *)

Lemma writes_app t1 t2 : writes (t1 ++ t2) = (writes t1 ++ writes t2)%list.
Proof. apply flat_map_app. Qed.

(** The handler of a lost link with an error observer that cannot make
    the dispatcher raise. *)
Lemma handle_disconnect_ok w p :
  _serial (self w) = Some p ->
  contained (on_error (self w)) ->
  exists t,
    _handle_disconnect w =
      (Ok tt,
       mkWorld (with_serial
                  (Some (mkSerial false (incoming p) (write_faults p)))
                  (with_status (set_state DISCONNECTED (_status (self w)))
                               (self w)))
               (clock w),
       Log logging.ERROR "Serial connection lost." :: Close :: t) /\
    calls t = registered (on_error (self w)) (args_reason "SERIAL_DISCONNECTED")
    /\ writes t = [] /\ ~ In Close t.
Proof.
  intros Hp Hc.
  set (w1 := mkWorld (with_serial
                  (Some (mkSerial false (incoming p) (write_faults p)))
                  (with_status (set_state DISCONNECTED (_status (self w)))
                               (self w)))
               (clock w)).
  assert (Hfire : exists t,
    _fire_callback (on_error (self w1)) (args_reason "SERIAL_DISCONNECTED") w1
      = (Ok tt, w1, t) /\
    calls t = registered (on_error (self w1))
                (args_reason "SERIAL_DISCONNECTED") /\
    writes t = [] /\ ~ In Close t).
  { change (on_error (self w1)) with (on_error (self w)).
    destruct (on_error (self w)) as [f|]; simpl.
    - unfold _fire_callback, try_, call.
      destruct (body f (args_reason "SERIAL_DISCONNECTED") (_status (self w1)))
        as [e|] eqn:Hb.
      + simpl in Hc. destruct Hc as [Hn|Hn];
          [|rewrite Hn in Hb; discriminate].
        simpl. unfold get___name__, bind.
        destruct (__name__ f) as [name|]; [|congruence]. simpl.
        eexists. split; [reflexivity|]. split; [reflexivity|].
        split; [reflexivity|]. intros [H|[H|[]]]; discriminate.
      + eexists. split; [reflexivity|]. split; [reflexivity|].
        split; [reflexivity|]. intros [H|[]]; discriminate.
    - eexists. split; [reflexivity|]. split; [reflexivity|].
      split; [reflexivity|]. intros []. }
  destruct Hfire as (t & Hfire & Hcalls & Hw & Hcl).
  exists t. split; [|split; [exact Hcalls|split; [exact Hw|exact Hcl]]].
  unfold _handle_disconnect. run. rewrite Hp.
  unfold try_, serial_close. run. rewrite Hp.
  change (mkWorld _ (clock w)) with w1. rewrite Hfire. reflexivity.
Qed.

(** The write path when the write succeeds. *)
Lemma send_ok_run (w : World) (p : Serial) (command : string) :
  _serial (self w) = Some p ->
  is_open p = true ->
  next_write_ok p = true ->
  exists w',
    _send command w = (Ok true, w', [Write command]) /\
    is_connected (self w') = true /\
    _status (self w') = _status (self w) /\
    _stop_event (self w') = _stop_event (self w).
Proof.
  intros Hp Ho Hn. unfold _send. unfold bind at 1, gets at 1.
  unfold is_connected at 1. rewrite Hp, Ho. cbn [negb].
  unfold try_, with_lock, bind, serial_write, ret. rewrite Hp, Ho.
  unfold next_write_ok in Hn.
  destruct (write_faults p) as [|[e|] rest]; [|discriminate|].
  - eexists. split; [reflexivity|]. unfold is_connected. rewrite Hp.
    repeat split. exact Ho.
  - eexists. split; [reflexivity|]. repeat split.
Qed.

(** X9.  On an open port whose next write succeeds, [_send] returns True
    and writes the command, byte for byte and nothing else; the status
    record and the stop event are as before and the port stays open. *)
Theorem send_writes_command (w : World) (p : Serial) (command : string) :
  _serial (self w) = Some p ->
  is_open p = true ->
  next_write_ok p = true ->
  exists w',
    _send command w = (Ok true, w', [Write command]) /\
    is_connected (self w') = true /\
    _status (self w') = _status (self w) /\
    _stop_event (self w') = _stop_event (self w).
Proof. exact (send_ok_run w p command). Qed.

Lemma send_writes_command_witness :
  exists w',
    _send ("STATUS" ++ newline) (session []) =
      (Ok true, w', [Write ("STATUS" ++ newline)]) /\
    is_connected (self w') = true /\
    _status (self w') = _status (self (session [])) /\
    _stop_event (self w') = _stop_event (self (session [])).
Proof.
  apply (send_writes_command (session []) (mkSerial true [] [])
           ("STATUS" ++ newline)); reflexivity.
Defined.

(** The write path when the write fails. *)
Lemma send_failure_run (w : World) (p : Serial) (e : exn)
    (rest : list (option exn)) (command : string) (f : Callback) :
  _serial (self w) = Some p ->
  is_open p = true ->
  write_faults p = Some e :: rest ->
  isinstance e [SerialException] = true ->
  on_error (self w) = Some f ->
  contained (on_error (self w)) ->
  exists t,
    _send command w =
      (Ok false,
       mkWorld (with_serial (Some (mkSerial false (incoming p) rest))
                  (with_status (set_state DISCONNECTED (_status (self w)))
                               (self w)))
               (clock w),
       t) /\
    writes t = [] /\
    calls t = [args_reason "SERIAL_DISCONNECTED"] /\
    In Close t.
Proof.
  intros Hp Ho Hf He Hcb Hc.
  unfold _send. unfold bind at 1, gets at 1.
  unfold is_connected at 1. rewrite Hp, Ho. cbn [negb].
  unfold try_, with_lock. unfold bind at 1. unfold serial_write.
  rewrite Hp, Ho, Hf. unfold find_handler. rewrite He.
  set (w1 := mkWorld (with_serial (Some (mkSerial true (incoming p) rest))
                                  (self w)) (clock w)).
  destruct (handle_disconnect_ok w1 (mkSerial true (incoming p) rest) eq_refl)
    as (t & Hrun & Hcalls & Hw & Hcl).
  { exact Hc. }
  unfold bind at 1, log at 1, emit at 1. unfold bind at 1. rewrite Hrun.
  change (on_error (self w1)) with (on_error (self w)) in Hcalls.
  rewrite Hcb in Hcalls.
  eexists. split; [reflexivity|]. cbn [app]. rewrite ?app_nil_r.
  split; [exact Hw|]. split; [exact Hcalls|].
  right; right; left; reflexivity.
Qed.

(** X10.  On an open port whose next write fails with a SerialException,
    with an error observer that cannot make the dispatcher raise,
    [_send] returns False without raising and without writing; the path
    of the lost link runs once: the port is closed, the record is marked
    DISCONNECTED, the error observer is told SERIAL_DISCONNECTED.  Every
    later [_send] returns False, writes nothing and tells nobody. *)
Theorem send_failure_disconnects (w : World) (p : Serial) (e : exn)
    (rest : list (option exn)) (command : string) (f : Callback) :
  _serial (self w) = Some p ->
  is_open p = true ->
  write_faults p = Some e :: rest ->
  isinstance e [SerialException] = true ->
  on_error (self w) = Some f ->
  contained (on_error (self w)) ->
  exists w' t,
    _send command w = (Ok false, w', t) /\
    writes t = [] /\
    calls t = [args_reason "SERIAL_DISCONNECTED"] /\
    In Close t /\
    state (_status (self w')) = DISCONNECTED /\
    is_connected (self w') = false /\
    forall later, exists t',
      _send later w' = (Ok false, w', t') /\ writes t' = [] /\ calls t' = [].
Proof.
  intros Hp Ho Hf He Hcb Hc.
  destruct (send_failure_run w p e rest command f Hp Ho Hf He Hcb Hc)
    as (t & Hrun & Hw & Hcalls & Hcl).
  eexists _, t. split; [exact Hrun|]. split; [exact Hw|].
  split; [exact Hcalls|]. split; [exact Hcl|].
  split; [reflexivity|]. split; [reflexivity|].
  intros later. eexists. split; [reflexivity|]. split; reflexivity.
Qed.

(** A port whose next write fails. *)
Lemma send_failure_disconnects_witness :
  exists w' t,
    _send ("STOP" ++ newline)
      (mkWorld (with_serial (Some (mkSerial true [] [Some link_lost]))
                            (self (session []))) 2)
      = (Ok false, w', t) /\
    writes t = [] /\
    calls t = [args_reason "SERIAL_DISCONNECTED"] /\
    In Close t /\
    state (_status (self w')) = DISCONNECTED /\
    is_connected (self w') = false /\
    forall later, exists t',
      _send later w' = (Ok false, w', t') /\ writes t' = [] /\ calls t' = [].
Proof.
  apply (send_failure_disconnects
           (mkWorld (with_serial (Some (mkSerial true [] [Some link_lost]))
                                 (self (session []))) 2)
           (mkSerial true [] [Some link_lost]) link_lost []
           ("STOP" ++ newline) (observer "on_error"));
    try reflexivity.
  left; discriminate.
Defined.

Lemma append_assoc_str (a b c : string) : (a ++ b) ++ c = a ++ (b ++ c).
Proof.
  induction a as [|x a IH]; [reflexivity|].
  change ((String x a ++ b) ++ c) with (String x ((a ++ b) ++ c)).
  rewrite IH. reflexivity.
Qed.

Lemma one_line_app a b : one_line a -> one_line b -> one_line (a ++ b).
Proof.
  unfold one_line. intros Ha Hb c Hin.
  induction a as [|x a IH]; simpl in Hin.
  - apply Hb; exact Hin.
  - destruct Hin as [<-|Hin].
    + apply Ha. left; reflexivity.
    + apply IH; [|exact Hin]. intros c' Hc'. apply Ha. right; exact Hc'.
Qed.

Lemma one_line_uint (d : Decimal.uint) :
  one_line (NilEmpty.string_of_uint d).
Proof.
  unfold one_line.
  induction d; simpl; intros c Hin;
    try (destruct Hin as [<-|Hin]; [discriminate | apply IHd; exact Hin]).
  destruct Hin.
Qed.

Lemma one_line_int (z : Z) : one_line (str_of_int z).
Proof.
  unfold str_of_int, NilZero.string_of_int, NilZero.string_of_uint.
  destruct (Z.to_int z) as [d|d].
  - destruct d; try apply one_line_uint.
    intros c [<-|[]]; discriminate.
  - apply (one_line_app "-").
    + intros c [<-|[]]; discriminate.
    + destruct d; try apply one_line_uint.
      intros c [<-|[]]; discriminate.
Qed.

(** X11.  Framing of the commands.  On an open port whose next write
    succeeds, each public command returns True and writes exactly once:
    one line, that is a text without line terminator followed by one line
    terminator.  This holds for [start] with any two integers. *)
Theorem commands_write_one_line (w : World) (p : Serial) :
  _serial (self w) = Some p ->
  is_open p = true ->
  next_write_ok p = true ->
  (forall rpm duration_sec,
      exists w' t body,
        start rpm duration_sec w = (Ok true, w', t) /\
        writes t = [body ++ newline] /\ one_line body) /\
  (forall m, In m plain_commands ->
      exists w' t body,
        m w = (Ok true, w', t) /\
        writes t = [body ++ newline] /\ one_line body).
Proof.
  intros Hp Ho Hn.
  assert (Hsend : forall c,
    exists w', _send c w = (Ok true, w', [Write c])).
  { intros c. destruct (send_ok_run w p c Hp Ho Hn) as (w' & H & _).
    exists w'. exact H. }
  assert (Hlit : forall s,
    forallb (fun c => negb (Ascii.eqb c "010")) (list_ascii_of_string s) = true
    -> one_line s).
  { intros s Hs c Hin Hc. rewrite forallb_forall in Hs.
    specialize (Hs c Hin). subst c. discriminate. }
  split.
  - intros rpm duration_sec. unfold start. unfold bind at 1, gets at 1.
    unfold is_connected. rewrite Hp, Ho. cbn [negb].
    unfold bind at 1, log at 1, emit at 1.
    destruct (Hsend ("START:" ++ str_of_int rpm ++ ":"
                     ++ str_of_int (duration_sec * 1000) ++ newline))
      as (w' & Hrun).
    rewrite Hrun.
    eexists w', _, ("START:" ++ str_of_int rpm ++ ":"
                    ++ str_of_int (duration_sec * 1000)).
    split; [reflexivity|]. split.
    + cbn [app writes flat_map]. rewrite !append_assoc_str. reflexivity.
    + apply one_line_app; [apply Hlit; reflexivity|].
      apply one_line_app; [apply one_line_int|].
      apply one_line_app; [apply Hlit; reflexivity|apply one_line_int].
  - intros m Hm. simpl in Hm.
    destruct Hm as [<-|[<-|[<-|[<-|[<-|[]]]]]];
      unfold stop, emergency_stop, clear_error, request_status, ping;
      try (unfold bind at 1, log at 1, emit at 1);
      match goal with
      | |- context [_send (?b ++ newline) w] =>
          destruct (Hsend (b ++ newline)) as (w' & Hrun); rewrite Hrun;
          eexists w', _, b
      end;
      (split; [reflexivity|]); (split; [reflexivity|]);
      apply Hlit; reflexivity.
Qed.

Lemma commands_write_one_line_witness :
  exists w' t body,
    start 1000 30 (session []) = (Ok true, w', t) /\
    writes t = [body ++ newline] /\ one_line body.
Proof.
  apply (proj1 (commands_write_one_line (session []) (mkSerial true [] [])
                  eq_refl eq_refl eq_refl) 1000 30).
Defined.

(** X12.  Cancellation.  [disconnect()] sets the stop event, and with the
    stop event set each loop leaves at its next test of it: the reader
    without reading, the watchdog without sending, neither calling an
    observer. *)
Theorem disconnect_stops_loops (json_loads : string -> Result JValue)
    (w : World) (n : nat) :
  exists w1 t,
    disconnect w = (Ok tt, w1, t) /\
    _stop_event (self w1) = true /\
    reader_while json_loads (S n) w1 = (Ok Exited, w1, []) /\
    watchdog_while (S n) w1 = (Ok Exited, w1, []).
Proof.
  destruct (disconnect_run w) as (w1 & t & H1 & _ & Hs & _).
  exists w1, t. split; [exact H1|]. split; [exact Hs|].
  cbn [reader_while watchdog_while]. unfold bind, gets. rewrite Hs.
  split; reflexivity.
Qed.

(** X13.  While the port is open, its writes succeed and the stop event
    is clear, every iteration of the watchdog sends one PING line and
    nothing else, and the watchdog stays in its loop. *)
Theorem watchdog_pings (w : World) (p : Serial) (n : nat) :
  _serial (self w) = Some p ->
  is_open p = true ->
  write_faults p = [] ->
  _stop_event (self w) = false ->
  watchdog_while n w =
    (Ok Looping, w, repeat (Write ("PING" ++ newline)) n).
Proof.
  intros Hp Ho Hf Hs. induction n as [|n IH]; [reflexivity|].
  cbn [watchdog_while repeat]. unfold bind at 1, gets at 1. rewrite Hs.
  unfold bind at 1, gets at 1. unfold bind at 1, gets at 1. rewrite Hs.
  unfold is_connected at 1. rewrite Hp, Ho. cbn [andb negb].
  unfold bind at 1.
  assert (Hping : ping w = (Ok true, w, [Write ("PING" ++ newline)])).
  { unfold ping, _send. unfold bind at 1, gets at 1.
    unfold is_connected. rewrite Hp, Ho. cbn [negb].
    unfold try_, with_lock, bind, serial_write, ret. rewrite Hp, Ho, Hf.
    reflexivity. }
  unfold bind at 1. rewrite Hping. unfold ret at 1. rewrite IH.
  reflexivity.
Qed.

Lemma watchdog_pings_witness :
  watchdog_while 3 (session []) =
    (Ok Looping, session [], repeat (Write ("PING" ++ newline)) 3).
Proof.
  apply (watchdog_pings (session []) (mkSerial true [] []) 3); reflexivity.
Defined.

(** X14.  When a PING of the watchdog fails with a SerialException, with
    an error observer that cannot make the dispatcher raise, the path of
    the lost link runs once (port closed, record marked, one error event)
    and the watchdog stays in its loop, sending nothing more, however
    many iterations follow. *)
Theorem watchdog_write_failure (w : World) (p : Serial) (e : exn)
    (rest : list (option exn)) (f : Callback) (n : nat) :
  _serial (self w) = Some p ->
  is_open p = true ->
  write_faults p = Some e :: rest ->
  isinstance e [SerialException] = true ->
  on_error (self w) = Some f ->
  contained (on_error (self w)) ->
  _stop_event (self w) = false ->
  exists w' t,
    watchdog_while (S n) w = (Ok Looping, w', t) /\
    writes t = [] /\
    calls t = [args_reason "SERIAL_DISCONNECTED"] /\
    In Close t /\
    state (_status (self w')) = DISCONNECTED /\
    is_connected (self w') = false.
Proof.
  intros Hp Ho Hf He Hcb Hc Hs.
  destruct (send_failure_run w p e rest ("PING" ++ newline) f Hp Ho Hf He Hcb Hc)
    as (t & Hrun & Hw & Hcalls & Hcl).
  cbn [watchdog_while]. unfold bind at 1, gets at 1. rewrite Hs.
  unfold bind at 1, gets at 1. unfold bind at 1, gets at 1. rewrite Hs.
  unfold is_connected at 1. rewrite Hp, Ho. cbn [andb negb].
  unfold bind at 1. unfold bind at 1. unfold ping. rewrite Hrun.
  unfold ret at 1. rewrite watchdog_idle by (try exact Hs; reflexivity).
  eexists _, _. split; [reflexivity|]. cbn [app]. rewrite ?app_nil_r.
  split; [exact Hw|]. split; [exact Hcalls|]. split; [exact Hcl|].
  split; reflexivity.
Qed.

Lemma watchdog_write_failure_witness :
  exists w' t,
    watchdog_while 5
      (mkWorld (with_serial (Some (mkSerial true [] [Some link_lost]))
                            (self (session []))) 2)
      = (Ok Looping, w', t) /\
    writes t = [] /\
    calls t = [args_reason "SERIAL_DISCONNECTED"] /\
    In Close t /\
    state (_status (self w')) = DISCONNECTED /\
    is_connected (self w') = false.
Proof.
  apply (watchdog_write_failure
           (mkWorld (with_serial (Some (mkSerial true [] [Some link_lost]))
                                 (self (session []))) 2)
           (mkSerial true [] [Some link_lost]) link_lost []
           (observer "on_error") 4);
    try reflexivity.
  left; discriminate.
Defined.

(** X15.  A read that times out, or that brings only blanks, is no
    error: the iteration of the reader ends normally with no effect and
    the object as it was, but for the script of the port and the clock. *)
Theorem reader_skips_blank (json_loads : string -> Result JValue)
    (w : World) (p : Serial) :
  _serial (self w) = Some p ->
  is_open p = true ->
  (incoming p = [] ->
   reader_iteration json_loads w = (Ok Continue, w, [])) /\
  (forall now raw rest,
      incoming p = (now, Ok raw) :: rest ->
      strip raw = "" ->
      reader_iteration json_loads w =
        (Ok Continue,
         mkWorld (with_serial (Some (mkSerial true rest (write_faults p)))
                              (self w)) now,
         [])).
Proof.
  intros Hp Ho. split.
  - intros Hi. unfold reader_iteration, try_. unfold bind at 1.
    unfold serial_readline. rewrite Hp, Ho, Hi. reflexivity.
  - intros now raw rest Hi Hb.
    unfold reader_iteration, try_. unfold bind at 1.
    unfold serial_readline. rewrite Hp, Ho, Hi.
    destruct (String.eqb raw "") eqn:E; [reflexivity|].
    rewrite Hb. reflexivity.
Qed.

Lemma reader_skips_blank_witness :
  reader_iteration json.loads (session [(3, Ok "   ")]) =
    (Ok Continue,
     mkWorld (with_serial (Some (mkSerial true [] []))
                          (self (session [(3, Ok "   ")]))) 3,
     []).
Proof.
  apply (proj2 (reader_skips_blank json.loads (session [(3, Ok "   ")])
                  (mkSerial true [(3, Ok "   ")] []) eq_refl eq_refl)
           3 "   " []); reflexivity.
Defined.

(** X16.  A read that raises an exception other than a SerialException
    does not end the session: the reader logs a warning and goes on; the
    port stays open and the status record is untouched. *)
Theorem reader_survives_other_errors (json_loads : string -> Result JValue)
    (w : World) (p : Serial) (now : Time) (e : exn)
    (rest : list (Time * Result string)) :
  _serial (self w) = Some p ->
  is_open p = true ->
  incoming p = (now, Raise e) :: rest ->
  isinstance e [SerialException] = false ->
  exists w',
    reader_iteration json_loads w =
      (Ok Continue, w',
       [Log logging.WARNING ("Unexpected error in reader: " ++ exn_str e)]) /\
    is_connected (self w') = true /\
    _status (self w') = _status (self w) /\
    _stop_event (self w') = _stop_event (self w).
Proof.
  intros Hp Ho Hi He.
  unfold reader_iteration, try_. unfold bind at 1.
  unfold serial_readline. rewrite Hp, Ho, Hi.
  unfold find_handler. rewrite He.
  replace (isinstance e [Exception]) with true by reflexivity.
  eexists. split; [reflexivity|]. repeat split.
Qed.

Lemma reader_survives_other_errors_witness :
  exists w',
    reader_iteration json.loads
      (session [(3, Raise (mkExn TypeError "an integer is required"))]) =
      (Ok Continue, w',
       [Log logging.WARNING
          ("Unexpected error in reader: " ++ "an integer is required")]) /\
    is_connected (self w') = true /\
    _status (self w') =
      _status (self (session
                 [(3, Raise (mkExn TypeError "an integer is required"))])) /\
    _stop_event (self w') =
      _stop_event (self (session
                 [(3, Raise (mkExn TypeError "an integer is required"))])).
Proof.
  apply (reader_survives_other_errors json.loads
           (session [(3, Raise (mkExn TypeError "an integer is required"))])
           (mkSerial true
              [(3, Raise (mkExn TypeError "an integer is required"))] [])
           3 (mkExn TypeError "an integer is required") []);
    reflexivity.
Defined.

(** * Further properties: what the parser touches *)

Lemma same_wiring_refl c : same_wiring c c.
Proof. repeat split. Qed.

Lemma same_wiring_trans a b c :
  same_wiring a b -> same_wiring b c -> same_wiring a c.
Proof.
  intros (A1 & A2 & A3 & A4 & A5 & A6) (B1 & B2 & B3 & B4 & B5 & B6).
  repeat split; congruence.
Qed.

Lemma port_untouched_app t1 t2 :
  port_untouched t1 -> port_untouched t2 -> port_untouched (t1 ++ t2).
Proof.
  intros H1 H2 e Hin. apply in_app_or in Hin.
  destruct Hin; [apply H1|apply H2]; assumption.
Qed.

Lemma quiet_ret {A} (a : A) : quiet (ret a).
Proof.
  intros w r w' t H. injection H as <- <- <-.
  split; [apply same_wiring_refl|]. split; [reflexivity|]. intros e0 [].
Qed.

Lemma quiet_lift {A} (x : Result A) : quiet (lift x).
Proof.
  intros w r w' t H. injection H as <- <- <-.
  split; [apply same_wiring_refl|]. split; [reflexivity|]. intros e0 [].
Qed.

Lemma quiet_gets {A} (f : SerialController -> A) : quiet (gets f).
Proof.
  intros w r w' t H. injection H as <- <- <-.
  split; [apply same_wiring_refl|]. split; [reflexivity|]. intros e0 [].
Qed.

Lemma quiet_time : quiet time_time.
Proof.
  intros w r w' t H. injection H as <- <- <-.
  split; [apply same_wiring_refl|]. split; [reflexivity|]. intros e0 [].
Qed.

Lemma quiet_log lvl msg : quiet (log lvl msg).
Proof.
  intros w r w' t H. injection H as <- <- <-.
  split; [apply same_wiring_refl|]. split; [reflexivity|].
  intros e0 [<-|[]]. exact I.
Qed.

Lemma quiet_assign f : quiet (assign f).
Proof.
  intros w r w' t H. injection H as <- <- <-.
  split; [repeat split|]. split; [reflexivity|]. intros e0 [].
Qed.

Lemma quiet_remember s : quiet (modify (with_previous_state s)).
Proof.
  intros w r w' t H. injection H as <- <- <-.
  split; [repeat split|]. split; [reflexivity|]. intros e0 [].
Qed.

Lemma quiet_call cb args : quiet (call cb args).
Proof.
  intros w r w' t H. unfold call in H.
  destruct (body cb args (_status (self w))); injection H as <- <- <-;
    (split; [apply same_wiring_refl|]); (split; [reflexivity|]);
    intros e0 [<-|[]]; exact I.
Qed.

Lemma quiet_bind {A B} (m : M A) (k : A -> M B) :
  quiet m -> (forall a, quiet (k a)) -> quiet (bind m k).
Proof.
  intros Hm Hk w r w' t H. unfold bind in H.
  destruct (m w) as [[r1 w1] t1] eqn:E1.
  destruct (Hm _ _ _ _ E1) as (W1 & C1 & P1).
  destruct r1 as [a|e].
  - destruct (k a w1) as [[r2 w2] t2] eqn:E2.
    destruct (Hk a _ _ _ _ E2) as (W2 & C2 & P2).
    injection H as <- <- <-.
    split; [eapply same_wiring_trans; eassumption|].
    split; [congruence|]. apply port_untouched_app; assumption.
  - injection H as <- <- <-. auto.
Qed.

Lemma quiet_try {A} (m : M A) handlers :
  quiet m ->
  (forall classes h e, In (classes, h) handlers -> quiet (h e)) ->
  quiet (try_ m handlers).
Proof.
  intros Hm Hh w r w' t H. unfold try_ in H.
  destruct (m w) as [[r1 w1] t1] eqn:E1.
  destruct (Hm _ _ _ _ E1) as (W1 & C1 & P1).
  destruct r1 as [a|e]; [injection H as <- <- <-; auto|].
  destruct (find_handler e handlers) as [h|] eqn:Ef.
  - destruct (find_handler_in _ _ _ Ef) as (cls & Hin).
    destruct (h e w1) as [[r2 w2] t2] eqn:E2.
    destruct (Hh cls h e Hin _ _ _ _ E2) as (W2 & C2 & P2).
    injection H as <- <- <-.
    split; [eapply same_wiring_trans; eassumption|].
    split; [congruence|]. apply port_untouched_app; assumption.
  - injection H as <- <- <-. auto.
Qed.

Lemma keeps_ret {A B} (f : ArduinoStatus -> B) (a : A) : keeps f (ret a).
Proof. intros w r w' t H. injection H as <- <- <-. reflexivity. Qed.

Lemma keeps_lift {A B} (f : ArduinoStatus -> B) (x : Result A) :
  keeps f (lift x).
Proof. intros w r w' t H. injection H as <- <- <-. reflexivity. Qed.

Lemma keeps_gets {A B} (f : ArduinoStatus -> B) (g : SerialController -> A) :
  keeps f (gets g).
Proof. intros w r w' t H. injection H as <- <- <-. reflexivity. Qed.

Lemma keeps_time {B} (f : ArduinoStatus -> B) : keeps f time_time.
Proof. intros w r w' t H. injection H as <- <- <-. reflexivity. Qed.

Lemma keeps_log {B} (f : ArduinoStatus -> B) lvl msg : keeps f (log lvl msg).
Proof. intros w r w' t H. injection H as <- <- <-. reflexivity. Qed.

Lemma keeps_assign {B} (f : ArduinoStatus -> B) g :
  (forall s, f (g s) = f s) -> keeps f (assign g).
Proof. intros Hg w r w' t H. injection H as <- <- <-. apply Hg. Qed.

Lemma keeps_remember {B} (f : ArduinoStatus -> B) s :
  keeps f (modify (with_previous_state s)).
Proof. intros w r w' t H. injection H as <- <- <-. reflexivity. Qed.

Lemma keeps_call {B} (f : ArduinoStatus -> B) cb args :
  keeps f (call cb args).
Proof.
  intros w r w' t H. unfold call in H.
  destruct (body cb args (_status (self w))); injection H as <- <- <-;
    reflexivity.
Qed.

Lemma keeps_bind {A B C} (f : ArduinoStatus -> C) (m : M A) (k : A -> M B) :
  keeps f m -> (forall a, keeps f (k a)) -> keeps f (bind m k).
Proof.
  intros Hm Hk w r w' t H. unfold bind in H.
  destruct (m w) as [[r1 w1] t1] eqn:E1.
  pose proof (Hm _ _ _ _ E1) as K1.
  destruct r1 as [a|e].
  - destruct (k a w1) as [[r2 w2] t2] eqn:E2.
    pose proof (Hk a _ _ _ _ E2) as K2.
    injection H as <- <- <-. congruence.
  - injection H as <- <- <-. exact K1.
Qed.

Lemma keeps_try {A C} (f : ArduinoStatus -> C) (m : M A) handlers :
  keeps f m ->
  (forall classes h e, In (classes, h) handlers -> keeps f (h e)) ->
  keeps f (try_ m handlers).
Proof.
  intros Hm Hh w r w' t H. unfold try_ in H.
  destruct (m w) as [[r1 w1] t1] eqn:E1.
  pose proof (Hm _ _ _ _ E1) as K1.
  destruct r1 as [a|e]; [injection H as <- <- <-; exact K1|].
  destruct (find_handler e handlers) as [h|] eqn:Ef.
  - destruct (find_handler_in _ _ _ Ef) as (cls & Hin).
    destruct (h e w1) as [[r2 w2] t2] eqn:E2.
    pose proof (Hh cls h e Hin _ _ _ _ E2) as K2.
    injection H as <- <- <-. congruence.
  - injection H as <- <- <-. exact K1.
Qed.

(** One step of a proof that a method is quiet, or keeps a field: the
    rule of the outermost construct. *)
Ltac handlers_cases :=
  let H := fresh "H" in
  intros ? ? ? H; simpl in H;
  repeat (destruct H as [H|H]; [injection H as <- <-|]);
  try destruct H.

Ltac quiet_step :=
  first
    [ apply quiet_ret | apply quiet_lift | apply quiet_gets | apply quiet_time
    | apply quiet_log | apply quiet_assign | apply quiet_remember
    | apply quiet_call
    | apply quiet_bind; [|intros ?]
    | apply quiet_try; [|handlers_cases] ].

Ltac keeps_step :=
  first
    [ apply keeps_ret | apply keeps_lift | apply keeps_gets | apply keeps_time
    | apply keeps_log | apply keeps_remember | apply keeps_call
    | apply keeps_assign; intros []; reflexivity
    | apply keeps_bind; [|intros ?]
    | apply keeps_try; [|handlers_cases] ].

Lemma quiet_fire_callback cb args : quiet (_fire_callback cb args).
Proof.
  unfold _fire_callback. destruct cb as [f|]; [|apply quiet_ret].
  repeat quiet_step.
  unfold get___name__. destruct (__name__ f); [apply quiet_ret|].
  intros w r w' t H. injection H as <- <- <-.
  split; [apply same_wiring_refl|]. split; [reflexivity|]. intros e0 [].
Qed.

Lemma keeps_fire_callback {B} (f : ArduinoStatus -> B) cb args :
  keeps f (_fire_callback cb args).
Proof.
  unfold _fire_callback. destruct cb as [g|]; [|apply keeps_ret].
  repeat keeps_step.
  unfold get___name__. destruct (__name__ g); [apply keeps_ret|].
  intros w r w' t H. injection H as <- <- <-. reflexivity.
Qed.

Lemma quiet_check_state_change : quiet _check_state_change.
Proof.
  unfold _check_state_change, with_lock.
  apply quiet_bind; [apply quiet_gets|intros current].
  apply quiet_bind; [apply quiet_gets|intros previous].
  destruct (negb (SystemState_eqb current previous)); [|apply quiet_ret].
  apply quiet_bind; [apply quiet_log|intros _].
  apply quiet_bind; [apply quiet_gets|intros cb].
  apply quiet_bind; [apply quiet_fire_callback|intros _].
  apply quiet_remember.
Qed.

Lemma keeps_check_state_change {B} (f : ArduinoStatus -> B) :
  keeps f _check_state_change.
Proof.
  unfold _check_state_change, with_lock.
  apply keeps_bind; [apply keeps_gets|intros current].
  apply keeps_bind; [apply keeps_gets|intros previous].
  destruct (negb (SystemState_eqb current previous)); [|apply keeps_ret].
  apply keeps_bind; [apply keeps_log|intros _].
  apply keeps_bind; [apply keeps_gets|intros cb].
  apply keeps_bind; [apply keeps_fire_callback|intros _].
  apply keeps_remember.
Qed.

Lemma startswith_app (prefix rest : string) :
  startswith (prefix ++ rest) prefix = true.
Proof.
  unfold startswith. induction prefix as [|c p IH]; simpl.
  - destruct rest; reflexivity.
  - destruct (ascii_dec c c) as [_|N]; [exact IH|destruct N; reflexivity].
Qed.

Section ParserFrame.

Variable json_loads : string -> Result JValue.

Lemma quiet_parse_status_json line :
  quiet (_parse_status_json json_loads line).
Proof.
  unfold _parse_status_json, with_lock, get_status, with_lock.
  repeat first [ apply quiet_fire_callback | apply quiet_check_state_change
               | quiet_step ].
Qed.

Lemma keeps_reason_parse_status_json line :
  keeps error_reason (_parse_status_json json_loads line).
Proof.
  unfold _parse_status_json, with_lock, get_status, with_lock.
  repeat first [ apply keeps_fire_callback | apply keeps_check_state_change
               | keeps_step ].
Qed.

(** X17.  Processing a line, whatever the line, the decoder and the
    observers do, never writes to the port and never closes it, and
    leaves the observers, the port object, the stop event and the clock
    as they were: a line can only change the status record and the
    remembered state. *)
Theorem parse_line_is_quiet (line : string) (w : World) :
  exists r w' t,
    _parse_line json_loads line w = (r, w', t) /\
    same_wiring (self w) (self w') /\
    clock w' = clock w /\
    port_untouched t.
Proof.
  assert (Hq : quiet (_parse_line json_loads line)).
  { unfold _parse_line, with_lock.
    apply quiet_bind; [apply quiet_log|intros _].
    destruct (startswith line "{"); [apply quiet_parse_status_json|].
    destruct (startswith line "ERROR:").
    { repeat first [ apply quiet_fire_callback | apply quiet_check_state_change
                   | quiet_step ]. }
    destruct (startswith line "STATE:").
    { repeat first [ apply quiet_fire_callback | apply quiet_check_state_change
                   | quiet_step ]. }
    destruct (startswith line "STATUS:COMPLETE").
    { repeat first [ apply quiet_fire_callback | quiet_step ]. }
    destruct (startswith line "WARNING:"); [apply quiet_log|].
    destruct (String.eqb line "PONG"); [apply quiet_log|].
    destruct (startswith line "ACK:"); [apply quiet_log|].
    destruct (startswith line "Centrifuge Control"
              || String.eqb line "System Ready"); apply quiet_log. }
  destruct (_parse_line json_loads line w) as [[r w'] t] eqn:E.
  exists r, w', t. split; [reflexivity|]. exact (Hq _ _ _ _ E).
Qed.

(** X18.  The reason of an error stays in the record until the next
    [ERROR:] line replaces it: a line that is a JSON packet, or that is
    not an [ERROR:] line, leaves [error_reason] as it was, whatever else
    it does.  A healthy status packet after an error still carries the
    old reason. *)
Theorem error_reason_is_sticky (line : string) (w : World) :
  startswith line "{" = true \/ startswith line "ERROR:" = false ->
  error_reason (_status (self (snd (fst (_parse_line json_loads line w)))))
  = error_reason (_status (self w)).
Proof.
  intros Hkind.
  destruct (_parse_line json_loads line w) as [[r w'] t] eqn:E. cbn [fst snd].
  assert (Hk : keeps error_reason (_parse_line json_loads line)).
  { unfold _parse_line, with_lock.
    apply keeps_bind; [apply keeps_log|intros _].
    destruct (startswith line "{"); [apply keeps_reason_parse_status_json|].
    destruct (startswith line "ERROR:");
      [destruct Hkind; discriminate|].
    destruct (startswith line "STATE:").
    { repeat first [ apply keeps_fire_callback
                   | apply keeps_check_state_change | keeps_step ]. }
    destruct (startswith line "STATUS:COMPLETE").
    { repeat first [ apply keeps_fire_callback | keeps_step ]. }
    destruct (startswith line "WARNING:"); [apply keeps_log|].
    destruct (String.eqb line "PONG"); [apply keeps_log|].
    destruct (startswith line "ACK:"); [apply keeps_log|].
    destruct (startswith line "Centrifuge Control"
              || String.eqb line "System Ready"); apply keeps_log. }
  exact (Hk _ _ _ _ E).
Qed.

(** X19.  Only a JSON packet can refresh [last_updated]: every other
    line, also an [ERROR:] or [STATE:] line that changes the state,
    leaves the time stamp of the record as it was. *)
Theorem last_updated_only_by_packets (line : string) (w : World) :
  startswith line "{" = false ->
  last_updated (_status (self (snd (fst (_parse_line json_loads line w)))))
  = last_updated (_status (self w)).
Proof.
  intros Hkind.
  destruct (_parse_line json_loads line w) as [[r w'] t] eqn:E. cbn [fst snd].
  assert (Hk : keeps last_updated (_parse_line json_loads line)).
  { unfold _parse_line, with_lock.
    apply keeps_bind; [apply keeps_log|intros _].
    rewrite Hkind.
    destruct (startswith line "ERROR:").
    { repeat first [ apply keeps_fire_callback
                   | apply keeps_check_state_change | keeps_step ]. }
    destruct (startswith line "STATE:").
    { repeat first [ apply keeps_fire_callback
                   | apply keeps_check_state_change | keeps_step ]. }
    destruct (startswith line "STATUS:COMPLETE").
    { repeat first [ apply keeps_fire_callback | keeps_step ]. }
    destruct (startswith line "WARNING:"); [apply keeps_log|].
    destruct (String.eqb line "PONG"); [apply keeps_log|].
    destruct (startswith line "ACK:"); [apply keeps_log|].
    destruct (startswith line "Centrifuge Control"
              || String.eqb line "System Ready"); apply keeps_log. }
  exact (Hk _ _ _ _ E).
Qed.

(** The record after an [ERROR:] line, and what the observers saw. *)
Lemma error_line_run line w :
  startswith line "{" = false ->
  startswith line "ERROR:" = true ->
  exists r w' t,
    _parse_line json_loads line w = (r, w', t) /\
    _status (self w')
    = set_error_reason (slice_from 6 line) (set_state ERROR (_status (self w)))
    /\ seen_is (_status (self w')) t.
Proof.
  intros E1 E2.
  unfold _parse_line. unfold bind at 1. unfold log at 1, emit at 1.
  rewrite E1, E2.
  set (s1 := set_error_reason (slice_from 6 line)
               (set_state ERROR (_status (self w)))).
  set (w1 := mkWorld (with_status s1 (self w)) (clock w)).
  destruct (fire_callback_run (on_error (self w))
              (args_reason (slice_from 6 line)) w1)
    as (r & t1 & Hfire & _ & Hseen1 & _).
  run. change (mkWorld _ (clock w)) with w1. rewrite Hfire.
  destruct r as [[]|e].
  - destruct (check_state_change_run w1) as (r2 & t2 & p & Hc & Hseen2 & _).
    rewrite Hc. cbn [app].
    eexists _, _, _. split; [reflexivity|]. split; [reflexivity|].
    intros a s' [H|[H|H]]; [discriminate H|discriminate H|].
    apply in_app_or in H. destruct H as [H|H].
    + exact (Hseen1 _ _ H).
    + exact (Hseen2 _ _ H).
  - cbn [app].
    eexists _, _, _. split; [reflexivity|]. split; [reflexivity|].
    intros a s' [H|[H|H]]; [discriminate H|discriminate H|].
    exact (Hseen1 _ _ H).
Qed.

(** X20.  An [ERROR:] line, whatever its reason and whatever the
    observers do: the record ends with state ERROR and the text after the
    prefix as its reason, every other field as before, and every observer
    the line calls (the error observer, then the change observer) is
    called after the record was written and sees exactly that record. *)
Theorem error_line_effect (reason : string) (w : World) :
  exists r w' t,
    _parse_line json_loads ("ERROR:" ++ reason) w = (r, w', t) /\
    _status (self w')
    = set_error_reason reason (set_state ERROR (_status (self w))) /\
    seen_is (_status (self w')) t.
Proof.
  exact (error_line_run ("ERROR:" ++ reason) w eq_refl
           (startswith_app "ERROR:" reason)).
Qed.

(** X21.  A [STATE:] line.  A name that is no member of SystemState
    changes nothing at all and is only logged (unlike a JSON packet,
    where an unknown state is read as IDLE).  A member name becomes the
    state of the record, every other field stays, and the change observer
    is called with (remembered, new) exactly when the new state differs
    from the remembered one. *)
Theorem state_line_effect (name : string) (w : World) :
  match SystemState_of_string name with
  | None =>
      _parse_line json_loads ("STATE:" ++ name) w
      = (Ok tt, w,
         [Log logging.DEBUG ("Arduino → " ++ ("STATE:" ++ name));
          Log logging.WARNING ("Unknown state: " ++ name)])
  | Some s =>
      exists r w' t,
        _parse_line json_loads ("STATE:" ++ name) w = (r, w', t) /\
        _status (self w') = set_state s (_status (self w)) /\
        calls t =
          if SystemState_eqb s (_previous_state (self w)) then []
          else registered (on_state_change (self w))
                 (args_states (_previous_state (self w)) s)
  end.
Proof.
  unfold _parse_line. unfold bind at 1. unfold log at 1, emit at 1.
  change (startswith ("STATE:" ++ name) "{") with false.
  change (startswith ("STATE:" ++ name) "ERROR:") with false.
  rewrite (startswith_app "STATE:" name).
  change (slice_from 6 ("STATE:" ++ name)) with name.
  cbv beta iota.
  unfold try_, SystemState_call.
  destruct (SystemState_of_string name) as [s|] eqn:Hs.
  - set (w1 := mkWorld (with_status (set_state s (_status (self w))) (self w))
                 (clock w)).
    destruct (check_state_change_run w1) as (r2 & t2 & p & Hc & _ & Hcase).
    run. change (mkWorld _ (clock w)) with w1. rewrite Hc.
    change (state (_status (self w1))) with s in Hcase.
    change (_previous_state (self w1)) with (_previous_state (self w)) in Hcase.
    change (on_state_change (self w1)) with (on_state_change (self w)) in Hcase.
    destruct r2 as [[]|e].
    + eexists _, _, _. split; [reflexivity|]. split; [reflexivity|].
      cbn [app].
      change (calls (Log ?a ?b :: t2)) with (calls t2).
      destruct (SystemState_eqb s (_previous_state (self w)));
        destruct Hcase as (-> & _); reflexivity.
    + assert (Hcls : exn_class e = AttributeError /\
                     calls t2 = registered (on_state_change (self w))
                       (args_states (_previous_state (self w)) s) /\
                     SystemState_eqb s (_previous_state (self w)) = false).
      { destruct (SystemState_eqb s (_previous_state (self w))).
        - destruct Hcase as (_ & Hr & _). discriminate Hr.
        - destruct Hcase as (Hcalls & [(Hr & _)|(e' & Hr & Hcl & _)]).
          + discriminate Hr.
          + injection Hr as ->. auto. }
      destruct Hcls as (Hcl & Hcalls & Heq).
      unfold find_handler, isinstance, issubclass. rewrite Hcl. cbn.
      eexists _, _, _. split; [reflexivity|]. split; [reflexivity|].
      rewrite Heq.
      change (calls (Log ?a ?b :: t2)) with (calls t2). exact Hcalls.
  - run. destruct w as [c k]. reflexivity.
Qed.

(** X22.  A line of no other kind than information (a warning, PONG, an
    acknowledgement, the boot banner, anything unknown) is logged and
    nothing else: the object is unchanged, no observer is called, nothing
    is raised. *)
Theorem other_lines_change_nothing (line : string) (w : World) :
  startswith line "{" = false ->
  startswith line "ERROR:" = false ->
  startswith line "STATE:" = false ->
  startswith line "STATUS:COMPLETE" = false ->
  exists level message,
    _parse_line json_loads line w
    = (Ok tt, w,
       [Log logging.DEBUG ("Arduino → " ++ line); Log level message]).
Proof.
  intros E1 E2 E3 E4. unfold _parse_line. rewrite E1, E2, E3, E4.
  destruct (startswith line "WARNING:");
    [|destruct (String.eqb line "PONG");
      [|destruct (startswith line "ACK:");
        [|destruct (startswith line "Centrifuge Control"
                    || String.eqb line "System Ready")]]];
    run; eexists _, _; destruct w as [c k]; reflexivity.
Qed.

(** X23.  A [STATUS:COMPLETE] line calls the completion observer, if
    there is one, and no other; it leaves the whole object as it was, so
    the record keeps the state it had (the end of a run reaches the
    record only with the next packet or [STATE:] line). *)
Theorem complete_line_effect (tail : string) (w : World) :
  exists r t,
    _parse_line json_loads ("STATUS:COMPLETE" ++ tail) w = (r, w, t) /\
    calls t = registered (on_complete (self w)) args_none.
Proof.
  unfold _parse_line. unfold bind at 1. unfold log at 1, emit at 1.
  change (startswith ("STATUS:COMPLETE" ++ tail) "{") with false.
  change (startswith ("STATUS:COMPLETE" ++ tail) "ERROR:") with false.
  change (startswith ("STATUS:COMPLETE" ++ tail) "STATE:") with false.
  rewrite (startswith_app "STATUS:COMPLETE" tail).
  cbv beta iota.
  destruct (fire_callback_run (on_complete (self w)) args_none w)
    as (r & t1 & Hfire & Hcalls & _ & _).
  run. destruct w as [c k]. cbn [self clock] in *. rewrite Hfire.
  destruct r as [[]|e]; eexists _, _; (split; [reflexivity|]);
    cbn [app]; change (calls (Log ?a ?b :: Log ?c ?d :: t1)) with (calls t1);
    exact Hcalls.
Qed.

End ParserFrame.

Lemma error_reason_is_sticky_witness :
  (startswith running_packet "{" = true \/
   startswith running_packet "ERROR:" = false) /\
  error_reason (_status (self after_lid_open)) = "LID_OPEN" /\
  error_reason
    (_status (self (snd (fst (_parse_line json.loads running_packet
                                after_lid_open)))))
  = error_reason (_status (self after_lid_open)).
Proof.
  split; [left; reflexivity|]. split; [reflexivity|].
  apply (error_reason_is_sticky json.loads running_packet after_lid_open).
  left; reflexivity.
Defined.

Lemma last_updated_only_by_packets_witness :
  startswith "STATE:RUNNING" "{" = false /\
  last_updated
    (_status (self (snd (fst (_parse_line json.loads "STATE:RUNNING"
                                (session []))))))
  = last_updated (_status (self (session []))).
Proof.
  split; [reflexivity|].
  apply (last_updated_only_by_packets json.loads "STATE:RUNNING" (session [])).
  reflexivity.
Defined.

Lemma other_lines_change_nothing_witness :
  exists level message,
    _parse_line json.loads "WARNING:IMBALANCE" (session [])
    = (Ok tt, session [],
       [Log logging.DEBUG ("Arduino → " ++ "WARNING:IMBALANCE");
        Log level message]).
Proof.
  apply (other_lines_change_nothing json.loads "WARNING:IMBALANCE" (session []));
    reflexivity.
Defined.

(** X24.  [remaining_sec] is the floor of the milliseconds over 1000,
    also below zero: a record with -1 ms shows -1 s, never 0. *)
Theorem remaining_sec_floor (s : ArduinoStatus) :
  1000 * remaining_sec s <= remaining_ms s < 1000 * remaining_sec s + 1000.
Proof.
  unfold remaining_sec.
  pose proof (Z.div_mod (remaining_ms s) 1000 ltac:(lia)).
  pose proof (Z.mod_pos_bound (remaining_ms s) 1000 ltac:(lia)).
  lia.
Qed.

(** * Further properties: the web backend *)

Lemma dict_lookup_set (d : dict) (k k' : string) (v : JValue) :
  dict_lookup (dict_set d k v) k'
  = if String.eqb k k' then Some v else dict_lookup d k'.
Proof.
  induction d as [|[k0 v0] rest IH]; simpl.
  - reflexivity.
  - destruct (String.eqb k0 k) eqn:E0; simpl.
    + apply String.eqb_eq in E0. subst k0.
      destruct (String.eqb k k'); reflexivity.
    + rewrite IH. destruct (String.eqb k0 k') eqn:E1; [|reflexivity].
      destruct (String.eqb k k') eqn:E2; [|reflexivity].
      apply String.eqb_eq in E1, E2. subst.
      rewrite String.eqb_refl in E0. discriminate.
Qed.

Lemma wn_ret {A} (a : A) : writes_nothing (ret a).
Proof. intros w. reflexivity. Qed.

Lemma wn_gets {A} (f : SerialController -> A) : writes_nothing (gets f).
Proof. intros w. reflexivity. Qed.

Lemma wn_log lvl msg : writes_nothing (log lvl msg).
Proof. intros w. reflexivity. Qed.

Lemma wn_modify f : writes_nothing (modify f).
Proof. intros w. reflexivity. Qed.

Lemma wn_call cb args : writes_nothing (call cb args).
Proof.
  intros w. unfold call.
  destruct (body cb args (_status (self w))); reflexivity.
Qed.

Lemma wn_close : writes_nothing serial_close.
Proof.
  intros w. unfold serial_close.
  destruct (_serial (self w)) as [p|]; [|reflexivity].
  destruct (is_open p); reflexivity.
Qed.

Lemma wn_bind {A B} (m : M A) (k : A -> M B) :
  writes_nothing m -> (forall a, writes_nothing (k a)) ->
  writes_nothing (bind m k).
Proof.
  intros Hm Hk w. unfold bind.
  pose proof (Hm w) as H1.
  destruct (m w) as [[[a|e] w1] t1]; cbn [snd] in *; [|exact H1].
  pose proof (Hk a w1) as H2.
  destruct (k a w1) as [[r w2] t2]; cbn [snd] in *.
  rewrite writes_app, H1, H2. reflexivity.
Qed.

Lemma wn_try {A} (m : M A) handlers :
  writes_nothing m ->
  (forall classes h e, In (classes, h) handlers -> writes_nothing (h e)) ->
  writes_nothing (try_ m handlers).
Proof.
  intros Hm Hh w. unfold try_.
  pose proof (Hm w) as H1.
  destruct (m w) as [[[a|e] w1] t1]; cbn [snd] in *; [exact H1|].
  destruct (find_handler e handlers) as [h|] eqn:Ef; [|exact H1].
  destruct (find_handler_in _ _ _ Ef) as (cls & Hin).
  pose proof (Hh cls h e Hin w1) as H2.
  destruct (h e w1) as [[r w2] t2]; cbn [snd] in *.
  rewrite writes_app, H1, H2. reflexivity.
Qed.

Lemma wn_fire_callback cb args : writes_nothing (_fire_callback cb args).
Proof.
  unfold _fire_callback. destruct cb as [f|]; [|apply wn_ret].
  apply wn_try; [apply wn_call|]. handlers_cases.
  apply wn_bind; [|intros ?; apply wn_log].
  unfold get___name__. intros w. destruct (__name__ f); reflexivity.
Qed.

Lemma wn_handle_disconnect : writes_nothing _handle_disconnect.
Proof.
  unfold _handle_disconnect, with_lock, assign.
  apply wn_bind; [apply wn_log|intros _].
  apply wn_bind; [apply wn_modify|intros _].
  apply wn_bind; [apply wn_gets|intros p].
  apply wn_bind.
  - destruct p; [|apply wn_ret].
    apply wn_try; [apply wn_close|]. handlers_cases. apply wn_ret.
  - intros _. apply wn_bind; [apply wn_gets|intros cb].
    apply wn_fire_callback.
Qed.

(** The write path sends the command once or not at all. *)
Lemma send_writes_at_most command w r w' t :
  _send command w = (r, w', t) ->
  writes t = [] \/ writes t = [command].
Proof.
  assert (Hh : forall e, writes_nothing
            (log logging.ERROR ("Write failed: " ++ exn_str e) ;;
             _handle_disconnect ;; ret false)).
  { intros e.
    apply wn_bind; [apply wn_log|intros _].
    apply wn_bind; [apply wn_handle_disconnect|intros _].
    apply wn_ret. }
  unfold _send. unfold bind at 1, gets at 1.
  destruct (is_connected (self w)); cbn [negb].
  - unfold try_, with_lock. unfold bind at 1.
    unfold serial_write.
    destruct (_serial (self w)) as [p|];
      [|intros H; injection H as <- <- <-; left; reflexivity].
    destruct (is_open p).
    + destruct (write_faults p) as [|[e|] rest].
      * intros H; injection H as <- <- <-. right; reflexivity.
      * unfold find_handler. destruct (isinstance e [SerialException]).
        -- match goal with
           | |- context [bind (log logging.ERROR ?msg) ?k ?w0] =>
               generalize (Hh e w0);
               destruct (bind (log logging.ERROR msg) k w0) as [[r1 w1] t1]
           end.
           cbn [snd app]. intros Hw H; injection H as <- <- <-.
           left; exact Hw.
        -- intros H; injection H as <- <- <-. left; reflexivity.
      * intros H; injection H as <- <- <-. right; reflexivity.
    + unfold find_handler.
      destruct (isinstance port_not_open [SerialException]).
      * match goal with
        | |- context [bind (log logging.ERROR ?msg) ?k ?w0] =>
            generalize (Hh port_not_open w0);
            destruct (bind (log logging.ERROR msg) k w0) as [[r1 w1] t1]
        end.
        cbn [snd app]. intros Hw H; injection H as <- <- <-.
        left; exact Hw.
      * intros H; injection H as <- <- <-. left; reflexivity.
  - intros H; injection H as <- <- <-. left; reflexivity.
Qed.

Lemma start_writes_at_most rpm duration_sec w r w' t :
  start rpm duration_sec w = (r, w', t) ->
  writes t = [] \/
  writes t
  = ["START:" ++ str_of_int rpm ++ ":" ++ str_of_int (duration_sec * 1000)
     ++ newline].
Proof.
  unfold start. unfold bind at 1, gets at 1.
  destruct (is_connected (self w)); cbn [negb];
    [|intros H; injection H as <- <- <-; left; reflexivity].
  unfold bind at 1, log at 1, emit at 1.
  match goal with
  | |- context [_send ?c w] =>
      pose proof (send_writes_at_most c w) as Hs;
      destruct (_send c w) as [[r1 w1] t1]
  end.
  specialize (Hs _ _ _ eq_refl).
  intros H; injection H as <- <- <-. exact Hs.
Qed.

Lemma live_run app :
  exists r, v2uiweb_backend.live app = (r, app, []).
Proof.
  unfold v2uiweb_backend.live.
  destruct (v2uiweb_backend.controller app); [|eexists; reflexivity].
  destruct (v2uiweb_backend.getitem _ _); eexists; reflexivity.
Qed.

Ltac quit :=
  let H := fresh "H" in
  cbn; intros H; injection H as <- <- <-; left; reflexivity.

Lemma api_start_writes (data : JValue) (app : v2uiweb_backend.App) r app' t :
  v2uiweb_backend.start data app = (r, app', t) ->
  writes t = [] \/
  exists rpm duration_sec,
    1 <= rpm <= 3000 /\
    1 <= duration_sec <= 600 /\
    writes t
    = ["START:" ++ str_of_int rpm ++ ":" ++ str_of_int (duration_sec * 1000)
       ++ newline].
Proof.
  unfold v2uiweb_backend.start.
  unfold v2uiweb_backend.route_bind at 1, v2uiweb_backend.eval at 1.
  destruct (get data "rpm" (JInt 0)) as [v1|e]; [|quit].
  unfold v2uiweb_backend.route_bind at 1, v2uiweb_backend.eval at 1.
  destruct (py_int v1) as [rpm|e]; [|quit].
  unfold v2uiweb_backend.route_bind at 1, v2uiweb_backend.eval at 1.
  destruct (get data "duration_sec" (JInt 0)) as [v2|e]; [|quit].
  unfold v2uiweb_backend.route_bind at 1, v2uiweb_backend.eval at 1.
  destruct (py_int v2) as [duration_sec|e]; [|quit].
  destruct ((rpm <=? 0) || (rpm >? 3000))%bool eqn:Hr; [quit|].
  destruct ((duration_sec <=? 0) || (duration_sec >? 600))%bool eqn:Hd;
    [quit|].
  apply Bool.orb_false_iff in Hr, Hd.
  destruct Hr as (Hr1 & Hr2). destruct Hd as (Hd1 & Hd2).
  assert (Hrpm : 1 <= rpm <= 3000) by lia.
  assert (Hdur : 1 <= duration_sec <= 600) by lia.
  unfold v2uiweb_backend.route_bind at 1.
  destruct (live_run app) as (r0 & ->).
  destruct r0 as [[c|]|e]; [| quit | quit].
  unfold v2uiweb_backend.route_bind, v2uiweb_backend.controller_call,
    v2uiweb_backend.route_ret.
  pose proof (start_writes_at_most rpm duration_sec
                (mkWorld c (v2uiweb_backend.app_clock app))) as H.
  destruct (start rpm duration_sec
              (mkWorld c (v2uiweb_backend.app_clock app)))
    as [[[ok|e] w1] t1]; specialize (H _ _ _ eq_refl);
    cbn [Datatypes.app]; rewrite ?app_nil_r;
    intros E; injection E as <- <- <-;
    (destruct H as [H|H]; [left; exact H|]);
    right; exists rpm, duration_sec; auto.
Qed.

(** X25.  Whatever body a request to [/api/start] carries and whatever
    the state of the backend, the route writes to the port at most once,
    and what it writes is a START command whose speed is between 1 and
    3000 rpm and whose duration is between 1 and 600 seconds, sent in
    milliseconds: no request can make the backend send a run outside
    these bounds. *)
Theorem api_start_writes_in_range (data : JValue) (app : v2uiweb_backend.App) :
  writes (snd (v2uiweb_backend.start data app)) = [] \/
  exists rpm duration_sec,
    1 <= rpm <= 3000 /\
    1 <= duration_sec <= 600 /\
    writes (snd (v2uiweb_backend.start data app))
    = ["START:" ++ str_of_int rpm ++ ":" ++ str_of_int (duration_sec * 1000)
       ++ newline].
Proof.
  destruct (v2uiweb_backend.start data app) as [[r app'] t] eqn:E.
  exact (api_start_writes data app r app' t E).
Qed.


Lemma live_none app :
  v2uiweb_backend.controller app = None ->
  v2uiweb_backend.live app = (Ok None, app, []).
Proof. intros H. unfold v2uiweb_backend.live. rewrite H. reflexivity. Qed.

(** X26.  Demo mode.  When the backend has no live controller (none was
    built, or the dict says not connected), a start request within the
    bounds and the stop, emergency-stop and clear-error requests all
    answer ok: true with code 200 and do nothing outside the dict: no
    write, no log record, the controller object untouched.  So an
    emergency stop asked of a backend that lost its link is answered as
    done although nothing was sent. *)
Theorem demo_mode_is_silent (app : v2uiweb_backend.App) (d : dict)
    (rpm duration_sec : Z) :
  v2uiweb_backend.live app = (Ok None, app, []) ->
  py_int (dict_get d "rpm" (JInt 0)) = Ok rpm ->
  py_int (dict_get d "duration_sec" (JInt 0)) = Ok duration_sec ->
  1 <= rpm <= 3000 ->
  1 <= duration_sec <= 600 ->
  forall route,
    In route (v2uiweb_backend.start (JObject d)
              :: v2uiweb_backend.plain_routes) ->
    exists shared,
      route app
      = (Ok (v2uiweb_backend.jsonify [("ok", JBool true)] 200),
         v2uiweb_backend.mkApp shared (v2uiweb_backend.controller app)
           (v2uiweb_backend.app_clock app),
         []).
Proof.
  intros Hlive Hrpm Hdur Br Bd route Hin.
  assert (Hr : ((rpm <=? 0) || (rpm >? 3000))%bool = false).
  { apply Bool.orb_false_iff. split; lia. }
  assert (Hd : ((duration_sec <=? 0) || (duration_sec >? 600))%bool = false).
  { apply Bool.orb_false_iff. split; lia. }
  destruct Hin as [<-|[<-|[<-|[<-|[]]]]].
  - unfold v2uiweb_backend.start.
    unfold v2uiweb_backend.route_bind at 1, v2uiweb_backend.eval at 1.
    cbn [get].
    unfold v2uiweb_backend.route_bind at 1, v2uiweb_backend.eval at 1.
    rewrite Hrpm.
    unfold v2uiweb_backend.route_bind at 1, v2uiweb_backend.eval at 1.
    unfold v2uiweb_backend.route_bind at 1, v2uiweb_backend.eval at 1.
    rewrite Hdur, Hr, Hd.
    unfold v2uiweb_backend.route_bind at 1. rewrite Hlive.
    eexists. reflexivity.
  - unfold v2uiweb_backend.stop.
    unfold v2uiweb_backend.route_bind at 1. rewrite Hlive.
    eexists. reflexivity.
  - unfold v2uiweb_backend.emergency_stop.
    unfold v2uiweb_backend.route_bind at 1. rewrite Hlive.
    eexists. reflexivity.
  - unfold v2uiweb_backend.clear_error.
    unfold v2uiweb_backend.route_bind at 1. rewrite Hlive.
    eexists. reflexivity.
Qed.

Lemma demo_mode_is_silent_witness :
  exists shared,
    v2uiweb_backend.emergency_stop
      (v2uiweb_backend.mkApp v2uiweb_backend.initial_shared_state None 0)
    = (Ok (v2uiweb_backend.jsonify [("ok", JBool true)] 200),
       v2uiweb_backend.mkApp shared None 0, []).
Proof.
  apply (demo_mode_is_silent
           (v2uiweb_backend.mkApp v2uiweb_backend.initial_shared_state None 0)
           [("rpm", JInt 1500); ("duration_sec", JInt 60)] 1500 60);
    [reflexivity | reflexivity | reflexivity | lia | lia |].
  right; right; left; reflexivity.
Defined.

Lemma mirrors_on_status s shared :
  v2uiweb_backend.mirrors (v2uiweb_backend.on_status s shared) s /\
  dict_lookup (v2uiweb_backend.on_status s shared) "connected"
  = Some (JBool true).
Proof.
  unfold v2uiweb_backend.mirrors, v2uiweb_backend.on_status,
    v2uiweb_backend.update.
  cbn [fold_left fst snd].
  repeat split; rewrite !dict_lookup_set; reflexivity.
Qed.

Section BackendFacts.

Variable json_loads : string -> Result JValue.

(** X27.  The dict follows the record.  When the reader of a wired
    controller processes a JSON packet whose integer keys convert, the
    backend's dict afterwards shows, key by key, the record as the packet
    left it (not the record before the packet), and says connected. *)
Theorem mirror_follows_packet (c : SerialController)
    (app : v2uiweb_backend.App) (line : string) (d : dict) :
  v2uiweb_backend.wired c ->
  startswith line "{" = true ->
  json_loads line = Ok (JObject d) ->
  integers_ok d = true ->
  exists r c' shared now t,
    v2uiweb_backend.controller_call (_parse_line json_loads line) c app
    = (r, v2uiweb_backend.mkApp shared (Some c') now, t) /\
    _status c' = json_status d (v2uiweb_backend.app_clock app) (_status c) /\
    v2uiweb_backend.mirrors shared (_status c') /\
    dict_lookup shared "connected" = Some (JBool true).
Proof.
  intros (W1 & W2 & W3 & W4) Hb Hj Hi.
  unfold v2uiweb_backend.controller_call.
  set (w := mkWorld c (v2uiweb_backend.app_clock app)).
  unfold _parse_line. unfold bind at 1, log at 1, emit at 1. rewrite Hb.
  rewrite (json_object_ok json_loads line d w Hj Hi). cbv zeta.
  set (s1 := json_status d (clock w) (_status (self w))).
  set (w1 := mkWorld (with_status s1 (self w)) (clock w)).
  destruct (fire_callback_run (on_status_update (self w)) (args_status s1) w1)
    as (r1 & t1 & Hfire & Hcalls1 & _ & Hr1).
  rewrite Hfire.
  change (on_status_update (self w)) with (on_status_update c) in *.
  rewrite W1 in Hcalls1, Hr1. cbn [registered] in Hcalls1.
  destruct Hr1 as [->|(e & _ & _ & Hnot)];
    [|exfalso; apply Hnot; left; discriminate].
  destruct (check_state_change_run w1) as (r2 & t2 & p & Hc & _ & Hcase).
  rewrite Hc.
  assert (Hcalls2 : calls t2 = []).
  { change (on_state_change (self w1)) with (on_state_change c) in Hcase.
    rewrite W2 in Hcase.
    destruct (SystemState_eqb _ _); destruct Hcase as (H & _); exact H. }
  eexists _, _, _, _, _. split; [reflexivity|].
  split; [reflexivity|].
  cbn [Datatypes.app].
  change (calls (Log ?a ?b :: (t1 ++ t2)%list)) with (calls (t1 ++ t2)%list).
  rewrite calls_app, Hcalls1, Hcalls2.
  cbn [Datatypes.app fold_left v2uiweb_backend.deliver].
  apply mirrors_on_status.
Qed.

(** X28.  An [ERROR:] line from the device reaches the dict of a wired
    controller as state ERROR with the line's reason; every other key
    keeps its value (the dict goes on saying running: true if it did),
    except that the reason SERIAL_DISCONNECTED, also when it is only the
    text a device sent over an open port, switches connected to false
    and with it the backend to demo mode. *)
Theorem mirror_after_error_line (c : SerialController)
    (app : v2uiweb_backend.App) (reason : string) :
  v2uiweb_backend.wired c ->
  exists r c' shared now t,
    v2uiweb_backend.controller_call
      (_parse_line json_loads ("ERROR:" ++ reason)) c app
    = (r, v2uiweb_backend.mkApp shared (Some c') now, t) /\
    dict_lookup shared "state" = Some (JStr "ERROR") /\
    dict_lookup shared "error_reason" = Some (JStr reason) /\
    dict_lookup shared "connected"
    = (if String.eqb reason "SERIAL_DISCONNECTED" then Some (JBool false)
       else dict_lookup (v2uiweb_backend.shared_state app) "connected") /\
    forall key,
      key <> "state" -> key <> "error_reason" -> key <> "connected" ->
      dict_lookup shared key
      = dict_lookup (v2uiweb_backend.shared_state app) key.
Proof.
  intros (W1 & W2 & W3 & W4).
  unfold v2uiweb_backend.controller_call.
  set (w := mkWorld c (v2uiweb_backend.app_clock app)).
  assert (Hself : self w = c) by reflexivity. clearbody w.
  unfold _parse_line. unfold bind at 1, log at 1, emit at 1.
  change (startswith ("ERROR:" ++ reason) "{") with false.
  rewrite (startswith_app "ERROR:" reason).
  change (slice_from 6 ("ERROR:" ++ reason)) with reason.
  cbv beta iota.
  set (s1 := set_error_reason reason (set_state ERROR (_status (self w)))).
  set (w1 := mkWorld (with_status s1 (self w)) (clock w)).
  destruct (fire_callback_run (on_error (self w)) (args_reason reason) w1)
    as (r1 & t1 & Hfire & Hcalls1 & _ & Hr1).
  rewrite Hself, W3 in Hcalls1, Hr1. cbn [registered] in Hcalls1.
  destruct Hr1 as [->|(e & _ & _ & Hnot)];
    [|exfalso; apply Hnot; left; discriminate].
  destruct (check_state_change_run w1) as (r2 & t2 & p & Hc & _ & Hcase).
  assert (Hcalls2 : calls t2 = []).
  { change (on_state_change (self w1)) with (on_state_change (self w))
      in Hcase.
    rewrite Hself, W2 in Hcase.
    destruct (SystemState_eqb _ _); destruct Hcase as (H & _); exact H. }
  run. change (mkWorld _ (clock w)) with w1. rewrite Hfire, Hc.
  eexists _, _, _, _, _. split; [reflexivity|].
  cbn [Datatypes.app].
  change (calls (Log ?a ?b :: Log ?a' ?b' :: (t1 ++ t2)%list))
    with (calls (t1 ++ t2)%list).
  rewrite calls_app, Hcalls1, Hcalls2.
  cbn [Datatypes.app fold_left v2uiweb_backend.deliver].
  unfold v2uiweb_backend.on_error.
  destruct (String.eqb reason "SERIAL_DISCONNECTED");
    rewrite !dict_lookup_set; cbn [String.eqb Ascii.eqb Bool.eqb];
    (split; [reflexivity|]); (split; [reflexivity|]);
    (split; [reflexivity|]);
    intros key K1 K2 K3; rewrite !dict_lookup_set;
    apply not_eq_sym in K1, K2, K3;
    apply String.eqb_neq in K1, K2, K3; rewrite ?K1, ?K2, ?K3; reflexivity.
Qed.

End BackendFacts.

Lemma mirror_follows_packet_witness :
  exists r c' shared now t,
    v2uiweb_backend.controller_call (_parse_line json.loads running_packet)
      (self (backend_session []))
      (v2uiweb_backend.serving (backend_session []))
    = (r, v2uiweb_backend.mkApp shared (Some c') now, t) /\
    _status c'
    = json_status
        [("state", JStr "RUNNING"); ("currentRPM", JInt 850);
         ("targetRPM", JInt 1000); ("lidClosed", JBool true);
         ("level", JBool true); ("running", JBool true);
         ("remainingMs", JInt 12000)]
        (v2uiweb_backend.app_clock
           (v2uiweb_backend.serving (backend_session [])))
        (_status (self (backend_session []))) /\
    v2uiweb_backend.mirrors shared (_status c') /\
    dict_lookup shared "connected" = Some (JBool true).
Proof.
  apply (mirror_follows_packet json.loads (self (backend_session []))
           (v2uiweb_backend.serving (backend_session [])) running_packet
           [("state", JStr "RUNNING"); ("currentRPM", JInt 850);
            ("targetRPM", JInt 1000); ("lidClosed", JBool true);
            ("level", JBool true); ("running", JBool true);
            ("remainingMs", JInt 12000)]).
  - repeat split.
  - reflexivity.
  - reflexivity.
  - reflexivity.
Defined.

Lemma mirror_after_error_line_witness :
  exists r c' shared now t,
    v2uiweb_backend.controller_call
      (_parse_line json.loads ("ERROR:" ++ "SERIAL_DISCONNECTED"))
      (self (backend_session []))
      (v2uiweb_backend.serving (backend_session []))
    = (r, v2uiweb_backend.mkApp shared (Some c') now, t) /\
    dict_lookup shared "state" = Some (JStr "ERROR") /\
    dict_lookup shared "error_reason" = Some (JStr "SERIAL_DISCONNECTED") /\
    dict_lookup shared "connected"
    = (if String.eqb "SERIAL_DISCONNECTED" "SERIAL_DISCONNECTED"
       then Some (JBool false)
       else dict_lookup
              (v2uiweb_backend.shared_state
                 (v2uiweb_backend.serving (backend_session [])))
              "connected") /\
    forall key,
      key <> "state" -> key <> "error_reason" -> key <> "connected" ->
      dict_lookup shared key
      = dict_lookup
          (v2uiweb_backend.shared_state
             (v2uiweb_backend.serving (backend_session [])))
          key.
Proof.
  apply (mirror_after_error_line json.loads (self (backend_session []))
           (v2uiweb_backend.serving (backend_session []))
           "SERIAL_DISCONNECTED").
  repeat split.
Defined.

(** A command of the routes on a port whose next write fails. *)
Lemma command_over_dead_link (m : M bool) (w : World) (p : Serial) (e : exn)
    (rest : list (option exn)) (rpm duration_sec : Z) :
  v2uiweb_backend.wired (self w) ->
  _serial (self w) = Some p ->
  is_open p = true ->
  write_faults p = Some e :: rest ->
  isinstance e [SerialException] = true ->
  In m [start rpm duration_sec; stop; emergency_stop; clear_error] ->
  exists t,
    m w =
      (Ok false,
       mkWorld (with_serial (Some (mkSerial false (incoming p) rest))
                  (with_status (set_state DISCONNECTED (_status (self w)))
                               (self w)))
               (clock w),
       t) /\
    writes t = [] /\
    calls t = [args_reason "SERIAL_DISCONNECTED"].
Proof.
  intros (W1 & W2 & W3 & W4) Hp Ho Hf He Hin.
  assert (Hc : contained (on_error (self w))).
  { rewrite W3. left. discriminate. }
  assert (Hsend : forall command, exists t,
    _send command w =
      (Ok false,
       mkWorld (with_serial (Some (mkSerial false (incoming p) rest))
                  (with_status (set_state DISCONNECTED (_status (self w)))
                               (self w)))
               (clock w),
       t) /\
    writes t = [] /\
    calls t = [args_reason "SERIAL_DISCONNECTED"]).
  { intros command.
    destruct (send_failure_run w p e rest command _ Hp Ho Hf He W3 Hc)
      as (t & Hrun & Hw & Hcalls & _).
    exists t. auto. }
  destruct Hin as [<-|[<-|[<-|[<-|[]]]]].
  - unfold start. unfold bind at 1, gets at 1.
    unfold is_connected at 1. rewrite Hp, Ho. cbn [negb].
    unfold bind at 1, log at 1, emit at 1.
    match goal with
    | |- context [_send ?c w] => destruct (Hsend c) as (t & -> & Hw & Hcalls)
    end.
    eexists. split; [reflexivity|]. split; assumption.
  - unfold stop. unfold bind at 1, log at 1, emit at 1.
    destruct (Hsend ("STOP" ++ newline)) as (t & -> & Hw & Hcalls).
    eexists. split; [reflexivity|]. split; assumption.
  - unfold emergency_stop. unfold bind at 1, log at 1, emit at 1.
    destruct (Hsend ("EMERGENCY_STOP" ++ newline)) as (t & -> & Hw & Hcalls).
    eexists. split; [reflexivity|]. split; assumption.
  - unfold clear_error. unfold bind at 1, log at 1, emit at 1.
    destruct (Hsend ("CLEAR_ERROR" ++ newline)) as (t & -> & Hw & Hcalls).
    eexists. split; [reflexivity|]. split; assumption.
Qed.

(** The dict and the globals after a command of a route found the link
    dead. *)
Lemma controller_call_dead (m : M bool) (c c' : SerialController)
    (app : v2uiweb_backend.App) (t : list Effect) :
  m (mkWorld c (v2uiweb_backend.app_clock app))
  = (Ok false, mkWorld c' (v2uiweb_backend.app_clock app), t) ->
  calls t = [args_reason "SERIAL_DISCONNECTED"] ->
  v2uiweb_backend.controller_call m c app
  = (Ok false,
     v2uiweb_backend.mkApp
       (v2uiweb_backend.on_error "SERIAL_DISCONNECTED"
          (v2uiweb_backend.shared_state app))
       (Some c') (v2uiweb_backend.app_clock app),
     t).
Proof.
  intros Hrun Hcalls. unfold v2uiweb_backend.controller_call.
  rewrite Hrun, Hcalls. reflexivity.
Qed.

(** X29.  A request over a dead link.  When the dict says connected but
    the next write to the port fails, a start request within the bounds
    and the stop, emergency-stop and clear-error requests answer
    ok: false (with code 200) and write nothing; the controller ends not
    connected with its record DISCONNECTED, while the dict shows state
    ERROR with reason SERIAL_DISCONNECTED and connected false.  From then
    on the backend has no live controller, so the next request is served
    in demo mode. *)
Theorem request_over_dead_link (app : v2uiweb_backend.App)
    (c : SerialController) (p : Serial) (e : exn) (rest : list (option exn))
    (d : dict) (rpm duration_sec : Z) :
  v2uiweb_backend.controller app = Some c ->
  dict_lookup (v2uiweb_backend.shared_state app) "connected"
  = Some (JBool true) ->
  v2uiweb_backend.wired c ->
  _serial c = Some p ->
  is_open p = true ->
  write_faults p = Some e :: rest ->
  isinstance e [SerialException] = true ->
  py_int (dict_get d "rpm" (JInt 0)) = Ok rpm ->
  py_int (dict_get d "duration_sec" (JInt 0)) = Ok duration_sec ->
  1 <= rpm <= 3000 ->
  1 <= duration_sec <= 600 ->
  forall route,
    In route (v2uiweb_backend.start (JObject d)
              :: v2uiweb_backend.plain_routes) ->
    exists app' c' t,
      route app
      = (Ok (v2uiweb_backend.jsonify [("ok", JBool false)] 200), app', t) /\
      writes t = [] /\
      v2uiweb_backend.controller app' = Some c' /\
      is_connected c' = false /\
      state (_status c') = DISCONNECTED /\
      dict_lookup (v2uiweb_backend.shared_state app') "state"
      = Some (JStr "ERROR") /\
      dict_lookup (v2uiweb_backend.shared_state app') "error_reason"
      = Some (JStr "SERIAL_DISCONNECTED") /\
      dict_lookup (v2uiweb_backend.shared_state app') "connected"
      = Some (JBool false) /\
      v2uiweb_backend.live app' = (Ok None, app', []).
Proof.
  intros Hctl Hconn Hwired Hp Ho Hf He Hrpm Hdur Br Bd route Hin.
  assert (Hr : ((rpm <=? 0) || (rpm >? 3000))%bool = false).
  { apply Bool.orb_false_iff. split; lia. }
  assert (Hd : ((duration_sec <=? 0) || (duration_sec >? 600))%bool = false).
  { apply Bool.orb_false_iff. split; lia. }
  assert (Hlive : v2uiweb_backend.live app = (Ok (Some c), app, [])).
  { unfold v2uiweb_backend.live, v2uiweb_backend.getitem.
    rewrite Hctl, Hconn. reflexivity. }
  assert (Hcmd : forall m,
    In m [start rpm duration_sec; stop; emergency_stop; clear_error] ->
    exists c' t,
      v2uiweb_backend.controller_call m c app
      = (Ok false,
         v2uiweb_backend.mkApp
           (v2uiweb_backend.on_error "SERIAL_DISCONNECTED"
              (v2uiweb_backend.shared_state app))
           (Some c') (v2uiweb_backend.app_clock app),
         t) /\
      writes t = [] /\ is_connected c' = false /\
      state (_status c') = DISCONNECTED).
  { intros m Hm.
    destruct (command_over_dead_link m
                (mkWorld c (v2uiweb_backend.app_clock app)) p e rest
                rpm duration_sec Hwired Hp Ho Hf He Hm)
      as (t & Hrun & Hw & Hcalls).
    eexists _, t. split; [exact (controller_call_dead _ _ _ _ _ Hrun Hcalls)|].
    split; [exact Hw|]. split; reflexivity. }
  assert (Hend : forall c' t,
    writes t = [] -> is_connected c' = false ->
    state (_status c') = DISCONNECTED ->
    exists app' c'' t',
      (Ok (v2uiweb_backend.jsonify [("ok", JBool false)] 200),
       v2uiweb_backend.mkApp
         (v2uiweb_backend.on_error "SERIAL_DISCONNECTED"
            (v2uiweb_backend.shared_state app))
         (Some c') (v2uiweb_backend.app_clock app),
       (t ++ [])%list)
      = (Ok (v2uiweb_backend.jsonify [("ok", JBool false)] 200), app', t') /\
      writes t' = [] /\
      v2uiweb_backend.controller app' = Some c'' /\
      is_connected c'' = false /\
      state (_status c'') = DISCONNECTED /\
      dict_lookup (v2uiweb_backend.shared_state app') "state"
      = Some (JStr "ERROR") /\
      dict_lookup (v2uiweb_backend.shared_state app') "error_reason"
      = Some (JStr "SERIAL_DISCONNECTED") /\
      dict_lookup (v2uiweb_backend.shared_state app') "connected"
      = Some (JBool false) /\
      v2uiweb_backend.live app' = (Ok None, app', [])).
  { intros c' t Hw Hic Hst.
    eexists _, c', _. split; [reflexivity|].
    rewrite app_nil_r. split; [exact Hw|]. split; [reflexivity|].
    split; [exact Hic|]. split; [exact Hst|].
    cbn [v2uiweb_backend.shared_state].
    unfold v2uiweb_backend.on_error. cbn [String.eqb Ascii.eqb Bool.eqb].
    rewrite !dict_lookup_set. cbn [String.eqb Ascii.eqb Bool.eqb].
    repeat (split; [reflexivity|]).
    unfold v2uiweb_backend.live, v2uiweb_backend.getitem.
    cbn [v2uiweb_backend.controller v2uiweb_backend.shared_state].
    rewrite !dict_lookup_set. reflexivity. }
  destruct Hin as [<-|[<-|[<-|[<-|[]]]]].
  - unfold v2uiweb_backend.start.
    unfold v2uiweb_backend.route_bind at 1, v2uiweb_backend.eval at 1.
    cbn [get].
    unfold v2uiweb_backend.route_bind at 1, v2uiweb_backend.eval at 1.
    rewrite Hrpm.
    unfold v2uiweb_backend.route_bind at 1, v2uiweb_backend.eval at 1.
    unfold v2uiweb_backend.route_bind at 1, v2uiweb_backend.eval at 1.
    rewrite Hdur, Hr, Hd.
    unfold v2uiweb_backend.route_bind at 1. rewrite Hlive.
    unfold v2uiweb_backend.route_bind at 1.
    destruct (Hcmd (start rpm duration_sec)) as (c' & t & -> & Hw & Hic & Hst);
      [left; reflexivity|].
    apply Hend; assumption.
  - unfold v2uiweb_backend.stop.
    unfold v2uiweb_backend.route_bind at 1. rewrite Hlive.
    unfold v2uiweb_backend.route_bind at 1.
    destruct (Hcmd stop) as (c' & t & -> & Hw & Hic & Hst);
      [right; left; reflexivity|].
    apply Hend; assumption.
  - unfold v2uiweb_backend.emergency_stop.
    unfold v2uiweb_backend.route_bind at 1. rewrite Hlive.
    unfold v2uiweb_backend.route_bind at 1.
    destruct (Hcmd emergency_stop) as (c' & t & -> & Hw & Hic & Hst);
      [right; right; left; reflexivity|].
    apply Hend; assumption.
  - unfold v2uiweb_backend.clear_error.
    unfold v2uiweb_backend.route_bind at 1. rewrite Hlive.
    unfold v2uiweb_backend.route_bind at 1.
    destruct (Hcmd clear_error) as (c' & t & -> & Hw & Hic & Hst);
      [right; right; right; left; reflexivity|].
    apply Hend; assumption.
Qed.

Lemma request_over_dead_link_witness :
  exists app' c' t,
    v2uiweb_backend.emergency_stop
      (v2uiweb_backend.serving (backend_session [Some link_lost]))
    = (Ok (v2uiweb_backend.jsonify [("ok", JBool false)] 200), app', t) /\
    writes t = [] /\
    v2uiweb_backend.controller app' = Some c' /\
    is_connected c' = false /\
    state (_status c') = DISCONNECTED /\
    dict_lookup (v2uiweb_backend.shared_state app') "state"
    = Some (JStr "ERROR") /\
    dict_lookup (v2uiweb_backend.shared_state app') "error_reason"
    = Some (JStr "SERIAL_DISCONNECTED") /\
    dict_lookup (v2uiweb_backend.shared_state app') "connected"
    = Some (JBool false) /\
    v2uiweb_backend.live app' = (Ok None, app', []).
Proof.
  apply (request_over_dead_link
           (v2uiweb_backend.serving (backend_session [Some link_lost]))
           (self (backend_session [Some link_lost]))
           (mkSerial true [] [Some link_lost]) link_lost []
           [("rpm", JInt 1500); ("duration_sec", JInt 60)] 1500 60);
    try reflexivity; try lia.
  - repeat split.
  - right; right; left; reflexivity.
Defined.

Section InitFacts.

Variable lower : string -> string.
Variable comports : list ListPortInfo.
Variable Serial_new : option string -> Z -> Result Serial.

(** [connect()] on a controller without a port object: the answer is the
    truth about the link, and the observers stay. *)
Lemma connect_fresh (w : World) r w' t :
  _serial (self w) = None ->
  connect lower comports Serial_new w = (r, w', t) ->
  (forall b, r = Ok b -> is_connected (self w') = b) /\
  on_status_update (self w') = on_status_update (self w) /\
  on_state_change (self w') = on_state_change (self w) /\
  on_error (self w') = on_error (self w) /\
  on_complete (self w') = on_complete (self w) /\
  clock w' = clock w /\
  calls t = [].
Proof.
  assert (Hopen : forall (w0 : World) r w' t,
    _serial (self w0) = None ->
    try_ (
      name <- gets port ;;
      rate <- gets baud ;;
      s <- lift (Serial_new name rate) ;;
      modify (with_serial (Some s)) ;;
      reset_input_buffer ;;
      modify (with_stop_event false) ;;
      _start_threads ;;
      log logging.INFO
        ("Connected to Arduino on " ++ str_of_option name ++ " at "
         ++ str_of_int rate ++ " baud.") ;;
      ret true)
    [([SerialException], fun e =>
        name <- gets port ;;
        log logging.ERROR
          ("Failed to connect to " ++ str_of_option name ++ ": "
           ++ exn_str e) ;;
        ret false)] w0 = (r, w', t) ->
    (forall b, r = Ok b -> is_connected (self w') = b) /\
    on_status_update (self w') = on_status_update (self w0) /\
    on_state_change (self w') = on_state_change (self w0) /\
    on_error (self w') = on_error (self w0) /\
    on_complete (self w') = on_complete (self w0) /\
    clock w' = clock w0 /\
    calls t = []).
  { intros w0 r0 w0' t0 H0.
    unfold try_, bind at 1, gets at 1. unfold bind at 1, gets at 1.
    unfold bind at 1, lift at 1.
    destruct (Serial_new (port (self w0)) (baud (self w0))) as [s|e] eqn:Hs.
    - unfold bind at 1, modify at 1. unfold bind at 1, reset_input_buffer.
      cbn [self _serial with_serial].
      destruct (is_open s) eqn:Ho.
      + cbn. intros E; injection E as <- <- <-.
        split; [|repeat split].
        intros b Hb; injection Hb as <-.
        unfold is_connected; cbn. exact Ho.
      + unfold find_handler. cbn [isinstance port_not_open exn_class existsb
                                  issubclass ExnClass_eqb orb].
        cbn. intros E; injection E as <- <- <-.
        split; [|repeat split].
        intros b Hb; injection Hb as <-.
        unfold is_connected; cbn. exact Ho.
    - unfold find_handler. destruct (isinstance e [SerialException]).
      + cbn. intros E; injection E as <- <- <-.
        split; [|repeat split].
        intros b Hb; injection Hb as <-.
        unfold is_connected. rewrite H0. reflexivity.
      + intros E; injection E as <- <- <-.
        split; [|repeat split].
        intros b Hb; discriminate Hb. }
  intros H0.
  unfold connect. unfold bind at 1, gets at 1. unfold bind at 1, gets at 1.
  destruct (port (self w)) as [name|] eqn:Hp.
  - unfold bind at 1, ret at 1. cbn [negb].
    match goal with
    | |- context [try_ ?b ?h ?w0] =>
        pose proof (Hopen w0) as H; destruct (try_ b h w0) as [[r1 w1] t1]
    end.
    specialize (H _ _ _ H0 eq_refl).
    cbn [Datatypes.app]. intros E; injection E as <- <- <-. exact H.
  - destruct (auto_detect (self w)) eqn:Ha.
    + unfold bind at 1. unfold bind at 1, _auto_detect_port.
      destruct (find (port_matches lower) comports) as [q|].
      * cbn -[try_ String.append].
        match goal with
        | |- context [try_ ?b ?h ?w0] =>
            pose proof (Hopen w0) as H; destruct (try_ b h w0) as [[r1 w1] t1]
        end.
        specialize (H _ _ _ H0 eq_refl).
        intros E; injection E as <- <- <-.
        destruct H as (H1 & H2 & H3 & H4 & H5 & H6 & H7).
        repeat split; assumption.
      * destruct comports as [|first others].
        -- cbn. intros E; injection E as <- <- <-.
           split; [|repeat split].
           intros b Hb; injection Hb as <-.
           unfold is_connected; cbn. rewrite H0. reflexivity.
        -- cbn -[try_ String.append].
           match goal with
           | |- context [try_ ?b ?h ?w0] =>
               pose proof (Hopen w0) as H;
               destruct (try_ b h w0) as [[r1 w1] t1]
           end.
           specialize (H _ _ _ H0 eq_refl).
           intros E; injection E as <- <- <-.
           destruct H as (H1 & H2 & H3 & H4 & H5 & H6 & H7).
           repeat split; assumption.
    + unfold bind at 1, ret at 1. cbn [negb].
      match goal with
      | |- context [try_ ?b ?h ?w0] =>
          pose proof (Hopen w0) as H; destruct (try_ b h w0) as [[r1 w1] t1]
      end.
      specialize (H _ _ _ H0 eq_refl).
      cbn [Datatypes.app]. intros E; injection E as <- <- <-. exact H.
Qed.

(** X30.  [init_controller()], when the controller module was imported
    and the call returns: the global holds a controller wired with the
    three functions of the backend and no change observer, and the value
    returned, the connected flag of the dict and the controller's own
    [is_connected()] all agree.  The rest of the dict is as before. *)
Theorem init_controller_flag (app app' : v2uiweb_backend.App) (b : bool)
    (t : list Effect) :
  v2uiweb_backend.init_controller true lower comports Serial_new app
  = (Ok b, app', t) ->
  exists c,
    v2uiweb_backend.controller app' = Some c /\
    v2uiweb_backend.wired c /\
    is_connected c = b /\
    dict_lookup (v2uiweb_backend.shared_state app') "connected"
    = Some (JBool b) /\
    forall key,
      key <> "connected" ->
      dict_lookup (v2uiweb_backend.shared_state app') key
      = dict_lookup (v2uiweb_backend.shared_state app) key.
Proof.
  unfold v2uiweb_backend.init_controller. cbn [negb].
  unfold v2uiweb_backend.route_bind at 1.
  unfold v2uiweb_backend.route_bind at 1, v2uiweb_backend.controller_call.
  set (c0 := SerialController_init None 115200 true
               (Some (observer "on_status")) None
               (Some (observer "on_error")) (Some (observer "on_complete"))
               (v2uiweb_backend.app_clock app)).
  set (w0 := mkWorld c0 (v2uiweb_backend.app_clock app)).
  pose proof (connect_fresh w0) as H.
  destruct (connect lower comports Serial_new w0) as [[r1 w1] t1].
  specialize (H _ _ _ eq_refl eq_refl).
  destruct H as (Hb & H1 & H2 & H3 & H4 & _ & Hcalls).
  destruct r1 as [b1|e]; [|intros E; discriminate E].
  rewrite Hcalls. cbn.
  intros E; injection E as <- <- <-.
  exists (self w1). split; [reflexivity|].
  split; [repeat split; assumption|].
  split; [apply Hb; reflexivity|].
  cbn [v2uiweb_backend.shared_state]. rewrite dict_lookup_set.
  split; [reflexivity|].
  intros key Hk. rewrite dict_lookup_set.
  apply not_eq_sym in Hk. apply String.eqb_neq in Hk. rewrite Hk. reflexivity.
Qed.

End InitFacts.

Lemma init_controller_flag_witness :
  exists c,
    v2uiweb_backend.controller
      (snd (fst (v2uiweb_backend.init_controller true ascii_lower
                   [bluetooth_port; clone_port] opens_all
                   (v2uiweb_backend.mkApp
                      v2uiweb_backend.initial_shared_state None 0))))
    = Some c /\
    v2uiweb_backend.wired c /\
    is_connected c = true /\
    dict_lookup
      (v2uiweb_backend.shared_state
         (snd (fst (v2uiweb_backend.init_controller true ascii_lower
                      [bluetooth_port; clone_port] opens_all
                      (v2uiweb_backend.mkApp
                         v2uiweb_backend.initial_shared_state None 0)))))
      "connected"
    = Some (JBool true) /\
    forall key,
      key <> "connected" ->
      dict_lookup
        (v2uiweb_backend.shared_state
           (snd (fst (v2uiweb_backend.init_controller true ascii_lower
                        [bluetooth_port; clone_port] opens_all
                        (v2uiweb_backend.mkApp
                           v2uiweb_backend.initial_shared_state None 0)))))
        key
      = dict_lookup
          (v2uiweb_backend.shared_state
             (v2uiweb_backend.mkApp
                v2uiweb_backend.initial_shared_state None 0))
          key.
Proof.
  apply (init_controller_flag ascii_lower [bluetooth_port; clone_port]
           opens_all
           (v2uiweb_backend.mkApp v2uiweb_backend.initial_shared_state None 0)
           _ true
           (snd (v2uiweb_backend.init_controller true ascii_lower
                   [bluetooth_port; clone_port] opens_all
                   (v2uiweb_backend.mkApp
                      v2uiweb_backend.initial_shared_state None 0)))).
  reflexivity.
Defined.
